(** * TradeInsight: pattern detection and portfolio risk core

    A shallow embedding of [services/ml-analytics/models/risk_calculator.py]
    and [services/ml-analytics/models/pattern_detector.py], and of the two
    handlers of [services/ml-analytics/app.py] that call them.

    Conventions of the embedding.
    - A Python/NumPy float is a real number ([R]); arithmetic is exact.
    - A Python exception is a value of [exn]; code that may raise returns
      [result A]; [try/except] is a [match] on the result.
    - [np.random.normal] reads from an explicit stream of standard-normal
      draws that is threaded through the code ([M]).
    - Functions of SciPy, NumPy and scikit-learn that the code calls
      ([stats.norm.ppf], [np.percentile], [np.linalg.cholesky], [DBSCAN],
      [find_peaks], [linregress], [argrelextrema], the RSI of [ta]) are
      Section variables. *)

From Stdlib Require Import Reals Lra Lia Sorted.
From stdpp Require Import gmap strings list pretty sorting.

Local Open Scope R_scope.

(** ** Python runtime: floats, exceptions, random draws *)

Module Py.

#[global] Instance Rlt_decision : RelDecision Rlt := Rlt_dec.
#[global] Instance Rgt_decision : RelDecision Rgt := Rgt_dec.
#[global] Instance Rle_decision : RelDecision Rle := Rle_dec.
#[global] Instance Rge_decision : RelDecision Rge := Rge_dec.
#[global] Instance Req_decision : EqDecision R := Req_dec_T.

(** A value of a dict literal whose entries have different types. *)
Inductive pyval : Type :=
  | VFloat (r : R)
  | VInt (z : Z)
  | VStr (s : string).

Inductive exn : Type :=
  | KeyError (key : string)
  | IndexError
  | ZeroDivisionError
  | LinAlgError
  | OtherError.

(** A computation that returns a value or raises. *)
Definition result (A : Type) : Type := (exn + A)%type.

Definition ok {A} (x : A) : result A := inr x.
Definition raise {A} (e : exn) : result A := inl e.

#[global] Instance result_ret : MRet result := @ok.
#[global] Instance result_bind : MBind result := fun A B k m =>
  match m with
  | inl e => inl e
  | inr x => k x
  end.

(** [try: m  except Exception as e: h e] *)
Definition try_except {A} (m : result A) (h : exn -> A) : A :=
  match m with
  | inl e => h e
  | inr x => x
  end.

(** The state of NumPy's global generator: the standard-normal draws it
    is still to produce. *)
Definition rng : Type := nat -> R.

(** A computation that reads draws and returns a value or raises; the
    draws it has read stay read when it raises. *)
Definition M (A : Type) : Type := rng -> result A * rng.

#[global] Instance M_ret : MRet M := fun A x g => (ok x, g).
#[global] Instance M_bind : MBind M := fun A B k m g =>
  match m g with
  | (inl e, g') => (inl e, g')
  | (inr x, g') => k x g'
  end.

Definition lift {A} (r : result A) : M A := fun g => (r, g).

(** [try: m  except Exception as e: h e], for code that reads draws. *)
Definition try_exceptM {A} (m : M A) (h : exn -> M A) : M A := fun g =>
  match m g with
  | (inl e, g') => h e g'
  | (inr x, g') => (inr x, g')
  end.

(** [np.random.normal(loc, scale)]: one draw, shifted and scaled. *)
Definition random_normal (loc scale : R) : M R := fun g =>
  (ok (loc + scale * g 0%nat), fun k => g (S k)).

(** [np.random.normal(loc, scale, n)]: an array of [n] draws. *)
Fixpoint random_normal_n (loc scale : R) (n : nat) : M (list R) :=
  match n with
  | O => mret []
  | S n' =>
      x ← random_normal loc scale;
      xs ← random_normal_n loc scale n';
      mret (x :: xs)
  end.

(** [d[key]] on a dict whose key may be missing. *)
Definition getitem {A} (key : string) (field : option A) : result A :=
  match field with
  | Some v => ok v
  | None => raise (KeyError key)
  end.

(** [l[i]] on a list or array. *)
Definition index {A} (l : list A) (i : nat) : result A :=
  match l !! i with
  | Some v => ok v
  | None => raise IndexError
  end.

(** [d.get(key, dflt)] *)
Definition dict_get `{Countable K} {V} (d : gmap K V) (key : K) (dflt : V) : V :=
  default dflt (d !! key).

(** [a / b] on Python numbers: a zero divisor raises. *)
Definition truediv (a b : R) : result R :=
  if decide (b = 0) then raise ZeroDivisionError else ok (a / b).

Section Loops.
Context {Mo : Type -> Type} `{!MRet Mo, !MBind Mo}.

(** [for i, x in enumerate(l): s = body i x s], left at the first
    exception. *)
Fixpoint for_enumerate {A St} (body : nat -> A -> St -> Mo St)
    (i : nat) (l : list A) (s : St) : Mo St :=
  match l with
  | [] => mret s
  | x :: l' => s' ← body i x s; for_enumerate body (S i) l' s'
  end.

(** [for x in l: s = body x s] *)
Definition for_each {A St} (body : A -> St -> Mo St) (l : list A) (s : St)
    : Mo St :=
  for_enumerate (fun _ => body) 0 l s.

(** [for i in range(lo, hi): s = body i s] *)
Definition for_range {St} (lo hi : nat) (body : nat -> St -> Mo St) (s : St)
    : Mo St :=
  for_each body (seq lo (hi - lo)) s.

End Loops.

(** [sum(l)], [len(l)], [np.mean], [np.std] (population), [np.min],
    [np.cumprod], [np.maximum.accumulate]. *)
Definition fsum (l : list R) : R := foldr Rplus 0 l.
Definition flen {A} (l : list A) : R := INR (length l).
Definition np_mean (l : list R) : R := fsum l / flen l.
Definition np_std (l : list R) : R :=
  sqrt (np_mean (map (fun x => (x - np_mean l) ^ 2) l)).
Definition np_min (l : list R) : R :=
  match l with
  | [] => 0
  | x :: l' => foldl Rmin x l'
  end.

Fixpoint accumulate (op : R -> R -> R) (acc : R) (l : list R) : list R :=
  match l with
  | [] => []
  | x :: l' => op acc x :: accumulate op (op acc x) l'
  end.

Definition np_cumprod (l : list R) : list R := accumulate Rmult 1 l.
Definition np_maximum_accumulate (l : list R) : list R :=
  match l with
  | [] => []
  | x :: l' => x :: accumulate Rmax x l'
  end.

(** A matrix is the list of its rows. [np.eye(n)], [m[i, j] = v],
    [m @ v]. *)
Abbreviation matrix := (list (list R)).

Definition np_eye (n : nat) : matrix :=
  map (fun i => map (fun j => if (i =? j)%nat then 1 else 0) (seq 0 n))
      (seq 0 n).

Definition set_entry (m : matrix) (i j : nat) (v : R) : matrix :=
  alter (fun row => <[j := v]> row) i m.

Definition entry (m : matrix) (i j : nat) : option R :=
  row ← m !! i; row !! j.

Definition matvec (m : matrix) (v : list R) : list R :=
  map (fun row => fsum (zip_with Rmult row v)) m.

End Py.
Import Py.

(** ** risk_calculator.py *)

Module RiskCalculator.

(** A position of the portfolio: a dict with the keys ['symbol'],
    ['position'] (signed size) and ['entry_price'], any of which may be
    missing from a caller's payload. *)
Record Position : Type := mkPosition {
  symbol : option string;
  position : option R;
  entry_price : option R
}.

(** [self.default_correlations] *)
Definition default_correlations : gmap (string * string) R :=
  <[("EURUSD", "GBPUSD") := 0.7]> (
  <[("EURUSD", "USDJPY") := -0.3]> (
  <[("EURUSD", "USDCHF") := -0.8]> (
  <[("EURUSD", "AUDUSD") := 0.6]> (
  <[("EURUSD", "USDCAD") := -0.4]> (
  <[("GBPUSD", "USDJPY") := -0.2]> (
  <[("GBPUSD", "USDCHF") := -0.6]> (
  <[("GBPUSD", "AUDUSD") := 0.8]> (
  <[("USDJPY", "USDCHF") := 0.4]> (
  <[("USDJPY", "AUDUSD") := -0.1]> (
  <[("USDCHF", "AUDUSD") := -0.5]> ∅)))))))))).

(** [self.default_volatilities] (annualized) *)
Definition default_volatilities : gmap string R :=
  <["EURUSD" := 0.08]> (
  <["GBPUSD" := 0.10]> (
  <["USDJPY" := 0.09]> (
  <["USDCHF" := 0.08]> (
  <["AUDUSD" := 0.12]> (
  <["USDCAD" := 0.09]> (
  <["NZDUSD" := 0.13]> (
  <["EURJPY" := 0.11]> (
  <["GBPJPY" := 0.14]> (
  <["CHFJPY" := 0.11]> ∅))))))))).

Definition _get_correlation (symbol1 symbol2 : string) : R :=
  if decide (symbol1 = symbol2) then 1.0
  else
    let pair1 := (symbol1, symbol2) in
    let pair2 := (symbol2, symbol1) in
    match default_correlations !! pair1 with
    | Some c => c
    | None =>
        match default_correlations !! pair2 with
        | Some c => c
        | None => 0.0
        end
    end.

(** The expression [abs(pos['position']) * pos['entry_price']] *)
Definition notional (pos : Position) : result R :=
  position_size ← getitem "position" (position pos);
  entry ← getitem "entry_price" (entry_price pos);
  ok (Rabs position_size * entry).

(** The entry of [position_analysis] for one position. *)
Record PositionAnalysis : Type := mkPositionAnalysis {
  pa_symbol : string;
  pa_position : R;
  pa_entry_price : R;
  current_price : R;
  market_value : R;
  unrealized_pnl : R;
  position_var : R;
  risk_contribution : R;
  correlation_risk : R
}.

Record PortfolioMetrics : Type := mkPortfolioMetrics {
  pm_net_exposure : R;
  pm_gross_exposure : R;
  pm_leverage : R;
  pm_long_exposure : R;
  pm_short_exposure : R
}.

Record VarResults : Type := mkVarResults {
  vr_var : R;
  vr_expected_shortfall : R;
  vr_historical_var : R;
  vr_parametric_var : R;
  vr_monte_carlo_var : R
}.

Record RiskRatios : Type := mkRiskRatios {
  rr_sharpe_ratio : R;
  rr_sortino_ratio : R;
  rr_calmar_ratio : R;
  rr_volatility_annual : R;
  rr_max_drawdown : R
}.

(** The dict returned by [calculate_portfolio_risk]. *)
Record RiskResult : Type := mkRiskResult {
  net_exposure : R;
  gross_exposure : R;
  leverage : R;
  var : R;
  expected_shortfall : R;
  max_drawdown : R;
  sharpe_ratio : R;
  sortino_ratio : R;
  calmar_ratio : R;
  volatility_annual : R;
  positions : list PositionAnalysis;
  recommendations : list string
}.

(** The dict returned by a scenario. *)
Record ScenarioResult : Type := mkScenarioResult {
  probability : R;
  expected_loss : R;
  worst_case_loss : R;
  recovery_time : Z;
  affected_positions : list (list (string * pyval))
}.

Definition _get_empty_risk_result : RiskResult :=
  {| net_exposure := 0.0; gross_exposure := 0.0; leverage := 0.0;
     var := 0.0; expected_shortfall := 0.0; max_drawdown := 0.0;
     sharpe_ratio := 0.0; sortino_ratio := 0.0; calmar_ratio := 0.0;
     volatility_annual := 0.0; positions := []; recommendations := [] |}.

Definition _get_empty_scenario_result : ScenarioResult :=
  {| probability := 0.0; expected_loss := 0.0; worst_case_loss := 0.0;
     recovery_time := 0; affected_positions := [] |}.

Definition timeframe_map : gmap string Z :=
  <["1d" := 1%Z]> (<["5d" := 5%Z]> (<["10d" := 10%Z]> (<["1w" := 7%Z]> (
  <["2w" := 14%Z]> (<["1m" := 22%Z]> (<["3m" := 66%Z]> (<["6m" := 132%Z]> (
  <["1y" := 252%Z]> ∅)))))))).

Definition _convert_timeframe_to_days (timeframe : string) : Z :=
  dict_get timeframe_map timeframe 1%Z.

Definition risk_free_rate : R := 0.02.
Definition monte_carlo_simulations : Z := 10000.

Definition _calculate_position_correlation_risk (sym : string)
    (portfolio : list Position) : result R :=
  correlation_risk ← for_each (fun pos correlation_risk =>
    s ← getitem "symbol" (symbol pos);
    if decide (s <> sym) then
      let corr := Rabs (_get_correlation sym s) in
      ok (correlation_risk + corr)
    else ok correlation_risk) portfolio 0;
  ok (match portfolio with
      | [] => 0
      | _ => correlation_risk / flen portfolio
      end).

Definition _get_current_price (sym : string) (entry : R) : M R :=
  let volatility := dict_get default_volatilities sym 0.10 in
  let daily_vol := volatility / sqrt 252 in
  price_change ← random_normal 0 daily_vol;
  mret (entry * (1 + price_change)).

Definition _calculate_portfolio_metrics (position_analysis : list PositionAnalysis)
    : PortfolioMetrics :=
  let total_long_exposure :=
    fsum (map market_value (filter (fun pos => pa_position pos > 0) position_analysis)) in
  let total_short_exposure :=
    fsum (map market_value (filter (fun pos => pa_position pos < 0) position_analysis)) in
  let net := total_long_exposure - total_short_exposure in
  let gross := total_long_exposure + total_short_exposure in
  let account_balance := 10000 in
  let lev := if decide (account_balance > 0) then gross / account_balance else 0 in
  {| pm_net_exposure := net; pm_gross_exposure := gross; pm_leverage := lev;
     pm_long_exposure := total_long_exposure;
     pm_short_exposure := total_short_exposure |}.

Definition _generate_risk_recommendations (portfolio_metrics : PortfolioMetrics)
    (var_results : VarResults) (risk_metrics : RiskRatios) : list string :=
  let recommendations := [] in
  let lev := pm_leverage portfolio_metrics in
  let recommendations :=
    if decide (lev > 5) then
      recommendations ++ ["Consider reducing leverage - current level is very high"]
    else if decide (lev > 3) then
      recommendations ++ ["Monitor leverage levels - approaching high risk territory"]
    else recommendations in
  let var_amount := vr_var var_results in
  let account_value := 10000 in
  let var_percentage := (var_amount / account_value) * 100 in
  let recommendations :=
    if decide (var_percentage > 10) then
      recommendations ++ ["Daily VaR exceeds 10% of account - consider reducing position sizes"]
    else if decide (var_percentage > 5) then
      recommendations ++ ["Daily VaR is elevated - monitor risk closely"]
    else recommendations in
  let sharpe := rr_sharpe_ratio risk_metrics in
  let recommendations :=
    if decide (sharpe < 0.5) then
      recommendations ++ ["Risk-adjusted returns are low - review trading strategy"]
    else if decide (sharpe > 2) then
      recommendations ++ ["Excellent risk-adjusted returns - maintain current strategy"]
    else recommendations in
  let drawdown := rr_max_drawdown risk_metrics in
  let recommendations :=
    if decide (drawdown > 20) then
      recommendations ++ ["Maximum drawdown is concerning - implement stricter stop losses"]
    else recommendations in
  if decide (length recommendations = 0%nat) then
    recommendations ++ ["Portfolio risk levels are within acceptable ranges"]
  else recommendations.

Section Engine.

(** [scipy.stats.norm.ppf], [np.percentile] and [np.linalg.cholesky] *)
Variable norm_ppf : R -> R.
Variable np_percentile : list R -> R -> R.
Variable np_linalg_cholesky : matrix -> result matrix.

Definition _analyze_positions (portfolio : list Position)
    : M (list PositionAnalysis) :=
  for_each (fun pos position_analysis =>
    sym ← lift (getitem "symbol" (symbol pos));
    position_size ← lift (getitem "position" (position pos));
    entry ← lift (getitem "entry_price" (entry_price pos));
    price ← _get_current_price sym entry;
    let mv := Rabs position_size * price in
    let pnl := position_size * (price - entry) in
    let volatility := dict_get default_volatilities sym 0.10 in
    let daily_vol := volatility / sqrt 252 in
    let pvar := mv * daily_vol * norm_ppf 0.95 in
    let contribution := pvar / flen portfolio in
    corr_risk ← lift (_calculate_position_correlation_risk sym portfolio);
    mret (position_analysis ++ [
      {| pa_symbol := sym; pa_position := position_size;
         pa_entry_price := entry; current_price := price;
         market_value := mv; unrealized_pnl := pnl; position_var := pvar;
         risk_contribution := contribution; correlation_risk := corr_risk |}]))
    portfolio [].

Definition _calculate_historical_var (portfolio : list Position)
    (timeframe_days : Z) (confidence_level : R) : M R :=
  try_exceptM
    (portfolio_returns ← for_range 0 252 (fun _ portfolio_returns =>
       daily_return ← for_each (fun pos daily_return =>
         sym ← lift (getitem "symbol" (symbol pos));
         position_size ← lift (getitem "position" (position pos));
         entry ← lift (getitem "entry_price" (entry_price pos));
         let volatility := dict_get default_volatilities sym 0.10 in
         let daily_vol := volatility / sqrt 252 in
         random_return ← random_normal 0 daily_vol;
         let position_value := Rabs position_size * entry in
         let position_return := position_value * random_return in
         mret (daily_return + position_return)) portfolio 0;
       mret (portfolio_returns ++ [daily_return])) [];
     let portfolio_returns :=
       map (fun r => r * sqrt (IZR timeframe_days)) portfolio_returns in
     let var_percentile := (1 - confidence_level) * 100 in
     let var_estimate := np_percentile portfolio_returns var_percentile in
     mret (Rabs var_estimate))
    (fun _ => mret 0.0).

Definition parametric_variance_loop (portfolio : list Position) : result R :=
  for_each (fun pos portfolio_variance =>
    sym ← getitem "symbol" (symbol pos);
    position_size ← getitem "position" (position pos);
    entry ← getitem "entry_price" (entry_price pos);
    let position_value := Rabs position_size * entry in
    let volatility := dict_get default_volatilities sym 0.10 in
    let daily_vol := volatility / sqrt 252 in
    let position_variance := (position_value * daily_vol) ^ 2 in
    ok (portfolio_variance + position_variance)) portfolio 0.

Definition parametric_correlation_loop (portfolio : list Position) : result R :=
  for_enumerate (fun i pos1 adjustment =>
    for_enumerate (fun j pos2 correlation_adjustment =>
      if negb (i =? j)%nat then
        s1 ← getitem "symbol" (symbol pos1);
        s2 ← getitem "symbol" (symbol pos2);
        let corr := _get_correlation s1 s2 in
        let vol1 := dict_get default_volatilities s1 0.10 / sqrt 252 in
        let vol2 := dict_get default_volatilities s2 0.10 / sqrt 252 in
        value1 ← notional pos1;
        value2 ← notional pos2;
        ok (correlation_adjustment + 2 * corr * vol1 * vol2 * value1 * value2)
      else ok correlation_adjustment) 0%nat portfolio adjustment)
    0%nat portfolio 0.

Definition _calculate_parametric_var (portfolio : list Position)
    (timeframe_days : Z) (confidence_level : R) : R :=
  try_except
    (portfolio_variance ← parametric_variance_loop portfolio;
     correlation_adjustment ← parametric_correlation_loop portfolio;
     let portfolio_variance := portfolio_variance + correlation_adjustment in
     let portfolio_std := sqrt (Rmax 0 portfolio_variance) in
     let portfolio_std := portfolio_std * sqrt (IZR timeframe_days) in
     let z_score := norm_ppf confidence_level in
     let var_estimate := portfolio_std * z_score in
     ok var_estimate)
    (fun _ => 0.0).

(** The loop nest that fills [correlation_matrix]. *)
Definition build_correlation_matrix (portfolio : list Position) : result matrix :=
  let n_positions := length portfolio in
  let correlation_matrix := np_eye n_positions in
  for_range 0 n_positions (fun i correlation_matrix =>
    for_range (i + 1) n_positions (fun j correlation_matrix =>
      pos_i ← index portfolio i;
      s_i ← getitem "symbol" (symbol pos_i);
      pos_j ← index portfolio j;
      s_j ← getitem "symbol" (symbol pos_j);
      let corr := _get_correlation s_i s_j in
      let correlation_matrix := set_entry correlation_matrix i j corr in
      let correlation_matrix := set_entry correlation_matrix j i corr in
      ok correlation_matrix) correlation_matrix) correlation_matrix.

(** [try: cholesky(m) @ x  except np.linalg.LinAlgError: x]; any other
    exception is not caught here. *)
Definition apply_cholesky (correlation_matrix : matrix)
    (independent_returns : list R) : result (list R) :=
  match np_linalg_cholesky correlation_matrix with
  | inr chol_matrix => ok (matvec chol_matrix independent_returns)
  | inl LinAlgError => ok independent_returns
  | inl e => raise e
  end.

(** The loop that scales [correlated_returns[i]] by the daily volatility. *)
Definition scale_by_volatility (portfolio : list Position)
    (correlated_returns : list R) : result (list R) :=
  for_enumerate (fun i pos correlated_returns =>
    sym ← getitem "symbol" (symbol pos);
    let volatility := dict_get default_volatilities sym 0.10 in
    let daily_vol := volatility / sqrt 252 in
    r ← index correlated_returns i;
    ok (<[i := r * daily_vol]> correlated_returns)) 0%nat portfolio
    correlated_returns.

(** The block under the outer [try] of [_generate_correlated_returns]. *)
Definition _generate_correlated_returns_try (portfolio : list Position)
    : M (list R) :=
  let n_positions := length portfolio in
  correlation_matrix ← lift (build_correlation_matrix portfolio);
  independent_returns ← random_normal_n 0 1 n_positions;
  correlated_returns ←
    lift (apply_cholesky correlation_matrix independent_returns);
  lift (scale_by_volatility portfolio correlated_returns).

Definition _generate_correlated_returns (portfolio : list Position)
    : M (list R) :=
  try_exceptM (_generate_correlated_returns_try portfolio)
    (fun _ => random_normal_n 0 0.01 (length portfolio)).

Definition _calculate_monte_carlo_var (portfolio : list Position)
    (timeframe_days : Z) (confidence_level : R) : M R :=
  try_exceptM
    (simulations ← for_range 0 (Z.to_nat monte_carlo_simulations)
       (fun _ portfolio_pnl_simulations =>
         random_returns ← _generate_correlated_returns portfolio;
         portfolio_pnl ← for_enumerate (fun i pos portfolio_pnl =>
           position_size ← lift (getitem "position" (position pos));
           entry ← lift (getitem "entry_price" (entry_price pos));
           r ← lift (index random_returns i);
           let scaled_return := r * sqrt (IZR timeframe_days) in
           let position_value := Rabs position_size * entry in
           let position_pnl := position_value * scaled_return in
           let position_pnl :=
             if decide (position_size < 0) then - position_pnl
             else position_pnl in
           mret (portfolio_pnl + position_pnl)) 0%nat portfolio 0;
         mret (portfolio_pnl_simulations ++ [portfolio_pnl])) [];
     let var_percentile := (1 - confidence_level) * 100 in
     let var_estimate := np_percentile simulations var_percentile in
     mret (Rabs var_estimate))
    (fun _ => mret 0.0).

Definition _calculate_var (portfolio : list Position) (timeframe_days : Z)
    (confidence_level : R) : M VarResults :=
  historical_var ← _calculate_historical_var portfolio timeframe_days confidence_level;
  let parametric_var :=
    _calculate_parametric_var portfolio timeframe_days confidence_level in
  monte_carlo_var ← _calculate_monte_carlo_var portfolio timeframe_days confidence_level;
  let var_estimate := monte_carlo_var in
  let shortfall := var_estimate * 1.3 in
  mret {| vr_var := var_estimate; vr_expected_shortfall := shortfall;
          vr_historical_var := historical_var;
          vr_parametric_var := parametric_var;
          vr_monte_carlo_var := monte_carlo_var |}.

Definition _simulate_portfolio_returns (portfolio : list Position) (days : nat)
    : M (list R) :=
  try_exceptM
    (for_range 0 days (fun _ portfolio_returns =>
       correlated_returns ← _generate_correlated_returns portfolio;
       daily_return ← for_enumerate (fun i pos daily_return =>
         position_size ← lift (getitem "position" (position pos));
         entry ← lift (getitem "entry_price" (entry_price pos));
         let position_value := Rabs position_size * entry in
         r ← lift (index correlated_returns i);
         let position_return := position_value * r in
         let position_return :=
           if decide (position_size < 0) then - position_return
           else position_return in
         mret (daily_return + position_return)) 0%nat portfolio 0;
       let portfolio_return_pct := daily_return / 10000 in
       mret (portfolio_returns ++ [portfolio_return_pct])) [])
    (fun _ => mret []).

Definition _calculate_risk_ratios (portfolio : list Position)
    (position_analysis : list PositionAnalysis) : M RiskRatios :=
  portfolio_returns ← _simulate_portfolio_returns portfolio 252;
  if decide (length portfolio_returns = 0%nat) then
    mret (M := M) {| rr_sharpe_ratio := 0.0; rr_sortino_ratio := 0.0;
            rr_calmar_ratio := 0.0; rr_volatility_annual := 0.0;
            rr_max_drawdown := 0.0 |}
  else
    let annual_return := np_mean portfolio_returns * 252 in
    let annual_volatility := np_std portfolio_returns * sqrt 252 in
    let sharpe :=
      if decide (annual_volatility > 0)
      then (annual_return - risk_free_rate) / annual_volatility else 0 in
    let negative_returns := filter (fun r => r < 0) portfolio_returns in
    let downside_deviation :=
      if decide (0 < length negative_returns)%nat
      then np_std negative_returns * sqrt 252 else annual_volatility in
    let sortino :=
      if decide (downside_deviation > 0)
      then (annual_return - risk_free_rate) / downside_deviation else 0 in
    let cumulative_returns := np_cumprod (map (fun r => 1 + r) portfolio_returns) in
    let running_max := np_maximum_accumulate cumulative_returns in
    let drawdowns :=
      zip_with (fun c m => (c - m) / m) cumulative_returns running_max in
    let drawdown := Rabs (np_min drawdowns) * 100 in
    let calmar :=
      if decide (drawdown > 0) then annual_return / (drawdown / 100) else 0 in
    mret (M := M) {| rr_sharpe_ratio := sharpe; rr_sortino_ratio := sortino;
            rr_calmar_ratio := calmar;
            rr_volatility_annual := annual_volatility;
            rr_max_drawdown := drawdown |}.

(** The block under [try] of [calculate_portfolio_risk]. *)
Definition calculate_portfolio_risk_try (portfolio : list Position)
    (timeframe : string) (confidence_level : R) : M RiskResult :=
  match portfolio with
  | [] => mret _get_empty_risk_result
  | _ =>
      let timeframe_days := _convert_timeframe_to_days timeframe in
      position_analysis ← _analyze_positions portfolio;
      let portfolio_metrics := _calculate_portfolio_metrics position_analysis in
      var_results ← _calculate_var portfolio timeframe_days confidence_level;
      risk_metrics ← _calculate_risk_ratios portfolio position_analysis;
      let recs :=
        _generate_risk_recommendations portfolio_metrics var_results risk_metrics in
      mret {| net_exposure := pm_net_exposure portfolio_metrics;
              gross_exposure := pm_gross_exposure portfolio_metrics;
              leverage := pm_leverage portfolio_metrics;
              var := vr_var var_results;
              expected_shortfall := vr_expected_shortfall var_results;
              max_drawdown := rr_max_drawdown risk_metrics;
              sharpe_ratio := rr_sharpe_ratio risk_metrics;
              sortino_ratio := rr_sortino_ratio risk_metrics;
              calmar_ratio := rr_calmar_ratio risk_metrics;
              volatility_annual := rr_volatility_annual risk_metrics;
              positions := position_analysis;
              recommendations := recs |}
  end.

Definition calculate_portfolio_risk (portfolio : list Position)
    (timeframe : string) (confidence_level : R) : M RiskResult :=
  try_exceptM (calculate_portfolio_risk_try portfolio timeframe confidence_level)
    (fun _ => mret _get_empty_risk_result).

End Engine.

(** *** Scenario analysis *)

Definition _scenario_market_crash (portfolio : list Position) : ScenarioResult :=
  try_except
    (let crash_severity := -0.40 in
     let crash_probability := 0.05 in
     '(total_loss, worst_case, affected) ← for_each
       (fun pos '(total_loss, worst_case, affected) =>
         sym ← getitem "symbol" (symbol pos);
         position_size ← getitem "position" (position pos);
         entry ← getitem "entry_price" (entry_price pos);
         let position_value := Rabs position_size * entry in
         let loss :=
           if decide (position_size > 0)
           then position_value * Rabs crash_severity
           else position_value * crash_severity in
         let worst_loss := loss * 1.5 in
         let affected :=
           if decide (loss > 0) then
             affected ++ [[("symbol", VStr sym); ("expected_loss", VFloat loss);
                           ("loss_percentage", VFloat (Rabs crash_severity * 100))]]
           else affected in
         ok (total_loss + loss, worst_case + worst_loss, affected))
       portfolio (0, 0, []);
     let recovery := 180%Z in
     ok {| probability := crash_probability; expected_loss := total_loss;
           worst_case_loss := worst_case; recovery_time := recovery;
           affected_positions := affected |})
    (fun _ => _get_empty_scenario_result).

Definition _scenario_high_volatility (portfolio : list Position) : ScenarioResult :=
  try_except
    (let volatility_multiplier := 2.5 in
     let scenario_probability := 0.15 in
     '(total_risk, worst_case, affected) ← for_each
       (fun pos '(total_risk, worst_case, affected) =>
         sym ← getitem "symbol" (symbol pos);
         position_size ← getitem "position" (position pos);
         entry ← getitem "entry_price" (entry_price pos);
         let position_value := Rabs position_size * entry in
         let normal_volatility := dict_get default_volatilities sym 0.10 in
         let high_volatility := normal_volatility * volatility_multiplier in
         let daily_var := position_value * (high_volatility / sqrt 252) * 1.65 in
         let monthly_var := daily_var * sqrt 22 in
         (* f"{(volatility_multiplier - 1) * 100:.0f}%" *)
         let affected :=
           affected ++ [[("symbol", VStr sym); ("additional_risk", VFloat monthly_var);
                         ("volatility_increase", VStr "150%")]] in
         ok (total_risk + monthly_var, worst_case + monthly_var * 1.5, affected))
       portfolio (0, 0, []);
     ok {| probability := scenario_probability; expected_loss := total_risk;
           worst_case_loss := worst_case; recovery_time := 60;
           affected_positions := affected |})
    (fun _ => _get_empty_scenario_result).

Definition _scenario_trend_reversal (portfolio : list Position) : ScenarioResult :=
  try_except
    (let reversal_magnitude := 0.20 in
     let scenario_probability := 0.25 in
     '(total_loss, worst_case, affected) ← for_each
       (fun pos '(total_loss, worst_case, affected) =>
         sym ← getitem "symbol" (symbol pos);
         position_size ← getitem "position" (position pos);
         entry ← getitem "entry_price" (entry_price pos);
         let position_value := Rabs position_size * entry in
         let loss := position_value * reversal_magnitude in
         let worst_loss := loss * 1.3 in
         (* f"{reversal_magnitude * 100:.0f}%" *)
         let affected :=
           affected ++ [[("symbol", VStr sym); ("expected_loss", VFloat loss);
                         ("reversal_magnitude", VStr "20%")]] in
         ok (total_loss + loss, worst_case + worst_loss, affected))
       portfolio (0, 0, []);
     ok {| probability := scenario_probability; expected_loss := total_loss;
           worst_case_loss := worst_case; recovery_time := 90;
           affected_positions := affected |})
    (fun _ => _get_empty_scenario_result).

(** [sum(abs(p['position']) * p['entry_price'] for p in portfolio)] *)
Definition total_notional (portfolio : list Position) : result R :=
  for_each (fun p acc => v ← notional p; ok (acc + v)) portfolio 0.

Definition _calculate_portfolio_volatility (portfolio : list Position)
    (use_correlations : bool) : R :=
  try_except
    (match portfolio with
     | [] => ok 0.0
     | _ =>
         portfolio_variance ← for_each (fun pos portfolio_variance =>
           sym ← getitem "symbol" (symbol pos);
           position_size ← getitem "position" (position pos);
           entry ← getitem "entry_price" (entry_price pos);
           let position_value := Rabs position_size * entry in
           let volatility := dict_get default_volatilities sym 0.10 in
           total ← total_notional portfolio;
           weight ← truediv position_value total;
           let position_variance := (weight * volatility) ^ 2 in
           ok (portfolio_variance + position_variance)) portfolio 0;
         portfolio_variance ←
           (if use_correlations && (1 <? length portfolio)%nat then
              for_enumerate (fun i pos1 portfolio_variance =>
                for_enumerate (fun j pos2 portfolio_variance =>
                  if negb (i =? j)%nat then
                    s1 ← getitem "symbol" (symbol pos1);
                    s2 ← getitem "symbol" (symbol pos2);
                    let corr := _get_correlation s1 s2 in
                    let vol1 := dict_get default_volatilities s1 0.10 in
                    let vol2 := dict_get default_volatilities s2 0.10 in
                    value1 ← notional pos1;
                    value2 ← notional pos2;
                    total_value ← total_notional portfolio;
                    weight1 ← truediv value1 total_value;
                    weight2 ← truediv value2 total_value;
                    let correlation_term := weight1 * weight2 * vol1 * vol2 * corr in
                    ok (portfolio_variance + correlation_term)
                  else ok portfolio_variance) 0%nat portfolio portfolio_variance)
                0%nat portfolio portfolio_variance
            else ok portfolio_variance);
         ok (sqrt (Rmax 0 portfolio_variance))
     end)
    (fun _ => 0.0).

Definition _scenario_correlation_breakdown (portfolio : list Position)
    : ScenarioResult :=
  try_except
    (let scenario_probability := 0.10 in
     let current_portfolio_vol := _calculate_portfolio_volatility portfolio true in
     let no_diversification_vol := _calculate_portfolio_volatility portfolio false in
     let diversification_loss := no_diversification_vol - current_portfolio_vol in
     let account_value := 10000 in
     let loss := account_value * diversification_loss * 1.65 in
     let worst_case := loss * 2 in
     affected ← for_each (fun pos affected =>
       sym ← getitem "symbol" (symbol pos);
       ok (affected ++ [[("symbol", VStr sym); ("correlation_impact", VStr "High");
                         ("diversification_loss", VFloat diversification_loss)]]))
       portfolio [];
     ok {| probability := scenario_probability; expected_loss := loss;
           worst_case_loss := worst_case; recovery_time := 120;
           affected_positions := affected |})
    (fun _ => _get_empty_scenario_result).

(** The block under [try] of [run_scenario_analysis]. *)
Definition run_scenario_analysis_try (portfolio : list Position)
    (scenarios : list string) : result (gmap string ScenarioResult) :=
  for_each (fun scenario_name scenario_results =>
    if decide (scenario_name = "market_crash") then
      ok (<[scenario_name := _scenario_market_crash portfolio]> scenario_results)
    else if decide (scenario_name = "high_volatility") then
      ok (<[scenario_name := _scenario_high_volatility portfolio]> scenario_results)
    else if decide (scenario_name = "trend_reversal") then
      ok (<[scenario_name := _scenario_trend_reversal portfolio]> scenario_results)
    else if decide (scenario_name = "correlation_breakdown") then
      ok (<[scenario_name := _scenario_correlation_breakdown portfolio]> scenario_results)
    else
      (* logger.warning; continue *)
      ok scenario_results) scenarios ∅.

Definition run_scenario_analysis (portfolio : list Position)
    (scenarios : list string) : gmap string ScenarioResult :=
  try_except (run_scenario_analysis_try portfolio scenarios) (fun _ => ∅).

End RiskCalculator.

(** ** pattern_detector.py *)

Module PatternDetector.

(** A row of the OHLCV frame; [timestamp] is its index label. *)
Record Candle : Type := mkCandle {
  timestamp : Z;
  open : R;
  high : R;
  low : R;
  close : R;
  volume : R
}.

(** A [pd.DataFrame]: the names of its columns and its rows. A column
    that is not named in [columns] is absent: its values are not read. *)
Record DataFrame : Type := mkDataFrame {
  columns : list string;
  rows : list Candle
}.

Inductive PatternType : Type :=
  | support_resistance | trends | candlestick | technical.

Inductive Signal : Type := bullish | bearish | neutral.

(** A detected pattern: a dict with these keys. [target_price] and
    [stop_loss] are set by the level detector only. *)
Record Pattern : Type := mkPattern {
  id : string;
  type : PatternType;
  name : string;
  start_time : Z;
  end_time : Z;
  confidence : R;
  signal : Signal;
  target_price : option R;
  stop_loss : option R;
  description : string;
  parameters : list (string * pyval)
}.

(** [data.iloc[i]] for [i] in [range(len(data))] *)
Definition iloc (data : DataFrame) (i : nat) : option Candle := rows data !! i.

Definition body_size (candle : Candle) : R := Rabs (close candle - open candle).
Definition lower_shadow (candle : Candle) : R :=
  Rmin (open candle) (close candle) - low candle.
Definition upper_shadow (candle : Candle) : R :=
  high candle - Rmax (open candle) (close candle).

(** *** Candlestick matchers: the condition of each [if], then the loop *)

Definition doji_condition (candle : Candle) : bool :=
  let range_size := high candle - low candle in
  bool_decide (range_size > 0) &&
  bool_decide (body_size candle / range_size < 0.1).

Definition _detect_doji (data : DataFrame) : list Pattern :=
  i ← seq 0 (length (rows data));
  match iloc data i with
  | Some candle =>
      let range_size := high candle - low candle in
      if doji_condition candle then
        [ {| id := "doji_" +:+ pretty i; type := candlestick; name := "Doji";
             start_time := timestamp candle; end_time := timestamp candle;
             confidence := 0.6; signal := neutral;
             target_price := None; stop_loss := None;
             description := "Indecision candle - potential reversal";
             parameters :=
               [("body_ratio",
                 VFloat (if decide (range_size > 0)
                         then body_size candle / range_size else 0));
                ("type", VStr "doji")] |} ]
      else []
  | None => []
  end.

Definition hammer_condition (candle : Candle) : bool :=
  bool_decide (body_size candle > 0) &&
  bool_decide (lower_shadow candle > 2 * body_size candle) &&
  bool_decide (upper_shadow candle < body_size candle) &&
  bool_decide (lower_shadow candle > 0.6 * (high candle - low candle)).

Definition _detect_hammer (data : DataFrame) : list Pattern :=
  i ← seq 0 (length (rows data));
  match iloc data i with
  | Some candle =>
      if hammer_condition candle then
        [ {| id := "hammer_" +:+ pretty i; type := candlestick; name := "Hammer";
             start_time := timestamp candle; end_time := timestamp candle;
             confidence := 0.75; signal := bullish;
             target_price := None; stop_loss := None;
             description := "Potential bullish reversal pattern";
             parameters :=
               [("lower_shadow_ratio",
                 VFloat (if decide (body_size candle > 0)
                         then lower_shadow candle / body_size candle else 0));
                ("type", VStr "hammer")] |} ]
      else []
  | None => []
  end.

Definition shooting_star_condition (candle : Candle) : bool :=
  bool_decide (body_size candle > 0) &&
  bool_decide (upper_shadow candle > 2 * body_size candle) &&
  bool_decide (lower_shadow candle < body_size candle) &&
  bool_decide (upper_shadow candle > 0.6 * (high candle - low candle)).

Definition _detect_shooting_star (data : DataFrame) : list Pattern :=
  i ← seq 0 (length (rows data));
  match iloc data i with
  | Some candle =>
      if shooting_star_condition candle then
        [ {| id := "shooting_star_" +:+ pretty i; type := candlestick;
             name := "Shooting Star";
             start_time := timestamp candle; end_time := timestamp candle;
             confidence := 0.75; signal := bearish;
             target_price := None; stop_loss := None;
             description := "Potential bearish reversal pattern";
             parameters :=
               [("upper_shadow_ratio",
                 VFloat (if decide (body_size candle > 0)
                         then upper_shadow candle / body_size candle else 0));
                ("type", VStr "shooting_star")] |} ]
      else []
  | None => []
  end.

Definition engulfing_bullish_condition (prev_candle curr_candle : Candle) : bool :=
  bool_decide (close prev_candle < open prev_candle) &&
  bool_decide (close curr_candle > open curr_candle) &&
  bool_decide (open curr_candle < close prev_candle) &&
  bool_decide (close curr_candle > open prev_candle).

Definition _detect_engulfing_bullish (data : DataFrame) : list Pattern :=
  i ← seq 1 (length (rows data) - 1);
  match iloc data (i - 1), iloc data i with
  | Some prev_candle, Some curr_candle =>
      if engulfing_bullish_condition prev_candle curr_candle then
        [ {| id := "bullish_engulfing_" +:+ pretty i; type := candlestick;
             name := "Bullish Engulfing";
             start_time := timestamp prev_candle;
             end_time := timestamp curr_candle;
             confidence := 0.8; signal := bullish;
             target_price := None; stop_loss := None;
             description := "Strong bullish reversal pattern";
             parameters :=
               [("engulfing_ratio",
                 VFloat ((close curr_candle - open curr_candle) /
                         (open prev_candle - close prev_candle)));
                ("type", VStr "bullish_engulfing")] |} ]
      else []
  | _, _ => []
  end.

Definition engulfing_bearish_condition (prev_candle curr_candle : Candle) : bool :=
  bool_decide (close prev_candle > open prev_candle) &&
  bool_decide (close curr_candle < open curr_candle) &&
  bool_decide (open curr_candle > close prev_candle) &&
  bool_decide (close curr_candle < open prev_candle).

Definition _detect_engulfing_bearish (data : DataFrame) : list Pattern :=
  i ← seq 1 (length (rows data) - 1);
  match iloc data (i - 1), iloc data i with
  | Some prev_candle, Some curr_candle =>
      if engulfing_bearish_condition prev_candle curr_candle then
        [ {| id := "bearish_engulfing_" +:+ pretty i; type := candlestick;
             name := "Bearish Engulfing";
             start_time := timestamp prev_candle;
             end_time := timestamp curr_candle;
             confidence := 0.8; signal := bearish;
             target_price := None; stop_loss := None;
             description := "Strong bearish reversal pattern";
             parameters :=
               [("engulfing_ratio",
                 VFloat ((open curr_candle - close curr_candle) /
                         (close prev_candle - open prev_candle)));
                ("type", VStr "bearish_engulfing")] |} ]
      else []
  | _, _ => []
  end.

Definition _detect_morning_star (data : DataFrame) : list Pattern := [].
Definition _detect_evening_star (data : DataFrame) : list Pattern := [].
Definition _detect_three_white_soldiers (data : DataFrame) : list Pattern := [].
Definition _detect_three_black_crows (data : DataFrame) : list Pattern := [].

(** [self.candlestick_patterns], in insertion order *)
Definition candlestick_patterns : list (string * (DataFrame -> list Pattern)) :=
  [("doji", _detect_doji); ("hammer", _detect_hammer);
   ("shooting_star", _detect_shooting_star);
   ("engulfing_bullish", _detect_engulfing_bullish);
   ("engulfing_bearish", _detect_engulfing_bearish);
   ("morning_star", _detect_morning_star);
   ("evening_star", _detect_evening_star);
   ("three_white_soldiers", _detect_three_white_soldiers);
   ("three_black_crows", _detect_three_black_crows)].

Definition _detect_candlestick_patterns (data : DataFrame) : list Pattern :=
  foldl (fun patterns '(pattern_name, detector_func) =>
           patterns ++ detector_func data) [] candlestick_patterns.

(** *** Reliability scoring *)

Definition _check_volume_confirmation (data : DataFrame) (pattern : Pattern) : R :=
  0.1.
Definition _analyze_market_context (data : DataFrame) (pattern : Pattern) : R :=
  1.0.
Definition _check_pattern_completion (data : DataFrame) (pattern : Pattern) : R :=
  1.0.

(** The body of the loop of [calculate_reliability]: the score stored
    under the pattern's id. *)
Definition reliability_score (data : DataFrame) (pattern : Pattern) : R :=
  let base_score := confidence pattern in
  let base_score :=
    if bool_decide ("volume" ∈ columns data) then
      let volume_confirmation := _check_volume_confirmation data pattern in
      base_score * (1 + volume_confirmation * 0.2)
    else base_score in
  let market_context := _analyze_market_context data pattern in
  let base_score := base_score * market_context in
  let completion_score := _check_pattern_completion data pattern in
  let base_score := base_score * completion_score in
  Rmin 1.0 base_score.

Definition calculate_reliability (data : DataFrame) (patterns : list Pattern)
    : gmap string R :=
  foldl (fun reliability_scores pattern =>
           <[id pattern := reliability_score data pattern]> reliability_scores)
        ∅ patterns.

(** *** Support and resistance levels *)

Section Levels.

(** [DBSCAN(eps, min_samples).fit_predict]: one label per point, [-1]
    for noise. [scipy.signal.find_peaks(data, prominence)]: the indices
    of the peaks. [format_level]: the rendering [f'{level:.5f}']. *)
Variable DBSCAN_fit_predict : R -> nat -> list R -> list Z.
Variable find_peaks : list R -> R -> list nat.
Variable format_level : R -> string.

Definition _find_significant_peaks (data : list R) (prominence : R) : list nat :=
  find_peaks data (prominence * np_mean data).

Definition _find_significant_valleys (data : list R) (prominence : R) : list nat :=
  find_peaks (map Ropp data) (prominence * np_mean data).

(** [for cluster_id in set(cluster_labels)]: the distinct labels in the
    order in which CPython visits a set of the labels of DBSCAN, which
    are [-1] and [0 .. k-1]: an integer is stored at the slot of its
    hash, so the labels from 0 on come in ascending order and the noise
    label [-1], of hash [-2], comes last. *)
Definition set_iteration (cluster_labels : list Z) : list Z :=
  let distinct :=
    merge_sort Z.le (elements (list_to_set cluster_labels : gset Z)) in
  filter (fun l => (0 <= l)%Z) distinct ++ filter (fun l => (l < 0)%Z) distinct.

(** [levels[cluster_labels == cluster_id]] *)
Definition cluster_points (levels : list R) (cluster_labels : list Z)
    (cluster_id : Z) : list R :=
  (filter (fun lp => lp.2 = cluster_id) (zip levels cluster_labels)).*1.

Definition _cluster_levels (levels : list R) (eps : R) : list (R * R * nat) :=
  if decide (length levels < 2)%nat then []
  else
    let cluster_labels :=
      DBSCAN_fit_predict (eps * np_mean levels) 2 levels in
    cluster_id ← set_iteration cluster_labels;
    if decide (cluster_id = (-1)%Z) then []
    else
      let points := cluster_points levels cluster_labels cluster_id in
      if decide (2 <= length points)%nat then
        let level := np_mean points in
        let strength := flen points * np_std points in
        let touches := length points in
        [(level, strength, touches)]
      else [].

(** [series.iloc[indices].values] *)
Definition take_indices (series : list R) (indices : list nat) : result (list R) :=
  mapM (index series) indices.

(** [data.index[i]] and [data.index[-1]] *)
Definition index_label (data : DataFrame) (i : nat) : result Z :=
  candle ← index (rows data) i; ok (timestamp candle).
Definition last_index_label (data : DataFrame) : result Z :=
  match last (rows data) with
  | Some candle => ok (timestamp candle)
  | None => raise IndexError
  end.

Definition resistance_pattern (n : nat) (start_t end_t : Z)
    (level strength : R) (touches : nat) : Pattern :=
  {| id := "resistance_" +:+ pretty n; type := support_resistance;
     name := "Resistance Level";
     start_time := start_t; end_time := end_t;
     confidence := Rmin 0.9 (strength / 10); signal := bearish;
     target_price := Some level; stop_loss := Some (level * 1.005);
     description := "Resistance at " +:+ format_level level +:+ " with "
                    +:+ pretty touches +:+ " touches";
     parameters := [("level", VFloat level); ("strength", VFloat strength);
                    ("touches", VInt (Z.of_nat touches));
                    ("type", VStr "resistance")] |}.

Definition support_pattern (n : nat) (start_t end_t : Z)
    (level strength : R) (touches : nat) : Pattern :=
  {| id := "support_" +:+ pretty n; type := support_resistance;
     name := "Support Level";
     start_time := start_t; end_time := end_t;
     confidence := Rmin 0.9 (strength / 10); signal := bullish;
     target_price := Some level; stop_loss := Some (level * 0.995);
     description := "Support at " +:+ format_level level +:+ " with "
                    +:+ pretty touches +:+ " touches";
     parameters := [("level", VFloat level); ("strength", VFloat strength);
                    ("touches", VInt (Z.of_nat touches));
                    ("type", VStr "support")] |}.

(** One of the two blocks of [_detect_support_resistance]: cluster the
    column values at the extrema and append one pattern per level. *)
Definition append_levels
    (make : nat -> Z -> Z -> R -> R -> nat -> Pattern)
    (data : DataFrame) (column : list R) (extrema : list nat)
    (patterns : list Pattern) : result (list Pattern) :=
  if decide (2 < length extrema)%nat then
    values ← take_indices column extrema;
    let levels := _cluster_levels values 0.001 in
    for_each (fun '(level, strength, touches) patterns =>
      first ← index extrema 0;
      start_t ← index_label data (Nat.max 0 (first - 10));
      end_t ← last_index_label data;
      ok (patterns ++ [make (length patterns) start_t end_t level strength touches]))
      levels patterns
  else ok patterns.

Definition _detect_support_resistance (data : DataFrame) : result (list Pattern) :=
  let patterns := [] in
  let highs := _find_significant_peaks (map high (rows data)) 0.001 in
  let lows := _find_significant_valleys (map low (rows data)) 0.001 in
  patterns ← append_levels resistance_pattern data (map high (rows data)) highs patterns;
  patterns ← append_levels support_pattern data (map low (rows data)) lows patterns;
  ok patterns.

End Levels.

End PatternDetector.

(** ** Vocabulary of the properties *)

Module Vocabulary.
Import RiskCalculator PatternDetector.

(** A matcher fires at an index when its output holds the pattern with
    that index's id. *)
Definition fires (patterns : list Pattern) (pattern_id : string) : Prop :=
  ∃ p, p ∈ patterns ∧ id p = pattern_id.

(** The score the contract-default policy names: confidence times a flat
    1.1 volume factor, 1.0 context and 1.0 completion, clamped to [0,1]. *)
Definition policy_reliability (c : R) : R :=
  Rmax 0 (Rmin 1 (c * 1.1 * 1.0 * 1.0)).

(** The daily volatility of a symbol, as every loop of the risk
    calculator computes it:
    [self.default_volatilities.get(symbol, 0.10) / np.sqrt(252)]. *)
Definition daily_volatility (sym : string) : R :=
  dict_get default_volatilities sym 0.10 / sqrt 252.

(** A position whose three keys are present. *)
Definition position_of (t : string * R * R) : Position :=
  let '(sym, size, entry) := t in
  {| symbol := Some sym; position := Some size; entry_price := Some entry |}.

(** The mean of |corr(symbol, other)| over the other symbols of the
    portfolio, as the specification words it. *)
Definition mean_abs_correlation (sym : string) (symbols : list string) : R :=
  let others := filter (fun s => s ≠ sym) symbols in
  fsum (map (fun s => Rabs (_get_correlation sym s)) others) / flen others.

(** The sum the analyzer divides by the portfolio size. *)
Definition sum_abs_correlation (sym : string) (symbols : list string) : R :=
  fsum (map (fun s => Rabs (_get_correlation sym s))
            (filter (fun s => s ≠ sym) symbols)).

Definition symbols_of (triples : list (string * R * R)) : list string :=
  map (fun t => t.1.1) triples.

(** What the analyzer reports for one position of a portfolio of [n]
    positions with the given symbols. *)
Definition analyzed (norm_ppf : R -> R) (n : nat) (symbols : list string)
    (t : string * R * R) (a : PositionAnalysis) : Prop :=
  let '(sym, size, entry) := t in
  pa_symbol a = sym ∧ pa_position a = size ∧ pa_entry_price a = entry ∧
  market_value a = Rabs size * current_price a ∧
  unrealized_pnl a = size * (current_price a - entry) ∧
  position_var a
    = market_value a * (dict_get default_volatilities sym 0.10 / sqrt 252)
      * norm_ppf 0.95 ∧
  risk_contribution a = position_var a / INR n ∧
  correlation_risk a = sum_abs_correlation sym symbols / INR n.

(** The cluster of a label, as the specification words it: the values
    whose label is that label, in the order of the values. *)
Definition cluster (values : list R) (labels : list Z) (cluster_id : Z)
    : list R :=
  omap (fun i => if decide (labels !! i = Some cluster_id)
                 then values !! i else None)
       (seq 0 (length values)).

Definition known_scenarios : list string :=
  ["market_crash"; "high_volatility"; "trend_reversal"; "correlation_breakdown"].

(** An n-by-n matrix. *)
Definition shape (n : nat) (m : matrix) : Prop :=
  length m = n ∧ ∀ i row, m !! i = Some row → length row = n.

(** The symbols of a portfolio, position by position (the empty string
    where the key is missing). *)
Definition symbols_in (portfolio : list Position) : list string :=
  map (fun pos => default "" (symbol pos)) portfolio.

(** The symbol at an index of the portfolio. *)
Definition symbol_at (symbols : list string) (i : nat) : string :=
  default "" (symbols !! i).

(** The entry of the correlation matrix while it is being filled: 1 on
    the diagonal, the looked-up correlation where the pair [(p, q)],
    [p < q], has been written ([filled p q]), 0 elsewhere. *)
Definition cell (symbols : list string) (filled : nat -> nat -> bool)
    (a b : nat) : R :=
  if (a =? b)%nat then 1
  else if filled (a `min` b)%nat (a `max` b)%nat
       then _get_correlation (symbol_at symbols (a `min` b)%nat)
                             (symbol_at symbols (a `max` b)%nat)
       else 0.

Definition symmetric (m : matrix) : Prop :=
  ∀ i j, entry m i j = entry m j i.

Definition unit_diagonal (n : nat) (m : matrix) : Prop :=
  ∀ i, (i < n)%nat → entry m i i = Some 1.

End Vocabulary.

(** ** Concrete inputs *)

Module Examples.
Import RiskCalculator PatternDetector Vocabulary.

Definition ohlcv : list string := ["open"; "high"; "low"; "close"; "volume"].

(** A frame with the five OHLCV columns and no rows. *)
Definition empty_series : DataFrame := {| columns := ohlcv; rows := [] |}.

(** A pattern of confidence 0.5. *)
Definition half_confident : Pattern :=
  {| id := "doji_0"; type := candlestick; name := "Doji";
     start_time := 0; end_time := 0; confidence := 0.5; signal := neutral;
     target_price := None; stop_loss := None;
     description := "Indecision candle - potential reversal";
     parameters := [("body_ratio", VFloat 0); ("type", VStr "doji")] |}.

(** One unit of EURUSD and one of GBPUSD, both entered at 1. *)
Definition eurusd_gbpusd : list (string * R * R) :=
  [("EURUSD", 1, 1); ("GBPUSD", 1, 1)].

(** Two positions of one unit of EURUSD, and the one position of two
    units that has the sum of their values. *)
Definition eurusd_twice : list Position :=
  [position_of ("EURUSD", 1, 1); position_of ("EURUSD", 1, 1)].
Definition eurusd_merged : list Position :=
  [position_of ("EURUSD", 2, 1)].

(** Three candles that touch 2 from below and 1 from above. *)
Definition range_bound : DataFrame :=
  {| columns := ohlcv;
     rows := [ {| timestamp := 0; open := 1; high := 2; low := 1; close := 2; volume := 1 |};
               {| timestamp := 1; open := 2; high := 2; low := 1; close := 1; volume := 1 |};
               {| timestamp := 2; open := 1; high := 2; low := 1; close := 2; volume := 1 |} ] |}.

(** A clustering that puts all points in cluster 0, a peak finder that
    reports the first three indices, a rendering that prints nothing. *)
Definition one_cluster (eps : R) (min_samples : nat) (points : list R) : list Z :=
  map (fun _ => 0%Z) points.
Definition first_three (data : list R) (prominence : R) : list nat :=
  [0; 1; 2]%nat.
Definition no_digits (level : R) : string := "".

(** A factorization that rejects every matrix, and a stream of draws
    that are all 1. *)
Definition never_positive_definite (m : matrix) : result matrix :=
  raise LinAlgError.
Definition all_ones : rng := fun _ => 1.

(** A position whose payload lacks the ['symbol'] key. *)
Definition nameless_position : Position :=
  {| symbol := None; position := Some 1; entry_price := Some 1 |}.

End Examples.

(** ** pattern_detector.py: trends, chart patterns and the entry point *)

Module Detection.
Import PatternDetector.

(** The dict returned by [_calculate_trend]. *)
Record Trend : Type := mkTrend {
  slope : R;
  intercept : R;
  r_squared : R;
  p_value : R;
  std_error : R
}.

(** [np.arange(n)], [a[-n:]] and [series.tail(n)]. *)
Definition np_arange (n : nat) : list R := map INR (seq 0 n).
Definition tail {A} (n : nat) (l : list A) : list A := drop (length l - n) l.

(** [a > b] on floats that may be NaN (here [None]): false on a NaN. *)
Definition float_gt (a b : option R) : bool :=
  match a, b with
  | Some x, Some y => bool_decide (x > y)
  | _, _ => false
  end.

(** [list.sort(key=key, reverse=True)]: stable, so an element goes behind
    the elements that came before it and have the same key. *)
Fixpoint insert_reverse {A} (key : A -> R) (x : A) (sorted : list A) : list A :=
  match sorted with
  | [] => [x]
  | y :: rest =>
      if decide (key y >= key x) then y :: insert_reverse key x rest
      else x :: y :: rest
  end.
Definition sort_reverse {A} (key : A -> R) (l : list A) : list A :=
  foldl (fun sorted x => insert_reverse key x sorted) [] l.

Definition _detect_head_and_shoulders (data : DataFrame) : list Pattern := [].
Definition _detect_inverse_head_and_shoulders (data : DataFrame) : list Pattern := [].
Definition _detect_double_top (data : DataFrame) : list Pattern := [].
Definition _detect_double_bottom (data : DataFrame) : list Pattern := [].
Definition _detect_ascending_triangle (data : DataFrame) : list Pattern := [].
Definition _detect_descending_triangle (data : DataFrame) : list Pattern := [].
Definition _detect_symmetrical_triangle (data : DataFrame) : list Pattern := [].
Definition _detect_rising_wedge (data : DataFrame) : list Pattern := [].
Definition _detect_falling_wedge (data : DataFrame) : list Pattern := [].
Definition _detect_bull_flag (data : DataFrame) : list Pattern := [].
Definition _detect_bear_flag (data : DataFrame) : list Pattern := [].
Definition _detect_pennant (data : DataFrame) : list Pattern := [].

(** [self.chart_patterns], in insertion order *)
Definition chart_patterns : list (string * (DataFrame -> list Pattern)) :=
  [("head_and_shoulders", _detect_head_and_shoulders);
   ("inverse_head_and_shoulders", _detect_inverse_head_and_shoulders);
   ("double_top", _detect_double_top);
   ("double_bottom", _detect_double_bottom);
   ("triangle_ascending", _detect_ascending_triangle);
   ("triangle_descending", _detect_descending_triangle);
   ("triangle_symmetrical", _detect_symmetrical_triangle);
   ("wedge_rising", _detect_rising_wedge);
   ("wedge_falling", _detect_falling_wedge);
   ("flag_bull", _detect_bull_flag);
   ("flag_bear", _detect_bear_flag);
   ("pennant", _detect_pennant)].

(** Each matcher runs under its own [try]; a failure is logged and the
    patterns found so far are kept. *)
Definition _detect_chart_patterns (data : DataFrame) : list Pattern :=
  foldl (fun patterns '(pattern_name, detector_func) =>
           try_except (ok (patterns ++ detector_func data))
                      (fun _ => patterns)) [] chart_patterns.

Section Detectors.

(** [scipy.stats.linregress(x, y)]: slope, intercept, r value, p value
    and standard error. [ta.momentum.RSIIndicator(close).rsi()]: one
    value per price, NaN while the window fills.
    [scipy.signal.argrelextrema(a, np.less, order)[0]]: the indices of
    the local minima. The clustering, the peak finder and the rendering
    of a level are those of the level detector. *)
Variable linregress : list R -> list R -> result (R * R * R * R * R).
Variable RSIIndicator_rsi : list R -> result (list (option R)).
Variable argrelextrema_less : list (option R) -> nat -> result (list nat).
Variable DBSCAN_fit_predict : R -> nat -> list R -> list Z.
Variable find_peaks : list R -> R -> list nat.
Variable format_level : R -> string.

Definition _calculate_trend (data : list R) : result Trend :=
  let x := np_arange (length data) in
  '(slope, intercept, r_value, p_value, std_err) ← linregress x data;
  ok {| slope := slope; intercept := intercept; r_squared := r_value ^ 2;
        p_value := p_value; std_error := std_err |}.

Definition _detect_trend_reversals (data : DataFrame) : result (list Pattern) :=
  let patterns := [] in
  rsi ← RSIIndicator_rsi (map close (rows data));
  let close_prices := rows data in
  let recent_data_length := Nat.min 50 (length (rows data)) in
  let recent_close := tail recent_data_length close_prices in
  let recent_rsi := tail recent_data_length rsi in
  price_lows ← argrelextrema_less (map (fun c => Some (close c)) recent_close) 5;
  rsi_lows ← argrelextrema_less recent_rsi 5;
  if decide (2 <= length price_lows ∧ 2 <= length rsi_lows)%nat then
    last_price_low ← index price_lows (length price_lows - 1);
    prev_price_low ← index price_lows (length price_lows - 2);
    close_last ← index recent_close last_price_low;
    close_prev ← index recent_close prev_price_low;
    if decide (close close_last < close close_prev) then
      rsi_last ← index recent_rsi last_price_low;
      rsi_prev ← index recent_rsi prev_price_low;
      if float_gt rsi_last rsi_prev then
        ok (patterns ++ [
          {| id := "bullish_divergence_" +:+ pretty (length patterns);
             type := trends; name := "Bullish RSI Divergence";
             start_time := timestamp close_prev;
             end_time := timestamp close_last;
             confidence := 0.7; signal := bullish;
             target_price := None; stop_loss := None;
             description := "Price makes lower low while RSI makes higher low";
             parameters := [("type", VStr "rsi_divergence");
                            ("direction", VStr "bullish")] |}])
      else ok patterns
    else ok patterns
  else ok patterns.

(** One of the two blocks of [_detect_trends]: the trend over the last
    [period] closes, reported when its slope is significant. *)
Definition append_trend (data : DataFrame) (period : nat)
    (id_prefix name_prefix : string) (describe : string -> string)
    (term : string) (patterns : list Pattern) : result (list Pattern) :=
  let close_prices := map close (rows data) in
  if decide (period <= length close_prices)%nat then
    trend ← _calculate_trend (tail period close_prices);
    if decide (Rabs (slope trend) > 0.0001) then
      start_t ← index_label data (length (rows data) - period);
      end_t ← last_index_label data;
      ok (patterns ++ [
        {| id := id_prefix +:+ pretty (length patterns);
           type := trends;
           name := name_prefix +:+
                   (if decide (slope trend > 0) then "Uptrend" else "Downtrend");
           start_time := start_t; end_time := end_t;
           confidence := Rmin 0.9 (r_squared trend);
           signal := if decide (slope trend > 0) then bullish else bearish;
           target_price := None; stop_loss := None;
           description :=
             describe (if decide (slope trend > 0) then "up" else "down");
           parameters := [("slope", VFloat (slope trend));
                          ("r_squared", VFloat (r_squared trend));
                          ("period", VInt (Z.of_nat period));
                          ("type", VStr term)] |}])
    else ok patterns
  else ok patterns.

Definition _detect_trends (data : DataFrame) : result (list Pattern) :=
  let patterns := [] in
  patterns ← append_trend data 20 "trend_short_" "Short-term "
    (fun direction => "Strong " +:+ direction +:+ "trend detected")
    "short_term" patterns;
  patterns ← append_trend data 50 "trend_medium_" "Medium-term "
    (fun direction => "Medium-term " +:+ direction +:+ "trend")
    "medium_term" patterns;
  reversal_patterns ← _detect_trend_reversals data;
  ok (patterns ++ reversal_patterns).

Definition detect_patterns (data : DataFrame)
    (pattern_types : option (list string)) : result (list Pattern) :=
  let pattern_types :=
    match pattern_types with
    | None => ["support_resistance"; "trends"; "candlestick"; "technical"]
    | Some pattern_types => pattern_types
    end in
  let all_patterns := [] in
  all_patterns ←
    (if decide ("support_resistance" ∈ pattern_types) then
       sr_patterns ← _detect_support_resistance DBSCAN_fit_predict find_peaks
                        format_level data;
       ok (all_patterns ++ sr_patterns)
     else ok all_patterns);
  all_patterns ←
    (if decide ("trends" ∈ pattern_types) then
       trend_patterns ← _detect_trends data;
       ok (all_patterns ++ trend_patterns)
     else ok all_patterns);
  let all_patterns :=
    if decide ("candlestick" ∈ pattern_types) then
      all_patterns ++ _detect_candlestick_patterns data
    else all_patterns in
  let all_patterns :=
    if decide ("technical" ∈ pattern_types) then
      all_patterns ++ _detect_chart_patterns data
    else all_patterns in
  ok (sort_reverse confidence all_patterns).

End Detectors.

End Detection.

(** ** app.py: the pattern analysis behind [/analyze/patterns] *)

Module App.
Import RiskCalculator PatternDetector Detection.

#[global] Instance Signal_eq_dec : EqDecision Signal.
Proof. solve_decision. Defined.

(** [max(l, key=key)] on a list that is not empty: the first element
    with the largest key. *)
Definition max_by {A} (key : A -> R) (x : A) (l : list A) : A :=
  foldl (fun best y => if decide (key y > key best) then y else best) x l.

(** The ['summary'] of the response. *)
Record Summary : Type := mkSummary {
  bullish_patterns : nat;
  bearish_patterns : nat;
  neutral_patterns : nat;
  avg_confidence : R;
  strongest_signal : Signal
}.

(** The response: the number of patterns, each pattern with its
    ['reliability_score'], and the summary. The rendering of the other
    fields of a pattern is left out. *)
Record Response : Type := mkResponse {
  patterns_detected : nat;
  patterns : list (Pattern * R);
  summary : Summary
}.

(** What the handler answers: 404 when there is no data, the response,
    or 500 when an exception was raised. *)
Inductive Reply : Type :=
  | not_found
  | reply (r : Response)
  | internal_server_error.

Section Handler.

Variable linregress : list R -> list R -> result (R * R * R * R * R).
Variable RSIIndicator_rsi : list R -> result (list (option R)).
Variable argrelextrema_less : list (option R) -> nat -> result (list nat).
Variable DBSCAN_fit_predict : R -> nat -> list R -> list Z.
Variable find_peaks : list R -> R -> list nat.
Variable format_level : R -> string.

(** [analyze_patterns] from the historical data on: [pattern_types] is
    the value read from the request. *)
Definition analyze_patterns (historical_data : DataFrame)
    (pattern_types : option (list string)) : Reply :=
  try_except
    (if decide (rows historical_data = [] ∨ columns historical_data = [])
     then ok not_found
     else
       patterns ← detect_patterns linregress RSIIndicator_rsi
                    argrelextrema_less DBSCAN_fit_predict find_peaks
                    format_level historical_data pattern_types;
       let reliability_scores :=
         calculate_reliability historical_data patterns in
       ok (reply
         {| patterns_detected := length patterns;
            patterns :=
              map (fun pattern =>
                     (pattern, dict_get reliability_scores (id pattern) 0))
                  patterns;
            summary :=
              {| bullish_patterns :=
                   length (filter (fun p => signal p = bullish) patterns);
                 bearish_patterns :=
                   length (filter (fun p => signal p = bearish) patterns);
                 neutral_patterns :=
                   length (filter (fun p => signal p = neutral) patterns);
                 avg_confidence :=
                   match patterns with
                   | [] => 0
                   | _ => np_mean (map confidence patterns)
                   end;
                 strongest_signal :=
                   match patterns with
                   | [] => neutral
                   | p :: rest => signal (max_by confidence p rest)
                   end |} |}))
    (fun _ => internal_server_error).

End Handler.

(** The ['confidence_level'] of the payload: a JSON number, which
    Python reads as a float that may be NaN or infinite, or [null]. *)
Inductive Level : Type :=
  | level (r : R)
  | level_nan
  | level_infinity (negative : bool)
  | level_null.

(** The magnitude from which a float is infinite. *)
Definition float_overflow : R := 2 ^ 1024.

(** [int(x)] on a finite float: the fraction is cut off. The float is
    read as the real it stands for, so the rounding of the product
    before it (0.29 * 100 is a float just below 29) is not modelled. *)
Definition python_int (x : R) : Z :=
  if decide (0 <= x) then Int_part x else (- Int_part (- x))%Z.

(** [int(confidence_level * 100)]: a TypeError on [null], a ValueError
    on NaN, an OverflowError on an infinite product. *)
Definition int_of_percent (confidence_level : Level) : result Z :=
  match confidence_level with
  | level r =>
      if decide (Rabs (r * 100) < float_overflow) then ok (python_int (r * 100))
      else raise OtherError
  | level_nan => raise OtherError
  | level_infinity _ => raise OtherError
  | level_null => raise OtherError
  end.

(** The response of [/calculate/risk]: the number of positions, the key
    of the VaR figure, the risk result that the summary, the metrics,
    the position analysis and the recommendations are read from, and
    the scenario results. *)
Record RiskResponse : Type := mkRiskResponse {
  total_positions : nat;
  value_at_risk_key : string;
  risk_result : RiskResult;
  scenario_analysis : gmap string ScenarioResult
}.

(** What the handler answers: 400 without a portfolio, the response, or
    500 when an exception was raised. *)
Inductive RiskReply : Type :=
  | bad_request
  | risk_reply (r : RiskResponse)
  | risk_internal_server_error.

Section RiskHandler.

Variable norm_ppf : R -> R.
Variable np_percentile : list R -> R -> R.
Variable np_linalg_cholesky : matrix -> result matrix.

(** [calculate_portfolio_risk] at a confidence level that is not a real
    number, where the embedding of the risk calculator does not reach:
    any computation. *)
Variable calculate_portfolio_risk_elsewhere :
  list Position -> string -> Level -> M RiskResult.

(** [calculate_risk] from the parsed payload on: a portfolio that is a
    list of positions, a timeframe that is a string, a confidence level
    that is a number or [null]. Of the expressions that build the
    response, [int(confidence_level*100)] is the one that can raise: the
    others read keys that the risk result, its positions and the
    scenario results all have, and apply [float] to their floats and
    [int] to the recovery time, an integer constant of each scenario. *)
Definition calculate_risk (portfolio : list Position) (timeframe : string)
    (confidence_level : Level) (scenario_analysis : bool) : M RiskReply :=
  try_exceptM
    (match portfolio with
     | [] => mret bad_request
     | _ =>
         risk_result ←
           match confidence_level with
           | level r =>
               calculate_portfolio_risk norm_ppf np_percentile
                 np_linalg_cholesky portfolio timeframe r
           | _ =>
               calculate_portfolio_risk_elsewhere portfolio timeframe
                 confidence_level
           end;
         let scenarios :=
           if scenario_analysis then
             run_scenario_analysis portfolio
               ["market_crash"; "high_volatility"; "trend_reversal";
                "correlation_breakdown"]
           else ∅ in
         percent ← lift (int_of_percent confidence_level);
         mret (risk_reply
           {| total_positions := length portfolio;
              value_at_risk_key := "var_" +:+ pretty percent;
              risk_result := risk_result;
              scenario_analysis := scenarios |})
     end)
    (fun _ => mret risk_internal_server_error).

End RiskHandler.

End App.

(** ** The lookup tables, entry by entry *)

Module Tables.
Import RiskCalculator.

(** The entries of [default_correlations]. *)
Definition correlation_pairs : list (string * string * R) :=
  [("EURUSD", "GBPUSD", 0.7); ("EURUSD", "USDJPY", -0.3);
   ("EURUSD", "USDCHF", -0.8); ("EURUSD", "AUDUSD", 0.6);
   ("EURUSD", "USDCAD", -0.4); ("GBPUSD", "USDJPY", -0.2);
   ("GBPUSD", "USDCHF", -0.6); ("GBPUSD", "AUDUSD", 0.8);
   ("USDJPY", "USDCHF", 0.4); ("USDJPY", "AUDUSD", -0.1);
   ("USDCHF", "AUDUSD", -0.5)].

(** The keys and the values of the timeframe map. *)
Definition timeframe_names : list string :=
  ["1d"; "5d"; "10d"; "1w"; "2w"; "1m"; "3m"; "6m"; "1y"].
Definition timeframe_lengths : list Z :=
  [1; 5; 10; 7; 14; 22; 66; 132; 252]%Z.

End Tables.

(** ** Vocabulary of the further properties *)

Module Terms.
Import RiskCalculator PatternDetector Detection Vocabulary.

(** A position that lacks one of its three keys. *)
Definition lacks_a_key (pos : Position) : Prop :=
  symbol pos = None ∨ position pos = None ∨ entry_price pos = None.

(** The signed and the absolute notional of a position at entry. *)
Definition signed_notional (t : string * R * R) : R := t.1.2 * t.2.
Definition gross_notional (t : string * R * R) : R := Rabs t.1.2 * t.2.

(** The stressed one-month VaR of a position in the high-volatility
    scenario. *)
Definition stressed_monthly_var (t : string * R * R) : R :=
  gross_notional t
  * (dict_get default_volatilities t.1.1 0.10 * 2.5 / sqrt 252) * 1.65
  * sqrt 22.

(** The message of [_generate_risk_recommendations] when no rule
    triggers, and the condition under which none does. *)
Definition all_clear : string :=
  "Portfolio risk levels are within acceptable ranges".

Definition no_rule_triggers (pm : PortfolioMetrics) (vr : VarResults)
    (rr : RiskRatios) : Prop :=
  pm_leverage pm <= 3 ∧ vr_var vr / 10000 * 100 <= 5 ∧
  0.5 <= rr_sharpe_ratio rr <= 2 ∧ rr_max_drawdown rr <= 20.

(** The scenario a name stands for, if it is one of the four. *)
Definition scenario_of (portfolio : list Position) (name : string)
    : option ScenarioResult :=
  if decide (name = "market_crash") then Some (_scenario_market_crash portfolio)
  else if decide (name = "high_volatility") then
    Some (_scenario_high_volatility portfolio)
  else if decide (name = "trend_reversal") then
    Some (_scenario_trend_reversal portfolio)
  else if decide (name = "correlation_breakdown") then
    Some (_scenario_correlation_breakdown portfolio)
  else None.

(** A position without its direction: the size replaced by its absolute
    value. *)
Definition unsigned (t : string * R * R) : string * R * R :=
  (t.1.1, Rabs t.1.2, t.2).

(** The ids of a list of patterns all start with a prefix and end in a
    number. *)
Definition ids_start_with (prefix : string) (patterns : list Pattern) : Prop :=
  ∀ p, p ∈ patterns → ∃ i : nat, id p = prefix +:+ pretty i.

(** Two prefixes neither of which starts the other: no two strings that
    start with them are equal. *)
Definition apart (a b : string) : Prop := ∀ x y : string, a +:+ x ≠ b +:+ y.

(** The pattern types a request selects: the four of them when the
    request names none. *)
Definition selected (pattern_types : option (list string)) : list string :=
  match pattern_types with
  | None => ["support_resistance"; "trends"; "candlestick"; "technical"]
  | Some pattern_types => pattern_types
  end.

End Terms.

(** ** Further inputs *)

Module Cases.
Import RiskCalculator PatternDetector Vocabulary Examples.

(** A position whose payload lacks the ['position'] key. *)
Definition sizeless_position : Position :=
  {| symbol := Some "EURUSD"; position := None; entry_price := Some 1 |}.

(** One unit of EURUSD long and one short, and two units long. *)
Definition hedged_pair : list (string * R * R) :=
  [("EURUSD", 1, 1); ("EURUSD", -1, 1)].
Definition doubled_pair : list (string * R * R) :=
  [("EURUSD", 1, 1); ("EURUSD", 1, 1)].

(** A frame of one candle that opens and closes at 1 between 0 and 2,
    and the pattern the doji matcher reports on it. *)
Definition one_doji : DataFrame :=
  {| columns := ohlcv;
     rows := [ {| timestamp := 0; open := 1; high := 2; low := 0;
                  close := 1; volume := 1 |} ] |}.

Definition doji_at_0 : Pattern :=
  {| id := "doji_0"; type := candlestick; name := "Doji";
     start_time := 0; end_time := 0; confidence := 0.6; signal := neutral;
     target_price := None; stop_loss := None;
     description := "Indecision candle - potential reversal";
     parameters :=
       [("body_ratio",
         VFloat (if decide (2 - 0 > 0) then Rabs (1 - 1) / (2 - 0) else 0));
        ("type", VStr "doji")] |}.

(** A peak finder that finds nothing; a regression of slope 1 and r
    value 1; an RSI that is NaN everywhere; no local minimum. *)
Definition no_peaks (data : list R) (prominence : R) : list nat := [].
Definition unit_slope (x y : list R) : result (R * R * R * R * R) :=
  ok (1, 0, 1, 0, 0).
Definition no_rsi (prices : list R) : result (list (option R)) :=
  ok (map (fun _ => None) prices).
Definition no_minima (a : list (option R)) (order : nat) : result (list nat) :=
  ok [].

(** Twenty candles at 1, and the trend the regression of slope 1 makes
    the detector report on them. *)
Definition twenty_flat : DataFrame :=
  {| columns := ohlcv;
     rows := replicate 20 {| timestamp := 0; open := 1; high := 1; low := 1;
                             close := 1; volume := 1 |} |}.

Definition short_uptrend : Pattern :=
  {| id := "trend_short_0"; type := trends; name := "Short-term Uptrend";
     start_time := 0; end_time := 0; confidence := Rmin 0.9 (1 ^ 2);
     signal := bullish; target_price := None; stop_loss := None;
     description := "Strong uptrend detected";
     parameters := [("slope", VFloat 1); ("r_squared", VFloat (1 ^ 2));
                    ("period", VInt 20); ("type", VStr "short_term")] |}.

(** The levels the detector finds on [range_bound]. *)
Definition range_bound_levels : list Pattern :=
  [ resistance_pattern no_digits 0 0 2 (np_mean [2; 2; 2])
      (flen [2; 2; 2] * np_std [2; 2; 2]) 3;
    support_pattern no_digits 1 0 2 (np_mean [1; 1; 1])
      (flen [1; 1; 1] * np_std [1; 1; 1]) 3 ].

End Cases.

(** * Properties *)

(** ** The Python runtime *)

Module PyFacts.

Lemma for_enumerate_inv {A St} (P : nat → St → Prop)
    (body : nat → A → St → result St) (l : list A) :
  ∀ i s,
    P i s →
    (∀ j x s, l !! j = Some x → P (i + j)%nat s →
       ∃ s', body (i + j)%nat x s = ok s' ∧ P (i + S j)%nat s') →
    ∃ s', for_enumerate body i l s = ok s' ∧ P (i + length l)%nat s'.
Proof.
  induction l as [|x l IH]; intros i s HP Hstep.
  - exists s. cbn. by rewrite Nat.add_0_r.
  - destruct (Hstep 0%nat x s eq_refl) as (s1 & Hb & HP1).
    { by rewrite Nat.add_0_r. }
    rewrite Nat.add_0_r in Hb.
    destruct (IH (S i) s1) as (s2 & Hrun & HP2).
    { by rewrite Nat.add_1_r in HP1. }
    { intros j y t Hj Ht.
      replace (S i + j)%nat with (i + S j)%nat by lia.
      replace (S i + S j)%nat with (i + S (S j))%nat by lia.
      apply Hstep; [done|]. by replace (i + S j)%nat with (S i + j)%nat by lia. }
    exists s2. split.
    + cbn. rewrite Hb. exact Hrun.
    + cbn. by replace (i + S (length l))%nat with (S i + length l)%nat by lia.
Qed.

Lemma for_each_inv {A St} (P : nat → St → Prop)
    (body : A → St → result St) (l : list A) (s : St) :
  P 0%nat s →
  (∀ j x s, l !! j = Some x → P j s → ∃ s', body x s = ok s' ∧ P (S j) s') →
  ∃ s', for_each body l s = ok s' ∧ P (length l) s'.
Proof.
  intros H0 Hstep.
  apply (for_enumerate_inv P (fun _ => body) l 0 s H0).
  intros j x t Hj Ht. apply Hstep; done.
Qed.

Lemma for_range_inv {St} (P : nat → St → Prop)
    (body : nat → St → result St) (lo hi : nat) (s : St) :
  (lo <= hi)%nat →
  P lo s →
  (∀ j s, (lo <= j < hi)%nat → P j s → ∃ s', body j s = ok s' ∧ P (S j) s') →
  ∃ s', for_range lo hi body s = ok s' ∧ P hi s'.
Proof.
  intros Hle H0 Hstep. unfold for_range.
  destruct (for_each_inv (fun k => P (lo + k)%nat) body (seq lo (hi - lo)) s)
    as (s' & Hrun & HP).
  - by rewrite Nat.add_0_r.
  - intros j x t Hj Ht. apply lookup_seq in Hj as [-> Hlt].
    replace (lo + S j)%nat with (S (lo + j)) by lia.
    apply Hstep; [lia | done].
  - exists s'. split; [done|].
    rewrite length_seq in HP. by replace (lo + (hi - lo))%nat with hi in HP by lia.
Qed.

Lemma for_enumerate_inv_M {A St} (P : nat → St → rng → Prop)
    (body : nat → A → St → M St) (l : list A) :
  ∀ i s g,
    P i s g →
    (∀ j x s g, l !! j = Some x → P (i + j)%nat s g →
       ∃ s' g', body (i + j)%nat x s g = (ok s', g') ∧ P (i + S j)%nat s' g') →
    ∃ s' g', for_enumerate body i l s g = (ok s', g') ∧ P (i + length l)%nat s' g'.
Proof.
  induction l as [|x l IH]; intros i s g HP Hstep.
  - exists s, g. cbn. by rewrite Nat.add_0_r.
  - destruct (Hstep 0%nat x s g eq_refl) as (s1 & g1 & Hb & HP1).
    { by rewrite Nat.add_0_r. }
    rewrite Nat.add_0_r in Hb.
    destruct (IH (S i) s1 g1) as (s2 & g2 & Hrun & HP2).
    { by rewrite Nat.add_1_r in HP1. }
    { intros j y t h Hj Ht.
      replace (S i + j)%nat with (i + S j)%nat by lia.
      replace (S i + S j)%nat with (i + S (S j))%nat by lia.
      apply Hstep; [done|]. by replace (i + S j)%nat with (S i + j)%nat by lia. }
    exists s2, g2. split.
    + cbn. unfold mbind, M_bind. rewrite Hb. exact Hrun.
    + cbn. by replace (i + S (length l))%nat with (S i + length l)%nat by lia.
Qed.

Lemma for_each_inv_M {A St} (P : nat → St → rng → Prop)
    (body : A → St → M St) (l : list A) (s : St) (g : rng) :
  P 0%nat s g →
  (∀ j x s g, l !! j = Some x → P j s g →
     ∃ s' g', body x s g = (ok s', g') ∧ P (S j) s' g') →
  ∃ s' g', for_each body l s g = (ok s', g') ∧ P (length l) s' g'.
Proof.
  intros H0 Hstep.
  apply (for_enumerate_inv_M P (fun _ => body) l 0 s g H0).
  intros j x t h Hj Ht. apply Hstep; done.
Qed.

Lemma for_enumerate_ok_inv {A St} (P : nat → St → Prop)
    (body : nat → A → St → result St) (l : list A) :
  ∀ i s s',
    for_enumerate body i l s = ok s' →
    P i s →
    (∀ j x s s1, l !! j = Some x → P (i + j)%nat s →
       body (i + j)%nat x s = ok s1 → P (i + S j)%nat s1) →
    P (i + length l)%nat s'.
Proof.
  induction l as [|x l IH]; intros i s s' Hrun HP Hstep.
  - cbn in *. injection Hrun as <-. by rewrite Nat.add_0_r.
  - cbn in Hrun. destruct (body i x s) as [e|s1] eqn:Hb; [done|].
    cbn in Hrun.
    replace (i + length (x :: l))%nat with (S i + length l)%nat by (cbn; lia).
    apply (IH (S i) s1 s' Hrun).
    + replace (S i) with (i + 1)%nat by lia. apply (Hstep 0%nat x s); [done| |].
      * by rewrite Nat.add_0_r.
      * by rewrite Nat.add_0_r.
    + intros j y t t1 Hj Ht Hbody.
      replace (S i + S j)%nat with (i + S (S j))%nat by lia.
      apply (Hstep (S j) y t); [done| |].
      * by replace (i + S j)%nat with (S i + j)%nat by lia.
      * by replace (i + S j)%nat with (S i + j)%nat by lia.
Qed.

Lemma for_each_ok_inv {A St} (P : nat → St → Prop)
    (body : A → St → result St) (l : list A) (s s' : St) :
  for_each body l s = ok s' →
  P 0%nat s →
  (∀ j x s s1, l !! j = Some x → P j s → body x s = ok s1 → P (S j) s1) →
  P (length l) s'.
Proof.
  intros Hrun H0 Hstep.
  apply (for_enumerate_ok_inv P (fun _ => body) l 0 s s' Hrun H0).
  intros j x t t1 Hj Ht Hb. by apply (Hstep j x t).
Qed.

Lemma for_range_ok_inv {St} (P : nat → St → Prop)
    (body : nat → St → result St) (lo hi : nat) (s s' : St) :
  (lo <= hi)%nat →
  for_range lo hi body s = ok s' →
  P lo s →
  (∀ j s s1, (lo <= j < hi)%nat → P j s → body j s = ok s1 → P (S j) s1) →
  P hi s'.
Proof.
  intros Hle Hrun H0 Hstep. unfold for_range in Hrun.
  replace hi with (lo + length (seq lo (hi - lo)))%nat
    by (rewrite length_seq; lia).
  apply (for_each_ok_inv (fun k => P (lo + k)%nat) body _ s s' Hrun).
  - by rewrite Nat.add_0_r.
  - intros j x t t1 Hj Ht Hb. apply lookup_seq in Hj as [-> Hlt].
    replace (lo + S j)%nat with (S (lo + j)) by lia.
    apply (Hstep (lo + j)%nat t); [lia|done|done].
Qed.

(** A handler that returns makes the whole [try] return. *)
Lemma try_exceptM_returns {A} (m : M A) (h : exn → M A) (g : rng) :
  (∀ e g0, ∃ x g1, h e g0 = (ok x, g1)) →
  ∃ x g', try_exceptM m h g = (ok x, g').
Proof.
  intros Hh. unfold try_exceptM.
  destruct (m g) as [[e|x] g']; [apply Hh | by exists x, g'].
Qed.

Lemma try_exceptM_caught {A} (m : M A) (h : exn → M A) (g g' : rng) e :
  m g = (raise e, g') → try_exceptM m h g = h e g'.
Proof. unfold try_exceptM. by intros ->. Qed.

Lemma random_normal_n_returns loc scale n g :
  ∃ xs g', random_normal_n loc scale n g = (ok xs, g') ∧ length xs = n.
Proof.
  revert g. induction n as [|n IH]; intros g.
  - by exists [], g.
  - cbn [random_normal_n]. unfold mbind at 1. unfold M_bind at 1.
    unfold random_normal at 1. unfold ok at 1.
    unfold mbind at 1. unfold M_bind at 1.
    destruct (IH (fun k => g (S k))) as (xs & g' & -> & Hlen).
    eexists _, g'. split; [reflexivity|]. cbn. by rewrite Hlen.
Qed.

Lemma sqrt_252_pos : 0 < sqrt 252.
Proof. apply sqrt_lt_R0. lra. Qed.

End PyFacts.

(** ** Candlestick matchers *)

Module CandlestickFacts.
Import PatternDetector Vocabulary.

Lemma id_suffix_inj (prefix : string) (i j : nat) :
  prefix +:+ pretty i = prefix +:+ pretty j → i = j.
Proof. intros H. apply (inj _) in H. by apply (inj pretty). Qed.

(** The three parts of a candle add up to its range, whatever the order
    of open and close. *)
Lemma shadows_and_body_sum (candle : Candle) :
  lower_shadow candle + body_size candle + upper_shadow candle
  = high candle - low candle.
Proof.
  unfold lower_shadow, body_size, upper_shadow, Rmin, Rmax, Rabs.
  destruct (Rle_dec (open candle) (close candle));
    destruct (Rcase_abs (close candle - open candle)); lra.
Qed.

Lemma body_size_nonneg (candle : Candle) : 0 <= body_size candle.
Proof. apply Rabs_pos. Qed.

Ltac one_candle_matcher Hc Hcond :=
  unfold fires; split;
  [ intros (p & Hin & Hid);
    apply list_elem_of_bind in Hin as (k & Hp & Hk);
    destruct (iloc _ k) as [candle|] eqn:Hc; [|by apply elem_of_nil in Hp];
    match type of Hp with
    | _ ∈ (if ?c then _ else _) =>
        destruct c eqn:Hcond; [|by apply elem_of_nil in Hp]
    end;
    apply list_elem_of_singleton in Hp; subst p; cbn in Hid;
    apply id_suffix_inj in Hid; subst k; eauto
  | intros (candle & Hc & Hcond);
    eexists; split;
    [ apply list_elem_of_bind; eexists; split;
      [ rewrite Hc, Hcond; apply list_elem_of_singleton; reflexivity
      | apply elem_of_seq; unfold iloc in Hc; apply lookup_lt_Some in Hc; lia ]
    | reflexivity ] ].

Lemma hammer_fires data i :
  fires (_detect_hammer data) ("hammer_" +:+ pretty i) ↔
  ∃ candle, iloc data i = Some candle ∧ hammer_condition candle = true.
Proof. unfold _detect_hammer. one_candle_matcher Hc Hcond. Qed.

Lemma shooting_star_fires data i :
  fires (_detect_shooting_star data) ("shooting_star_" +:+ pretty i) ↔
  ∃ candle, iloc data i = Some candle ∧ shooting_star_condition candle = true.
Proof. unfold _detect_shooting_star. one_candle_matcher Hc Hcond. Qed.

Ltac two_candle_matcher Hp Hc Hcond :=
  unfold fires; split;
  [ intros (p & Hin & Hid);
    apply list_elem_of_bind in Hin as (k & Hin & Hk);
    destruct (iloc _ (k - 1)) as [prev|] eqn:Hp; [|by apply elem_of_nil in Hin];
    destruct (iloc _ k) as [curr|] eqn:Hc; [|by apply elem_of_nil in Hin];
    match type of Hin with
    | _ ∈ (if ?c then _ else _) =>
        destruct c eqn:Hcond; [|by apply elem_of_nil in Hin]
    end;
    apply list_elem_of_singleton in Hin; subst p; cbn in Hid;
    apply id_suffix_inj in Hid; subst k;
    apply elem_of_seq in Hk; exists prev, curr; repeat split; [lia|done..]
  | intros (prev & curr & Hi & Hp & Hc & Hcond);
    eexists; split;
    [ apply list_elem_of_bind; eexists; split;
      [ rewrite Hp, Hc, Hcond; apply list_elem_of_singleton; reflexivity
      | apply elem_of_seq; unfold iloc in Hc; apply lookup_lt_Some in Hc; lia ]
    | reflexivity ] ].

Lemma engulfing_bullish_fires data i :
  fires (_detect_engulfing_bullish data) ("bullish_engulfing_" +:+ pretty i) ↔
  ∃ prev curr, (1 <= i)%nat ∧ iloc data (i - 1) = Some prev ∧
    iloc data i = Some curr ∧ engulfing_bullish_condition prev curr = true.
Proof. unfold _detect_engulfing_bullish. two_candle_matcher Hp Hc Hcond. Qed.

Lemma engulfing_bearish_fires data i :
  fires (_detect_engulfing_bearish data) ("bearish_engulfing_" +:+ pretty i) ↔
  ∃ prev curr, (1 <= i)%nat ∧ iloc data (i - 1) = Some prev ∧
    iloc data i = Some curr ∧ engulfing_bearish_condition prev curr = true.
Proof. unfold _detect_engulfing_bearish. two_candle_matcher Hp Hc Hcond. Qed.

Lemma engulfing_bullish_condition_spec prev curr :
  engulfing_bullish_condition prev curr = true ↔
  close prev < open prev ∧ close curr > open curr ∧
  open curr < close prev ∧ close curr > open prev.
Proof.
  unfold engulfing_bullish_condition.
  rewrite !andb_true_iff, !bool_decide_eq_true. tauto.
Qed.

Lemma engulfing_bearish_condition_spec prev curr :
  engulfing_bearish_condition prev curr = true ↔
  close prev > open prev ∧ close curr < open curr ∧
  open curr > close prev ∧ close curr < open prev.
Proof.
  unfold engulfing_bearish_condition.
  rewrite !andb_true_iff, !bool_decide_eq_true. tauto.
Qed.

Lemma hammer_condition_spec candle :
  hammer_condition candle = true ↔
  body_size candle > 0 ∧ lower_shadow candle > 2 * body_size candle ∧
  upper_shadow candle < body_size candle ∧
  lower_shadow candle > 0.6 * (high candle - low candle).
Proof.
  unfold hammer_condition.
  rewrite !andb_true_iff, !bool_decide_eq_true. tauto.
Qed.

Lemma shooting_star_condition_spec candle :
  shooting_star_condition candle = true ↔
  body_size candle > 0 ∧ upper_shadow candle > 2 * body_size candle ∧
  lower_shadow candle < body_size candle ∧
  upper_shadow candle > 0.6 * (high candle - low candle).
Proof.
  unfold shooting_star_condition.
  rewrite !andb_true_iff, !bool_decide_eq_true. tauto.
Qed.

(** Every candlestick pattern carries one of the fixed confidences. *)
Lemma candlestick_confidence_in_range data p :
  p ∈ _detect_candlestick_patterns data → 0 <= confidence p <= 1.
Proof.
  unfold _detect_candlestick_patterns, candlestick_patterns,
    _detect_doji, _detect_hammer, _detect_shooting_star,
    _detect_engulfing_bullish, _detect_engulfing_bearish,
    _detect_morning_star, _detect_evening_star,
    _detect_three_white_soldiers, _detect_three_black_crows.
  cbn [foldl]. rewrite !app_nil_l, !app_nil_r, !elem_of_app.
  intros Hin.
  repeat match goal with
  | H : _ ∨ _ |- _ => destruct H as [H|H]
  end;
  apply list_elem_of_bind in Hin as (k & Hp & _);
  repeat match type of Hp with
  | _ ∈ match ?o with _ => _ end => destruct o
  | _ ∈ (if ?c then _ else _) => destruct c
  | _ ∈ [] => by apply elem_of_nil in Hp
  end;
  apply list_elem_of_singleton in Hp; subst p; cbn; lra.
Qed.

(** C5: on the candles at [i-1] and [i] the Bullish Engulfing matcher
    fires exactly when the previous candle is bearish, the current one is
    bullish and the current body strictly contains the previous body; and
    the Bullish and the Bearish Engulfing matchers never both fire on the
    same pair. *)
Theorem C5_engulfing_exact_and_exclusive (data : DataFrame) (i : nat) :
  (fires (_detect_engulfing_bullish data) ("bullish_engulfing_" +:+ pretty i) ↔
   ∃ prev curr, (1 <= i)%nat ∧ iloc data (i - 1) = Some prev ∧
     iloc data i = Some curr ∧
     close prev < open prev ∧ close curr > open curr ∧
     open curr < close prev ∧ close curr > open prev) ∧
  ¬ (fires (_detect_engulfing_bullish data) ("bullish_engulfing_" +:+ pretty i) ∧
     fires (_detect_engulfing_bearish data) ("bearish_engulfing_" +:+ pretty i)).
Proof.
  split.
  - rewrite engulfing_bullish_fires.
    split; intros (prev & curr & Hi & Hp & Hc & Hcond); exists prev, curr;
      (split; [done|]); (split; [done|]); (split; [done|]);
      by apply engulfing_bullish_condition_spec.
  - intros [Hbull Hbear].
    apply engulfing_bullish_fires in Hbull as (prev & curr & _ & Hp & Hc & Hup).
    apply engulfing_bearish_fires in Hbear as (prev' & curr' & _ & Hp' & Hc' & Hdown).
    rewrite Hp in Hp'. injection Hp' as <-.
    apply engulfing_bullish_condition_spec in Hup.
    apply engulfing_bearish_condition_spec in Hdown. lra.
Qed.

(** C9: the Hammer and the Shooting Star matcher never both fire on one
    candle. Hammer asks for a lower shadow above 0.6 of the range,
    Shooting Star for an upper shadow above 0.6 of the range, and lower
    shadow, body and upper shadow add up to the range. *)
Theorem C9_hammer_shooting_star_exclusive (data : DataFrame) (i : nat) :
  ¬ (fires (_detect_hammer data) ("hammer_" +:+ pretty i) ∧
     fires (_detect_shooting_star data) ("shooting_star_" +:+ pretty i)) ∧
  (∀ candle, hammer_condition candle = true →
     body_size candle > 0 ∧
     lower_shadow candle > 0.6 * (high candle - low candle)) ∧
  (∀ candle, shooting_star_condition candle = true →
     body_size candle > 0 ∧
     upper_shadow candle > 0.6 * (high candle - low candle)) ∧
  (∀ candle,
     lower_shadow candle + body_size candle + upper_shadow candle
     = high candle - low candle) ∧
  (∀ candle, hammer_condition candle && shooting_star_condition candle = false).
Proof.
  assert (Hexcl : ∀ candle,
            hammer_condition candle && shooting_star_condition candle = false).
  { intros candle. apply not_true_is_false. rewrite andb_true_iff.
    rewrite hammer_condition_spec, shooting_star_condition_spec. lra. }
  split; [|split; [|split; [|split]]].
  - intros [Hh Hs].
    apply hammer_fires in Hh as (candle & Hc & Hh).
    apply shooting_star_fires in Hs as (candle' & Hc' & Hs).
    rewrite Hc in Hc'. injection Hc' as <-.
    specialize (Hexcl candle). rewrite Hh, Hs in Hexcl. discriminate.
  - intros candle H. apply hammer_condition_spec in H. tauto.
  - intros candle H. apply shooting_star_condition_spec in H. tauto.
  - apply shadows_and_body_sum.
  - exact Hexcl.
Qed.

End CandlestickFacts.

(** ** Reliability scoring *)

Module ReliabilityFacts.
Import PatternDetector Vocabulary Examples.

Lemma calculate_reliability_snoc data patterns p :
  calculate_reliability data (patterns ++ [p])
  = <[id p := reliability_score data p]> (calculate_reliability data patterns).
Proof. unfold calculate_reliability. by rewrite foldl_snoc. Qed.

(** Every score of the returned map is the score of a pattern of the
    list that carries that id. *)
Lemma calculate_reliability_lookup data patterns k s :
  calculate_reliability data patterns !! k = Some s →
  ∃ p, p ∈ patterns ∧ id p = k ∧ s = reliability_score data p.
Proof.
  induction patterns as [|p patterns IH] using rev_ind.
  - cbn. by rewrite lookup_empty.
  - rewrite calculate_reliability_snoc.
    destruct (decide (id p = k)) as [<-|Hne].
    + rewrite lookup_insert_eq. intros [= <-].
      exists p. split; [|done]. apply elem_of_app. right.
      by apply list_elem_of_singleton.
    + rewrite lookup_insert_ne by done. intros H.
      destruct (IH H) as (q & Hq & Hid & Hs).
      exists q. split; [|done]. apply elem_of_app. by left.
Qed.

Lemma calculate_reliability_scored data patterns p :
  p ∈ patterns → is_Some (calculate_reliability data patterns !! id p).
Proof.
  induction patterns as [|q patterns IH] using rev_ind.
  - intros H. by apply elem_of_nil in H.
  - rewrite calculate_reliability_snoc. intros H.
    destruct (decide (id q = id p)) as [->|Hne].
    + rewrite lookup_insert_eq. eauto.
    + rewrite lookup_insert_ne by done. apply IH.
      apply elem_of_app in H as [H|H]; [done|].
      apply list_elem_of_singleton in H. by subst.
Qed.

(** With ids that are pairwise different, each pattern finds its own
    score under its id. *)
Lemma calculate_reliability_own_score data patterns p :
  NoDup (id <$> patterns) → p ∈ patterns →
  calculate_reliability data patterns !! id p = Some (reliability_score data p).
Proof.
  induction patterns as [|q patterns IH] using rev_ind.
  - intros _ H. by apply elem_of_nil in H.
  - rewrite fmap_app, calculate_reliability_snoc. cbn.
    intros Hnd Hin. apply NoDup_app in Hnd as (Hnd & Hfresh & _).
    apply elem_of_app in Hin as [Hin|Hin].
    + rewrite lookup_insert_ne; [by apply IH|].
      intros Heq. apply (Hfresh (id p)).
      * apply list_elem_of_fmap. by exists p.
      * rewrite <- Heq. apply list_elem_of_singleton. reflexivity.
    + apply list_elem_of_singleton in Hin. subst q. by rewrite lookup_insert_eq.
Qed.

(** The three factors of the code multiply out to 1.02 when the frame
    has a volume column and to 1 when it has none. *)
Lemma reliability_score_unfold data p :
  reliability_score data p =
  Rmin 1 (if bool_decide ("volume" ∈ columns data)
          then confidence p * 1.02 else confidence p).
Proof.
  unfold reliability_score, _check_volume_confirmation,
    _analyze_market_context, _check_pattern_completion.
  f_equal; [lra|]. destruct (bool_decide _); lra.
Qed.

Lemma reliability_score_bounds data p :
  0 <= confidence p →
  reliability_score data p <= confidence p * 1.1 ∧
  0 <= reliability_score data p <= 1.
Proof.
  intros Hc. rewrite reliability_score_unfold.
  destruct (bool_decide _); unfold Rmin; destruct (Rle_dec _ _); lra.
Qed.

(** C2, at the failing input: for a pattern of confidence 0.5 on a frame
    with a volume column the scorer stores 0.51, where the policy of a
    flat 1.1 volume factor gives 0.55. With a volume column the factor
    the code applies is 1 + 0.1 * 0.2. *)
Theorem C2_volume_factor_at_half_confidence :
  calculate_reliability empty_series [half_confident] !! id half_confident
    = Some 0.51 ∧
  policy_reliability (confidence half_confident) = 0.55 ∧
  (∀ data p, "volume" ∈ columns data →
     reliability_score data p = Rmin 1 (confidence p * (1 + 0.1 * 0.2))).
Proof.
  split; [|split].
  - cbn. rewrite lookup_insert_eq. f_equal. rewrite reliability_score_unfold.
    replace (bool_decide ("volume" ∈ columns empty_series)) with true
      by reflexivity.
    cbn. unfold Rmin. destruct (Rle_dec _ _); lra.
  - unfold policy_reliability. cbn. unfold Rmin, Rmax.
    repeat destruct (Rle_dec _ _); lra.
  - intros data p Hvol. rewrite reliability_score_unfold.
    rewrite bool_decide_eq_true_2 by done. f_equal. lra.
Qed.

(** C8: every score the scorer returns is the score of a pattern of the
    list with that id, is at most that pattern's confidence times 1.1 and
    lies in [0,1]; and every pattern of the list has a score under its
    id. Confidences are not negative, as the data model has them and as
    the detectors emit them. *)
Theorem C8_reliability_bounded (data : DataFrame) (patterns : list Pattern) :
  (∀ p, p ∈ patterns → 0 <= confidence p) →
  (∀ p, p ∈ patterns → is_Some (calculate_reliability data patterns !! id p)) ∧
  (∀ k s, calculate_reliability data patterns !! k = Some s →
     ∃ p, p ∈ patterns ∧ id p = k ∧ s = reliability_score data p ∧
          s <= confidence p * 1.1 ∧ 0 <= s <= 1).
Proof.
  intros Hconf. split.
  - intros p. apply calculate_reliability_scored.
  - intros k s Hs.
    destruct (calculate_reliability_lookup _ _ _ _ Hs) as (p & Hin & Hid & ->).
    exists p. repeat split; try done;
      apply reliability_score_bounds; by apply Hconf.
Qed.

Lemma C8_reliability_bounded_witness :
  (∀ p, p ∈ [half_confident] → 0 <= confidence p) ∧
  (∀ p, p ∈ [half_confident] →
     is_Some (calculate_reliability empty_series [half_confident] !! id p)) ∧
  (∀ k s, calculate_reliability empty_series [half_confident] !! k = Some s →
     ∃ p, p ∈ [half_confident] ∧ id p = k ∧
          s = reliability_score empty_series p ∧
          s <= confidence p * 1.1 ∧ 0 <= s <= 1).
Proof.
  assert (H : ∀ p, p ∈ [half_confident] → 0 <= confidence p).
  { intros p Hp. apply list_elem_of_singleton in Hp. subst p. cbn. lra. }
  split; [exact H|].
  exact (C8_reliability_bounded empty_series [half_confident] H).
Defined.

End ReliabilityFacts.

(** ** Scenario analysis and the top-level risk calculation *)

Module ScenarioFacts.
Import RiskCalculator Vocabulary Examples PyFacts.

Lemma known_scenarios_cases (name : string) :
  name ∈ known_scenarios ↔
  name = "market_crash" ∨ name = "high_volatility" ∨
  name = "trend_reversal" ∨ name = "correlation_breakdown".
Proof.
  unfold known_scenarios.
  rewrite !elem_of_cons, elem_of_nil. tauto.
Qed.

(** The loop over the scenario names returns: no branch of it raises. *)
Lemma run_scenario_analysis_try_returns portfolio scenarios :
  ∃ m, run_scenario_analysis_try portfolio scenarios = ok m ∧
       dom m = list_to_set (filter (fun s => s ∈ known_scenarios) scenarios).
Proof.
  unfold run_scenario_analysis_try.
  match goal with |- ∃ m, for_each ?body _ _ = _ ∧ _ =>
    destruct (for_each_inv
      (fun k (m : gmap string ScenarioResult) =>
         dom m = list_to_set
                   (filter (fun s => s ∈ known_scenarios) (take k scenarios)))
      body scenarios ∅) as (m & Hrun & Hm)
  end.
  - by rewrite take_0, dom_empty_L.
  - intros j name m Hj Hm.
    rewrite (take_S_r _ _ _ Hj), filter_app, list_to_set_app_L, <- Hm.
    repeat case_decide; subst;
      (eexists; split; [reflexivity|]);
      rewrite ?dom_insert_L.
    1-4: rewrite filter_cons_True by (apply known_scenarios_cases; tauto).
    1-4: cbn; rewrite (right_id_L ∅ (∪)); apply (comm_L (∪)).
    rewrite filter_cons_False by (rewrite known_scenarios_cases; tauto).
    cbn. by rewrite (right_id_L ∅ (∪)).
  - exists m. split; [done|]. by rewrite firstn_all in Hm.
Qed.

(** C10: for every portfolio and every list of requested names the
    scenario analysis returns (the block under [try] returns the map
    itself, the handler is not reached), and the keys of the map are
    exactly the requested names among market_crash, high_volatility,
    trend_reversal and correlation_breakdown: an unknown name leaves no
    entry. *)
Theorem C10_scenario_keys (portfolio : list Position) (scenarios : list string) :
  run_scenario_analysis_try portfolio scenarios
    = ok (run_scenario_analysis portfolio scenarios) ∧
  dom (run_scenario_analysis portfolio scenarios)
    = list_to_set (filter (fun s => s ∈ known_scenarios) scenarios) ∧
  (∀ name, name ∈ dom (run_scenario_analysis portfolio scenarios) ↔
           name ∈ scenarios ∧ name ∈ known_scenarios).
Proof.
  destruct (run_scenario_analysis_try_returns portfolio scenarios)
    as (m & Hrun & Hdom).
  unfold run_scenario_analysis. rewrite Hrun. cbn.
  split; [done|]. split; [done|].
  intros name. rewrite Hdom, elem_of_list_to_set, list_elem_of_filter. tauto.
Qed.

(** A payload that lacks a key makes the block under [try] raise; the
    caller still gets the all-zero structure. *)
Lemma missing_key_is_caught norm_ppf np_percentile np_linalg_cholesky
    timeframe confidence_level g :
  ∃ g',
    calculate_portfolio_risk_try norm_ppf np_percentile np_linalg_cholesky
      [nameless_position] timeframe confidence_level g
      = (raise (KeyError "symbol"), g') ∧
    calculate_portfolio_risk norm_ppf np_percentile np_linalg_cholesky
      [nameless_position] timeframe confidence_level g
      = (ok _get_empty_risk_result, g').
Proof. exists g. split; reflexivity. Qed.

(** C6: on the empty portfolio the risk calculation returns the all-zero
    structure with no positions and no recommendations; on every
    portfolio and timeframe it returns and does not raise; and whenever
    the block under [try] raises, what it returns is that same all-zero
    structure. *)
Theorem C6_portfolio_risk_total
    (norm_ppf : R → R) (np_percentile : list R → R → R)
    (np_linalg_cholesky : matrix → result matrix) :
  (∀ timeframe confidence_level g,
     calculate_portfolio_risk norm_ppf np_percentile np_linalg_cholesky
       [] timeframe confidence_level g = (ok _get_empty_risk_result, g)) ∧
  (net_exposure _get_empty_risk_result = 0 ∧
   gross_exposure _get_empty_risk_result = 0 ∧
   leverage _get_empty_risk_result = 0 ∧
   var _get_empty_risk_result = 0 ∧
   expected_shortfall _get_empty_risk_result = 0 ∧
   max_drawdown _get_empty_risk_result = 0 ∧
   sharpe_ratio _get_empty_risk_result = 0 ∧
   sortino_ratio _get_empty_risk_result = 0 ∧
   calmar_ratio _get_empty_risk_result = 0 ∧
   volatility_annual _get_empty_risk_result = 0 ∧
   positions _get_empty_risk_result = [] ∧
   recommendations _get_empty_risk_result = []) ∧
  (∀ portfolio timeframe confidence_level g,
     ∃ r g',
       calculate_portfolio_risk norm_ppf np_percentile np_linalg_cholesky
         portfolio timeframe confidence_level g = (ok r, g')) ∧
  (∀ portfolio timeframe confidence_level g e g',
     calculate_portfolio_risk_try norm_ppf np_percentile np_linalg_cholesky
       portfolio timeframe confidence_level g = (raise e, g') →
     calculate_portfolio_risk norm_ppf np_percentile np_linalg_cholesky
       portfolio timeframe confidence_level g
       = (ok _get_empty_risk_result, g')).
Proof.
  split; [|split; [|split]].
  - reflexivity.
  - cbn. repeat split; lra.
  - intros portfolio timeframe confidence_level g.
    apply try_exceptM_returns. intros e g0. by eexists _, g0.
  - intros portfolio timeframe confidence_level g e g' Hraise.
    unfold calculate_portfolio_risk.
    by rewrite (try_exceptM_caught _ _ _ _ _ Hraise).
Qed.

Lemma C6_portfolio_risk_total_witness :
  calculate_portfolio_risk_try (fun _ => 0) (fun _ _ => 0) never_positive_definite
    [nameless_position] "1d" 0.95 all_ones
    = (raise (KeyError "symbol"), all_ones) ∧
  calculate_portfolio_risk (fun _ => 0) (fun _ _ => 0) never_positive_definite
    [nameless_position] "1d" 0.95 all_ones
    = (ok _get_empty_risk_result, all_ones).
Proof.
  split; [reflexivity|].
  apply (proj2 (proj2 (proj2
           (C6_portfolio_risk_total (fun _ => 0) (fun _ _ => 0)
              never_positive_definite)))) with (e := KeyError "symbol").
  reflexivity.
Defined.

End ScenarioFacts.

(** ** Parametric VaR *)

Module ParametricFacts.
Import RiskCalculator Vocabulary Examples PyFacts.

Lemma _get_correlation_same (s : string) : _get_correlation s s = 1.
Proof. unfold _get_correlation. rewrite decide_True by done. lra. Qed.

Lemma daily_volatility_pos (s : string) :
  0 < dict_get default_volatilities s 0.10 → 0 < daily_volatility s.
Proof.
  intros H. unfold daily_volatility. apply Rdiv_lt_0_compat; [done|].
  apply sqrt_252_pos.
Qed.

(** Two positions in one symbol: each of the two ordered pairs adds
    [2 * corr * vol1 * vol2 * value1 * value2], so the cross term enters
    the variance four times. *)
Lemma parametric_var_same_symbol norm_ppf s size1 entry1 size2 entry2 days conf :
  let v1 := Rabs size1 * entry1 in
  let v2 := Rabs size2 * entry2 in
  let dv := daily_volatility s in
  _calculate_parametric_var norm_ppf
    [position_of (s, size1, entry1); position_of (s, size2, entry2)] days conf
  = sqrt (Rmax 0 ((v1 * dv) ^ 2 + (v2 * dv) ^ 2 + 4 * (v1 * dv) * (v2 * dv)))
    * sqrt (IZR days) * norm_ppf conf.
Proof.
  intros v1 v2 dv.
  unfold _calculate_parametric_var, parametric_variance_loop,
    parametric_correlation_loop, for_each.
  cbn -[sqrt Rmax pow Rabs dict_get _get_correlation].
  rewrite _get_correlation_same.
  fold (daily_volatility s). fold dv. fold v1. fold v2.
  do 4 f_equal. ring.
Qed.

Lemma parametric_var_single norm_ppf s size entry days conf :
  _calculate_parametric_var norm_ppf [position_of (s, size, entry)] days conf
  = sqrt (Rmax 0 ((Rabs size * entry * daily_volatility s) ^ 2))
    * sqrt (IZR days) * norm_ppf conf.
Proof.
  unfold _calculate_parametric_var, parametric_variance_loop,
    parametric_correlation_loop, for_each.
  cbn -[sqrt Rmax pow Rabs dict_get _get_correlation].
  fold (daily_volatility s).
  do 4 f_equal. ring.
Qed.

Lemma sqrt_scaled_square (k x : R) :
  0 <= k → 0 <= x → sqrt (Rmax 0 (k * x ^ 2)) = sqrt k * x.
Proof.
  intros Hk Hx. rewrite Rmax_right by nra.
  rewrite sqrt_mult by nra. f_equal.
  replace (x ^ 2) with (x * x) by lra. by apply sqrt_square.
Qed.

Lemma sqrt_4 : sqrt 4 = 2.
Proof. replace 4 with (2 * 2) by lra. apply sqrt_square. lra. Qed.

(** The sibling [_calculate_portfolio_volatility] adds each ordered pair
    once: on the same two positions it is additive. *)
Lemma portfolio_volatility_additive_on_eurusd :
  _calculate_portfolio_volatility eurusd_twice true
  = _calculate_portfolio_volatility eurusd_merged true.
Proof.
  unfold _calculate_portfolio_volatility, eurusd_twice, eurusd_merged,
    total_notional, for_each.
  cbn -[sqrt Rmax pow Rabs dict_get _get_correlation truediv].
  rewrite _get_correlation_same, Rabs_R1.
  replace (Rabs 2) with 2 by (symmetry; apply Rabs_pos_eq; lra).
  unfold truediv.
  rewrite !decide_False by lra.
  cbn -[sqrt Rmax pow dict_get].
  replace (dict_get default_volatilities "EURUSD" 0.10) with 0.08 by reflexivity.
  f_equal. f_equal. field.
Qed.

(** C1, at the failing input: two positions of one unit of EURUSD have
    pairwise correlation 1, and their parametric VaR is sqrt(6)/2 times,
    not once, the parametric VaR of the one position of two units, for
    every timeframe and confidence level. *)
Theorem C1_cross_term_counted_twice (norm_ppf : R → R) (days : Z) (conf : R) :
  _get_correlation "EURUSD" "EURUSD" = 1 ∧
  _calculate_parametric_var norm_ppf eurusd_twice days conf
  = sqrt 6 / 2 * _calculate_parametric_var norm_ppf eurusd_merged days conf ∧
  1 < sqrt 6 / 2.
Proof.
  split; [apply _get_correlation_same|]. split.
  - unfold eurusd_twice, eurusd_merged.
    rewrite parametric_var_same_symbol, parametric_var_single.
    assert (Hdv : 0 < daily_volatility "EURUSD").
    { apply daily_volatility_pos.
      replace (dict_get _ _ _) with 0.08 by reflexivity. lra. }
    set (dv := daily_volatility "EURUSD") in *.
    rewrite Rabs_R1.
    replace (Rabs 2) with 2 by (symmetry; apply Rabs_pos_eq; lra).
    replace ((1 * 1 * dv) ^ 2 + (1 * 1 * dv) ^ 2
             + 4 * (1 * 1 * dv) * (1 * 1 * dv))
      with (6 * dv ^ 2) by ring.
    replace ((2 * 1 * dv) ^ 2) with (4 * dv ^ 2) by ring.
    rewrite !sqrt_scaled_square by lra.
    rewrite sqrt_4. lra.
  - assert (2 < sqrt 6); [|lra].
    rewrite <- sqrt_4 at 1. apply sqrt_lt_1; lra.
Qed.

End ParametricFacts.

(** ** Position analysis *)

Module PositionFacts.
Import RiskCalculator Vocabulary Examples PyFacts.

Lemma fsum_snoc (l : list R) (x : R) : fsum (l ++ [x]) = fsum l + x.
Proof.
  induction l as [|y l IH]; cbn; [lra|]. unfold fsum in IH. rewrite IH. lra.
Qed.

Lemma sum_abs_correlation_snoc sym symbols s :
  sum_abs_correlation sym (symbols ++ [s]) =
  if decide (s ≠ sym)
  then sum_abs_correlation sym symbols + Rabs (_get_correlation sym s)
  else sum_abs_correlation sym symbols.
Proof.
  unfold sum_abs_correlation. rewrite filter_app.
  destruct (decide (s ≠ sym)) as [Hne|Heq].
  - rewrite filter_cons_True by done. rewrite filter_nil, map_app.
    apply fsum_snoc.
  - rewrite filter_cons_False by done. by rewrite filter_nil, app_nil_r.
Qed.

Lemma lookup_position_of triples j pos :
  map position_of triples !! j = Some pos →
  ∃ sym size entry, triples !! j = Some (sym, size, entry) ∧
    pos = position_of (sym, size, entry).
Proof.
  rewrite list_lookup_fmap.
  destruct (triples !! j) as [[[sym size] entry]|]; [|done].
  intros [= <-]. by exists sym, size, entry.
Qed.

(** The correlation risk of a symbol: the absolute correlations to the
    positions in other symbols, summed, over the size of the portfolio. *)
Lemma correlation_risk_returns sym triples :
  _calculate_position_correlation_risk sym (map position_of triples)
  = ok (match triples with
        | [] => 0
        | _ => sum_abs_correlation sym (symbols_of triples) / flen triples
        end).
Proof.
  unfold _calculate_position_correlation_risk.
  match goal with |- (for_each ?body _ _ ≫= _) = _ =>
    destruct (for_each_inv
      (fun k acc => acc = sum_abs_correlation sym (take k (symbols_of triples)))
      body (map position_of triples) 0) as (acc & -> & Hacc)
  end.
  - by rewrite take_0.
  - intros j pos acc Hj ->.
    apply lookup_position_of in Hj as (s & size & entry & Hj & ->).
    assert (Hs : symbols_of triples !! j = Some s).
    { unfold symbols_of. by rewrite list_lookup_fmap, Hj. }
    rewrite (take_S_r _ _ _ Hs), sum_abs_correlation_snoc. cbn.
    destruct (decide (s ≠ sym)); eexists; split; reflexivity.
  - cbn. rewrite length_map in Hacc. subst acc.
    unfold symbols_of at 1. rewrite <- (length_map (fun t => t.1.1) triples).
    rewrite firstn_all. fold (symbols_of triples).
    destruct triples; cbn; [done|]. unfold flen. by rewrite !length_map.
Qed.

Lemma analyze_positions_returns norm_ppf triples g :
  ∃ analysis g',
    _analyze_positions norm_ppf (map position_of triples) g = (ok analysis, g') ∧
    Forall2 (analyzed norm_ppf (length triples) (symbols_of triples))
      triples analysis.
Proof.
  unfold _analyze_positions.
  match goal with |- ∃ _ _, for_each ?body _ _ _ = _ ∧ _ =>
    destruct (for_each_inv_M
      (fun k acc (_ : rng) =>
         Forall2 (analyzed norm_ppf (length triples) (symbols_of triples))
           (take k triples) acc)
      body (map position_of triples) [] g) as (acc & g' & Hrun & Hacc)
  end.
  - rewrite take_0. constructor.
  - intros j pos acc h Hj Hacc.
    apply lookup_position_of in Hj as (s & size & entry & Hj & ->).
    cbn -[_calculate_position_correlation_risk dict_get].
    unfold mbind, M_bind, lift, _get_current_price, random_normal.
    cbn -[_calculate_position_correlation_risk dict_get].
    rewrite correlation_risk_returns.
    cbn -[dict_get].
    eexists _, _. split; [reflexivity|].
    rewrite (take_S_r _ _ _ Hj). apply Forall2_app; [done|].
    constructor; [|constructor].
    unfold analyzed. cbn -[dict_get].
    repeat split; try reflexivity.
    + unfold flen. by rewrite length_map.
    + destruct triples; [done|]. reflexivity.
  - exists acc, g'. split; [done|].
    rewrite length_map in Hacc. by rewrite firstn_all in Hacc.
Qed.

Lemma correlation_eurusd_gbpusd : _get_correlation "EURUSD" "GBPUSD" = 0.7.
Proof. reflexivity. Qed.

Lemma sum_abs_correlation_eurusd :
  sum_abs_correlation "EURUSD" (symbols_of eurusd_gbpusd) = 0.7.
Proof.
  unfold sum_abs_correlation.
  replace (filter _ _) with ["GBPUSD"] by reflexivity.
  cbn -[_get_correlation]. rewrite correlation_eurusd_gbpusd.
  rewrite Rabs_pos_eq; lra.
Qed.

Lemma mean_abs_correlation_eurusd :
  mean_abs_correlation "EURUSD" (symbols_of eurusd_gbpusd) = 0.7.
Proof.
  unfold mean_abs_correlation.
  replace (filter _ _) with ["GBPUSD"] by reflexivity.
  cbn -[_get_correlation]. rewrite correlation_eurusd_gbpusd.
  rewrite Rabs_pos_eq; lra.
Qed.

(** C3 as stated fails: in the portfolio of EURUSD and GBPUSD the mean
    absolute correlation of EURUSD to the other symbol is 0.7, and the
    analyzer reports 0.35 for it. *)
Lemma C3_mean_over_others_counterexample :
  ∃ analysis g' a,
    _analyze_positions (fun _ => 0) (map position_of eurusd_gbpusd) all_ones
      = (ok analysis, g') ∧
    analysis !! 0%nat = Some a ∧
    pa_symbol a = "EURUSD" ∧
    correlation_risk a = 0.35 ∧
    mean_abs_correlation "EURUSD" (symbols_of eurusd_gbpusd) = 0.7 ∧
    correlation_risk a
      ≠ mean_abs_correlation "EURUSD" (symbols_of eurusd_gbpusd).
Proof.
  destruct (analyze_positions_returns (fun _ => 0) eurusd_gbpusd all_ones)
    as (analysis & g' & Hrun & Hall).
  unfold eurusd_gbpusd in Hall.
  apply Forall2_cons_inv_l in Hall as (a & rest & Ha & _ & ->).
  destruct Ha as (Hsym & _ & _ & _ & _ & _ & _ & Hrisk).
  change (symbols_of _) with (symbols_of eurusd_gbpusd) in Hrisk.
  rewrite sum_abs_correlation_eurusd in Hrisk. cbn in Hrisk.
  assert (Hcode : correlation_risk a = 0.35) by (rewrite Hrisk; lra).
  exists (a :: rest), g', a.
  repeat split; try done.
  - apply mean_abs_correlation_eurusd.
  - rewrite Hcode, mean_abs_correlation_eurusd. lra.
Qed.

(** C3, amended: on a portfolio of n positions whose keys are all
    present the analyzer returns one entry per position, in order, with
    market_value = |size| * current_price,
    unrealized_pnl = size * (current_price - entry_price),
    position_var = market_value * (annual_vol / sqrt 252) * z(0.95), z the
    quantile function the code calls, risk_contribution = position_var / n,
    and correlation_risk = the sum of |corr(symbol, other)| over the
    positions in other symbols, divided by n. *)
Theorem C3_position_analysis (norm_ppf : R → R)
    (triples : list (string * R * R)) (g : rng) :
  ∃ analysis g',
    _analyze_positions norm_ppf (map position_of triples) g = (ok analysis, g') ∧
    Forall2
      (fun '(sym, size, entry) a =>
         pa_symbol a = sym ∧ pa_position a = size ∧ pa_entry_price a = entry ∧
         market_value a = Rabs size * current_price a ∧
         unrealized_pnl a = size * (current_price a - entry) ∧
         position_var a
           = market_value a
             * (dict_get default_volatilities sym 0.10 / sqrt 252)
             * norm_ppf 0.95 ∧
         risk_contribution a = position_var a / INR (length triples) ∧
         correlation_risk a
           = fsum (map (fun s => Rabs (_get_correlation sym s))
                       (filter (fun s => s ≠ sym) (symbols_of triples)))
             / INR (length triples))
      triples analysis.
Proof.
  destruct (analyze_positions_returns norm_ppf triples g)
    as (analysis & g' & Hrun & Hall).
  exists analysis, g'. split; [done|].
  eapply Forall2_impl; [exact Hall|].
  intros [[sym size] entry] a Ha. exact Ha.
Qed.

End PositionFacts.

(** ** The correlated-returns generator *)

Module MatrixFacts.
Import PositionFacts.
Import RiskCalculator Vocabulary Examples PyFacts.

Lemma entry_np_eye n a b :
  (a < n)%nat → (b < n)%nat →
  entry (np_eye n) a b = Some (if (a =? b)%nat then 1 else 0).
Proof.
  intros Ha Hb. unfold entry, np_eye.



  rewrite list_lookup_fmap, lookup_seq_lt by done. cbn.
  rewrite list_lookup_fmap, lookup_seq_lt by done. reflexivity.
Qed.

Lemma shape_np_eye n : shape n (np_eye n).
Proof.
  unfold shape, np_eye. split.
  - by rewrite length_map, length_seq.
  - intros i row. rewrite list_lookup_fmap.
    destruct (seq 0 n !! i); [|done]. intros [= <-].
    by rewrite length_map, length_seq.
Qed.

Lemma shape_set_entry n m i j v : shape n m → shape n (set_entry m i j v).
Proof.
  intros [Hlen Hrows]. unfold set_entry. split.
  - by rewrite length_alter.
  - intros k row. destruct (decide (i = k)) as [->|Hne].
    + rewrite list_lookup_alter_eq.
      destruct (m !! k) as [row0|] eqn:Hk; [|done].
      intros [= <-]. rewrite length_insert. eauto.
    + rewrite list_lookup_alter_ne by done. apply Hrows.
Qed.

Lemma entry_set_entry n m i j v a b :
  shape n m → (i < n)%nat → (j < n)%nat →
  entry (set_entry m i j v) a b
  = if decide (a = i ∧ b = j) then Some v else entry m a b.
Proof.
  intros [Hlen Hrows] Hi Hj. unfold entry, set_entry.
  destruct (decide (i = a)) as [->|Hne].
  - rewrite list_lookup_alter_eq.
    destruct (m !! a) as [row|] eqn:Ha.
    2:{ apply lookup_ge_None in Ha. lia. }
    cbn. specialize (Hrows _ _ Ha).
    destruct (decide (j = b)) as [->|Hneb].
    + rewrite decide_True by done. apply list_lookup_insert_eq. lia.
    + rewrite decide_False by (intros [_ ?]; congruence).
      by apply list_lookup_insert_ne.
  - rewrite list_lookup_alter_ne by done.
    rewrite decide_False by (intros [? _]; congruence). reflexivity.
Qed.

Lemma entry_out_of_shape n m a b :
  shape n m → (n <= a ∨ n <= b)%nat → entry m a b = None.
Proof.
  intros [Hlen Hrows] Hout. unfold entry.
  destruct (m !! a) as [row|] eqn:Ha; [|done]. cbn.
  apply lookup_ge_None. rewrite (Hrows _ _ Ha).
  destruct Hout as [Hge|Hge]; [|done].
  apply lookup_lt_Some in Ha. lia.
Qed.

Lemma cell_agree symbols filled filled' a b :
  (∀ p q, (p < q)%nat → p = (a `min` b)%nat → q = (a `max` b)%nat →
          filled p q = filled' p q) →
  cell symbols filled a b = cell symbols filled' a b.
Proof.
  intros Hagree. unfold cell.
  destruct (Nat.eqb_spec a b) as [|Hne]; [done|].
  rewrite (Hagree (a `min` b)%nat (a `max` b)%nat); [done|lia|done|done].
Qed.


Lemma cell_filled symbols filled a b :
  a ≠ b → filled (a `min` b)%nat (a `max` b)%nat = true →
  cell symbols filled a b
  = _get_correlation (symbol_at symbols (a `min` b)%nat)
                     (symbol_at symbols (a `max` b)%nat).
Proof.
  intros Hne Hfilled. unfold cell.
  rewrite (proj2 (Nat.eqb_neq a b)) by done. by rewrite Hfilled.
Qed.

Ltac bool_arith :=
  cbv beta; apply Bool.eq_iff_eq_true;
  rewrite ?orb_true_iff, ?andb_true_iff, ?Nat.ltb_lt, ?Nat.eqb_eq; lia.

Lemma symbols_in_position_of triples :
  symbols_in (map position_of triples) = symbols_of triples.
Proof.
  unfold symbols_in, symbols_of. rewrite map_map. apply map_ext.
  by intros [[s size] entry].
Qed.

Lemma index_symbol portfolio i pos s :
  index portfolio i = ok pos → symbol pos = Some s →
  symbol_at (symbols_in portfolio) i = s.
Proof.
  unfold index, symbol_at, symbols_in. rewrite list_lookup_fmap.
  destruct (portfolio !! i) as [p|]; [|done]. intros [= ->] Hs.
  cbn. by rewrite Hs.
Qed.

(** Whenever the loop nest returns, the matrix is the full correlation
    matrix of the portfolio's symbols. *)
Lemma build_correlation_matrix_sound portfolio m :
  let n := length portfolio in
  build_correlation_matrix portfolio = ok m →
  shape n m ∧
  ∀ a b, (a < n)%nat → (b < n)%nat →
    entry m a b = Some (cell (symbols_in portfolio) (fun _ _ => true) a b).
Proof.
  intros n Hrun. unfold build_correlation_matrix in Hrun. fold n in Hrun.
  set (symbols := symbols_in portfolio).
  cut (shape n m ∧
       ∀ a b, (a < n)%nat → (b < n)%nat →
         entry m a b = Some (cell symbols (fun p _ => p <? n)%nat a b)).
  { intros [Hshape Hm]. split; [done|]. intros a b Ha Hb.
    rewrite Hm by done. f_equal. apply cell_agree.
    intros p q Hpq -> ->. bool_arith. }
  apply (for_range_ok_inv
    (fun i m => shape n m ∧
       ∀ a b, (a < n)%nat → (b < n)%nat →
         entry m a b = Some (cell symbols (fun p _ => p <? i)%nat a b))
    _ 0 n _ _ (Nat.le_0_l n) Hrun).
  - split; [apply shape_np_eye|]. intros a b Ha Hb.
    rewrite entry_np_eye by done. unfold cell.
    destruct (a =? b)%nat; [done|]. reflexivity.
  - intros i m0 m1 [_ Hi] [Hshape Hm] Hinner.
    cut (shape n m1 ∧
         ∀ a b, (a < n)%nat → (b < n)%nat →
           entry m1 a b
           = Some (cell symbols
                     (fun p q => (p <? i) || ((p =? i) && (q <? n)))%nat a b)).
    { intros [Hshape1 Hm1]. split; [done|]. intros a b Ha Hb.
      rewrite Hm1 by done. f_equal. apply cell_agree.
      intros p q Hpq -> ->. bool_arith. }
    apply (for_range_ok_inv
      (fun j m' => shape n m' ∧
         ∀ a b, (a < n)%nat → (b < n)%nat →
           entry m' a b
           = Some (cell symbols
                     (fun p q => (p <? i) || ((p =? i) && (q <? j)))%nat a b))
      _ (i + 1)%nat n _ _ ltac:(lia) Hinner).
    + split; [done|]. intros a b Ha Hb. rewrite Hm by done. f_equal.
      apply cell_agree. intros p q Hpq -> ->. bool_arith.
    + intros j m2 m3 [Hj1 Hj2] [Hshape2 Hm2] Hbody.
      destruct (index portfolio i) as [e|pos_i] eqn:Hpi; [done|].
      cbn in Hbody.
      destruct (symbol pos_i) as [s_i|] eqn:Hsi; [|done]. cbn in Hbody.
      destruct (index portfolio j) as [e|pos_j] eqn:Hpj; [done|].
      cbn in Hbody.
      destruct (symbol pos_j) as [s_j|] eqn:Hsj; [|done]. cbn in Hbody.
      injection Hbody as <-.
      rewrite <- (index_symbol _ _ _ _ Hpi Hsi), <- (index_symbol _ _ _ _ Hpj Hsj).
      fold symbols.
      split; [by do 2 apply shape_set_entry|].
      intros a b Ha Hb.
      rewrite (entry_set_entry n) by (try apply shape_set_entry; done || lia).
      rewrite (entry_set_entry n) by (done || lia).
      assert (Hfill : ∀ p q, p = i → q = j →
                ((p <? i) || (p =? i) && (q <? S j))%nat = true).
      { intros p q -> ->.
        rewrite Nat.eqb_refl, (proj2 (Nat.ltb_lt j (S j))) by lia.
        apply orb_true_r. }
      destruct (decide (a = j ∧ b = i)) as [[-> ->]|Hji].
      { f_equal. rewrite cell_filled.
        - by rewrite Nat.min_r, Nat.max_l by lia.
        - lia.
        - apply Hfill; lia. }
      destruct (decide (a = i ∧ b = j)) as [[-> ->]|Hij].
      { f_equal. rewrite cell_filled.
        - by rewrite Nat.min_l, Nat.max_r by lia.
        - lia.
        - apply Hfill; lia. }
      rewrite Hm2 by done. f_equal. apply cell_agree.
      intros p q Hpq -> ->. bool_arith.
Qed.

Lemma index_position_of triples i :
  (i < length triples)%nat →
  ∃ size entry,
    index (map position_of triples) i
    = ok (position_of (symbol_at (symbols_of triples) i, size, entry)).
Proof.
  intros Hi. unfold index, symbol_at, symbols_of.
  rewrite !list_lookup_fmap.
  destruct (lookup_lt_is_Some_2 triples i Hi) as [[[s size] entry] ->].
  by exists size, entry.
Qed.

(** With every key present the loop nest does return. *)
Lemma build_correlation_matrix_returns triples :
  ∃ m, build_correlation_matrix (map position_of triples) = ok m.
Proof.
  unfold build_correlation_matrix. rewrite length_map.
  set (n := length triples).
  match goal with |- ∃ m, for_range _ _ ?body _ = _ =>
    destruct (for_range_inv (fun _ _ => True) body 0 n (np_eye n))
      as (m & Hrun & _)
  end.
  - lia.
  - done.
  - intros i m [_ Hi] _.
    match goal with |- ∃ x, for_range _ _ ?body _ = _ ∧ _ =>
      destruct (for_range_inv (fun _ _ => True) body (i + 1)%nat n m)
        as (mi & Hrun' & _)
    end.
    + lia.
    + done.
    + intros j m0 [Hj1 Hj2] _.
      destruct (index_position_of triples i) as (size_i & entry_i & ->); [done|].
      destruct (index_position_of triples j) as (size_j & entry_j & ->); [done|].
      eexists. split; [reflexivity|done].
    + by exists mi.
  - by exists m.
Qed.

Lemma correlation_matrix_symmetric portfolio m :
  build_correlation_matrix portfolio = ok m →
  shape (length portfolio) m ∧ symmetric m ∧
  unit_diagonal (length portfolio) m.
Proof.
  intros Hrun.
  destruct (build_correlation_matrix_sound portfolio m Hrun) as (Hshape & Hm).
  split; [done|]. split.
  - intros i j.
    destruct (decide (i < length portfolio ∧ j < length portfolio)%nat)
      as [[Hi Hj]|Hout].
    + rewrite !Hm by done. f_equal. unfold cell.
      rewrite (Nat.eqb_sym j i), (Nat.min_comm j i), (Nat.max_comm j i).
      reflexivity.
    + rewrite !(entry_out_of_shape (length portfolio)) by (done || lia).
      reflexivity.
  - intros i Hi. rewrite Hm by done. unfold cell. by rewrite Nat.eqb_refl.
Qed.

Lemma random_normal_n_draws loc scale n g :
  ∃ xs g', random_normal_n loc scale n g = (ok xs, g') ∧ length xs = n ∧
    ∀ i, (i < n)%nat → xs !! i = Some (loc + scale * g i).
Proof.
  revert g. induction n as [|n IH]; intros g.
  - exists [], g. repeat split. lia.
  - cbn [random_normal_n]. unfold mbind at 1. unfold M_bind at 1.
    unfold random_normal at 1. unfold ok at 1.
    unfold mbind at 1. unfold M_bind at 1.
    destruct (IH (fun k => g (S k))) as (xs & g' & -> & Hlen & Hxs).
    eexists _, g'. split; [reflexivity|]. split; [cbn; by rewrite Hlen|].
    intros [|i] Hi; [done|]. cbn. apply Hxs. lia.
Qed.

Lemma scale_by_volatility_returns triples draws :
  length draws = length triples →
  ∃ scaled, scale_by_volatility (map position_of triples) draws = ok scaled ∧
    length scaled = length triples ∧
    ∀ i r, draws !! i = Some r →
      scaled !! i
      = Some (r * daily_volatility (symbol_at (symbols_of triples) i)).
Proof.
  intros Hlen. unfold scale_by_volatility.
  match goal with |- ∃ _, for_enumerate ?body _ _ _ = _ ∧ _ =>
    destruct (for_enumerate_inv
      (fun k acc => length acc = length triples ∧
         ∀ i r, draws !! i = Some r →
           acc !! i
           = Some (if (i <? k)%nat
                   then r * daily_volatility (symbol_at (symbols_of triples) i)
                   else r))
      body (map position_of triples) 0 draws) as (acc & Hrun & Hacc_len & Hacc)
  end.
  - split; [done|]. intros i r Hi. by rewrite Hi.
  - intros j pos acc Hj [Hacc_len Hacc]. cbn [Nat.add] in *.
    apply lookup_position_of in Hj as (s & size & entry & Hj & ->).
    assert (Hsym : symbol_at (symbols_of triples) j = s).
    { unfold symbol_at, symbols_of. by rewrite list_lookup_fmap, Hj. }
    destruct (lookup_lt_is_Some_2 draws j) as [r Hr].
    { rewrite Hlen. by apply lookup_lt_Some in Hj. }
    eexists. split.
    { unfold index. cbn. rewrite (Hacc _ _ Hr), Nat.ltb_irrefl. reflexivity. }
    cbn [Nat.add].
    split; [by rewrite length_insert|].
    intros i r' Hi. destruct (decide (i = j)) as [->|Hne].
    + rewrite list_lookup_insert_eq
        by (rewrite Hacc_len; by apply lookup_lt_Some in Hj).
      rewrite (proj2 (Nat.ltb_lt j (S j))) by lia.
      rewrite Hr in Hi. injection Hi as <-. rewrite <- Hsym. reflexivity.
    + rewrite list_lookup_insert_ne by done. rewrite (Hacc _ _ Hi).
      destruct (Nat.ltb_spec i j), (Nat.ltb_spec i (S j)); try done; lia.
  - exists acc. split; [done|]. split; [done|].
    intros i r Hi. rewrite (Hacc _ _ Hi). rewrite length_map. cbn [Nat.add].
    apply lookup_lt_Some in Hi. rewrite Hlen in Hi.
    by rewrite (proj2 (Nat.ltb_lt i (length triples))) by done.
Qed.

Lemma generate_correlated_returns_total np_linalg_cholesky portfolio g :
  ∃ returns g',
    _generate_correlated_returns np_linalg_cholesky portfolio g = (ok returns, g').
Proof.
  apply try_exceptM_returns. intros _ g0.
  destruct (random_normal_n_returns 0 0.01 (length portfolio) g0)
    as (xs & g1 & Hxs & _).
  by exists xs, g1.
Qed.

Lemma generate_correlated_returns_fallback np_linalg_cholesky triples m g :
  build_correlation_matrix (map position_of triples) = ok m →
  np_linalg_cholesky m = raise LinAlgError →
  ∃ returns g',
    _generate_correlated_returns np_linalg_cholesky (map position_of triples) g
      = (ok returns, g') ∧
    length returns = length triples ∧
    ∀ i, (i < length triples)%nat →
      returns !! i
      = Some ((0 + 1 * g i)
              * daily_volatility (symbol_at (symbols_of triples) i)).
Proof.
  intros Hbuild Hchol.
  destruct (random_normal_n_draws 0 1 (length triples) g)
    as (draws & g' & Hdraws & Hlen & Hdraw).
  destruct (scale_by_volatility_returns triples draws Hlen)
    as (scaled & Hscale & Hscaled_len & Hscaled).
  exists scaled, g'. split; [|split; [done|]].
  - unfold _generate_correlated_returns, try_exceptM,
      _generate_correlated_returns_try.
    unfold mbind, M_bind, lift. rewrite Hbuild, length_map, Hdraws.
    unfold ok, raise in *. cbv beta iota.
    unfold apply_cholesky. rewrite Hchol. unfold ok. cbv beta iota.
    by rewrite Hscale.
  - intros i Hi. apply Hscaled. by apply Hdraw.
Qed.

(** C4: whenever the generator builds its correlation matrix, the matrix
    is square, symmetric and has 1 on its diagonal; for a portfolio whose
    keys are present it does build it; whatever the draws and whatever
    the factorization does, the generator returns a vector of real
    numbers and does not raise; and when the factorization raises
    LinAlgError, entry i of the vector is the i-th independent draw times
    the daily volatility of position i. *)
Theorem C4_correlation_matrix_and_fallback
    (np_linalg_cholesky : matrix → result matrix) :
  (∀ portfolio m,
     build_correlation_matrix portfolio = ok m →
     shape (length portfolio) m ∧ symmetric m ∧
     unit_diagonal (length portfolio) m) ∧
  (∀ portfolio g,
     ∃ returns g',
       _generate_correlated_returns np_linalg_cholesky portfolio g
         = (ok returns, g')) ∧
  (∀ triples g,
     ∃ m, build_correlation_matrix (map position_of triples) = ok m ∧
       (np_linalg_cholesky m = raise LinAlgError →
        ∃ returns g',
          _generate_correlated_returns np_linalg_cholesky
            (map position_of triples) g = (ok returns, g') ∧
          length returns = length triples ∧
          ∀ i, (i < length triples)%nat →
            returns !! i
            = Some ((0 + 1 * g i)
                    * daily_volatility (symbol_at (symbols_of triples) i)))).
Proof.
  split; [|split].
  - apply correlation_matrix_symmetric.
  - apply generate_correlated_returns_total.
  - intros triples g.
    destruct (build_correlation_matrix_returns triples) as (m & Hbuild).
    exists m. split; [done|].
    by apply generate_correlated_returns_fallback.
Qed.

Lemma C4_correlation_matrix_and_fallback_witness :
  ∃ m, build_correlation_matrix (map position_of eurusd_gbpusd) = ok m ∧
    (shape 2 m ∧ symmetric m ∧ unit_diagonal 2 m) ∧
    never_positive_definite m = raise LinAlgError ∧
    ∃ returns g',
      _generate_correlated_returns never_positive_definite
        (map position_of eurusd_gbpusd) all_ones = (ok returns, g') ∧
      length returns = 2%nat ∧
      ∀ i, (i < 2)%nat →
        returns !! i
        = Some ((0 + 1 * all_ones i)
                * daily_volatility (symbol_at (symbols_of eurusd_gbpusd) i)).
Proof.
  destruct (C4_correlation_matrix_and_fallback never_positive_definite)
    as (Hmatrix & _ & Hfallback).
  destruct (Hfallback eurusd_gbpusd all_ones) as (m & Hbuild & Hreturns).
  exists m. split; [exact Hbuild|]. split.
  - exact (Hmatrix _ m Hbuild).
  - split; [reflexivity|]. apply Hreturns. reflexivity.
Defined.

End MatrixFacts.

(** ** Support and resistance levels *)

Module LevelFacts.
Import PatternDetector Vocabulary Examples PyFacts.

(** The labels are visited once each. *)
Lemma set_iteration_perm (labels : list Z) :
  set_iteration labels ≡ₚ elements (list_to_set labels : gset Z).
Proof.
  unfold set_iteration. cbv zeta.
  rewrite <- (merge_sort_Permutation Z.le (elements _)) at 3.
  generalize (merge_sort Z.le (elements (list_to_set labels : gset Z))).
  induction l as [|x l IH]; [done|].
  destruct (decide (0 <= x)%Z).
  - rewrite filter_cons_True, filter_cons_False by lia. cbn. by rewrite IH.
  - rewrite filter_cons_False, filter_cons_True by lia.
    rewrite <- Permutation_middle. by rewrite IH.
Qed.

Lemma elem_of_set_iteration (labels : list Z) (cluster_id : Z) :
  cluster_id ∈ set_iteration labels ↔ cluster_id ∈ labels.
Proof.
  by rewrite set_iteration_perm, elem_of_elements, elem_of_list_to_set.
Qed.

Lemma NoDup_set_iteration (labels : list Z) : NoDup (set_iteration labels).
Proof. rewrite set_iteration_perm. apply NoDup_elements. Qed.

Lemma omap_seq_shift {A} (f : nat → option A) (k n : nat) :
  omap f (seq (S k) n) = omap (fun i => f (S i)) (seq k n).
Proof.
  revert k. induction n as [|n IH]; intros k; [done|].
  cbn [seq omap list_omap]. by rewrite IH.
Qed.

(** The mask of the code selects the cluster of the label. *)
Lemma cluster_points_cluster (levels : list R) (labels : list Z)
    (cluster_id : Z) :
  cluster_points levels labels cluster_id = cluster levels labels cluster_id.
Proof.
  unfold cluster_points, cluster.
  revert labels. induction levels as [|x levels IH]; intros labels; [done|].
  cbn [length seq omap list_omap]. rewrite omap_seq_shift.
  destruct labels as [|l labels].
  - cbn. clear IH. induction (seq 0 (length levels)) as [|i s IHs]; [done|].
    cbn. by rewrite decide_False by done.
  - cbn [zip zip_with lookup list_lookup]. rewrite <- IH.
    destruct (decide (l = cluster_id)) as [->|Hne].
    + rewrite filter_cons_True by done.
      rewrite (decide_True (P := Some cluster_id = Some cluster_id)) by done.
      reflexivity.
    + rewrite filter_cons_False by done.
      rewrite (decide_False (P := Some l = Some cluster_id)) by congruence.
      reflexivity.
Qed.

Section Levels.
Variable DBSCAN_fit_predict : R → nat → list R → list Z.
Variable find_peaks : list R → R → list nat.
Variable format_level : R → string.

Lemma cluster_levels_sound levels eps level strength touches :
  (level, strength, touches) ∈ _cluster_levels DBSCAN_fit_predict levels eps →
  ∃ cluster_id,
    let labels := DBSCAN_fit_predict (eps * np_mean levels) 2 levels in
    let points := cluster_points levels labels cluster_id in
    cluster_id ≠ (-1)%Z ∧ cluster_id ∈ labels ∧
    (2 <= touches)%nat ∧ touches = length points ∧
    level = np_mean points ∧ strength = flen points * np_std points.
Proof.
  unfold _cluster_levels.
  destruct (decide (length levels < 2)%nat); [by intros ?%elem_of_nil|].
  intros (cluster_id & Hin & Hid)%list_elem_of_bind.
  rewrite elem_of_set_iteration in Hid.
  destruct (decide (cluster_id = (-1)%Z)); [by apply elem_of_nil in Hin|].
  destruct (decide (2 <= length _)%nat) as [Hlen|]; [|by apply elem_of_nil in Hin].
  apply list_elem_of_singleton in Hin. injection Hin as -> -> ->.
  exists cluster_id. cbv zeta. split_and!; done.
Qed.

(** A level, said with the cluster of the specification. *)
Lemma cluster_levels_cluster levels eps level strength touches :
  (level, strength, touches) ∈ _cluster_levels DBSCAN_fit_predict levels eps →
  ∃ cluster_id,
    let labels := DBSCAN_fit_predict (eps * np_mean levels) 2 levels in
    let points := cluster levels labels cluster_id in
    cluster_id ≠ (-1)%Z ∧ cluster_id ∈ labels ∧
    (2 <= touches)%nat ∧ touches = length points ∧
    level = np_mean points ∧ strength = INR (length points) * np_std points.
Proof.
  intros Hin. apply cluster_levels_sound in Hin as (cluster_id & Hin).
  exists cluster_id. cbv zeta in Hin |- *.
  by rewrite <- cluster_points_cluster.
Qed.

Lemma append_levels_sound make data column extrema patterns patterns' :
  append_levels DBSCAN_fit_predict make data column extrema patterns
    = ok patterns' →
  ∃ new, patterns' = patterns ++ new ∧
    Forall (fun p => ∃ values n start_t end_t level strength touches,
              take_indices column extrema = ok values ∧
              (level, strength, touches)
                ∈ _cluster_levels DBSCAN_fit_predict values 0.001 ∧
              p = make n start_t end_t level strength touches) new.
Proof.
  unfold append_levels.
  destruct (decide (2 < length extrema)%nat) as [_|_].
  2:{ intros [= <-]. exists []. by rewrite app_nil_r. }
  destruct (take_indices column extrema) as [e|values] eqn:Hvalues; [done|].
  cbn. intros Hrun.
  apply (for_enumerate_ok_inv
    (fun _ acc => ∃ new, acc = patterns ++ new ∧
       Forall (fun p => ∃ values0 n start_t end_t level strength touches,
                 ok values = ok values0 ∧
                 (level, strength, touches)
                   ∈ _cluster_levels DBSCAN_fit_predict values0 0.001 ∧
                 p = make n start_t end_t level strength touches) new)
    _ _ _ _ _ Hrun).
  - exists []. by rewrite app_nil_r.
  - intros j [[level strength] touches] acc acc1 Hj (new & -> & Hnew) Hbody.
    destruct (index extrema 0) as [e|first]; [done|]. cbn in Hbody.
    destruct (index_label data _) as [e|start_t]; [done|]. cbn in Hbody.
    destruct (last_index_label data) as [e|end_t]; [done|]. cbn in Hbody.
    injection Hbody as <-.
    exists (new ++ [make (length (patterns ++ new)) start_t end_t level strength touches]).
    split; [by rewrite app_assoc|].
    apply Forall_app. split; [done|]. constructor; [|constructor].
    exists values, (length (patterns ++ new)), start_t, end_t, level, strength, touches.
    split; [done|]. split; [|done].
    apply list_elem_of_lookup. by exists j.
Qed.


Lemma detect_support_resistance_sound data patterns :
  _detect_support_resistance DBSCAN_fit_predict find_peaks format_level data
    = ok patterns →
  Forall (fun p =>
    ∃ values level strength touches kind,
      (level, strength, touches)
        ∈ _cluster_levels DBSCAN_fit_predict values 0.001 ∧
      (2 <= touches)%nat ∧
      confidence p = Rmin 0.9 (strength / 10) ∧
      target_price p = Some level ∧
      parameters p = [("level", VFloat level); ("strength", VFloat strength);
                      ("touches", VInt (Z.of_nat touches));
                      ("type", VStr kind)])
    patterns.
Proof.
  unfold _detect_support_resistance.
  destruct (append_levels _ (resistance_pattern _) _ _ _ _) as [e|ps1] eqn:H1;
    [done|].
  cbn. destruct (append_levels _ (support_pattern _) _ _ _ _) as [e|ps2] eqn:H2;
    [done|].
  cbn. intros [= <-].
  apply append_levels_sound in H1 as (new1 & -> & Hnew1).
  apply append_levels_sound in H2 as (new2 & -> & Hnew2).
  cbn. apply Forall_app. split.
  - eapply Forall_impl; [exact Hnew1|]. cbn.
    intros p (values & n & st & en & level & strength & touches & _ & Hin & ->).
    exists values, level, strength, touches, "resistance".
    split; [done|]. split; [|done].
    by destruct (cluster_levels_sound _ _ _ _ _ Hin) as (? & _ & _ & ? & _).
  - eapply Forall_impl; [exact Hnew2|]. cbn.
    intros p (values & n & st & en & level & strength & touches & _ & Hin & ->).
    exists values, level, strength, touches, "support".
    split; [done|]. split; [|done].
    by destruct (cluster_levels_sound _ _ _ _ _ Hin) as (? & _ & _ & ? & _).
Qed.

(** Every level pattern comes from a cluster of the values at the
    peaks or at the valleys. *)
Lemma detect_support_resistance_clusters data patterns :
  _detect_support_resistance DBSCAN_fit_predict find_peaks format_level data
    = ok patterns →
  Forall (fun p =>
    ∃ values level strength touches kind,
      (level, strength, touches)
        ∈ _cluster_levels DBSCAN_fit_predict values 0.001 ∧
      (2 <= touches)%nat ∧
      confidence p = Rmin 0.9 (strength / 10) ∧
      target_price p = Some level ∧
      parameters p = [("level", VFloat level); ("strength", VFloat strength);
                      ("touches", VInt (Z.of_nat touches));
                      ("type", VStr kind)] ∧
      (take_indices (map high (rows data))
         (_find_significant_peaks find_peaks (map high (rows data)) 0.001)
       = ok values ∨
       take_indices (map low (rows data))
         (_find_significant_valleys find_peaks (map low (rows data)) 0.001)
       = ok values) ∧
      ∃ cluster_id,
        let labels := DBSCAN_fit_predict (0.001 * np_mean values) 2 values in
        let points := cluster values labels cluster_id in
        cluster_id ≠ (-1)%Z ∧ cluster_id ∈ labels ∧
        touches = length points ∧ level = np_mean points ∧
        strength = INR (length points) * np_std points)
    patterns.
Proof.
  unfold _detect_support_resistance.
  destruct (append_levels _ (resistance_pattern _) _ _ _ _) as [e|ps1] eqn:H1;
    [done|].
  cbn. destruct (append_levels _ (support_pattern _) _ _ _ _) as [e|ps2] eqn:H2;
    [done|].
  cbn. intros [= <-].
  apply append_levels_sound in H1 as (new1 & -> & Hnew1).
  apply append_levels_sound in H2 as (new2 & -> & Hnew2).
  cbn. apply Forall_app. split.
  - eapply Forall_impl; [exact Hnew1|]. cbn.
    intros p (values & n & st & en & level & strength & touches & Hv & Hin & ->).
    exists values, level, strength, touches, "resistance".
    destruct (cluster_levels_cluster _ _ _ _ _ Hin)
      as (cluster_id & Hne & Hid & Htouches & Hlen & Hlevel & Hstrength).
    split_and!; try done; [by left|].
    by exists cluster_id.
  - eapply Forall_impl; [exact Hnew2|]. cbn.
    intros p (values & n & st & en & level & strength & touches & Hv & Hin & ->).
    exists values, level, strength, touches, "support".
    destruct (cluster_levels_cluster _ _ _ _ _ Hin)
      as (cluster_id & Hne & Hid & Htouches & Hlen & Hlevel & Hstrength).
    split_and!; try done; [by right|].
    by exists cluster_id.
Qed.

(** The strength of a level is not negative, so the confidence of a
    level pattern lies in [0, 0.9]. *)
Lemma level_confidence_in_range data patterns p :
  _detect_support_resistance DBSCAN_fit_predict find_peaks format_level data
    = ok patterns →
  p ∈ patterns → 0 <= confidence p <= 1.
Proof.
  intros Hrun Hp.
  pose proof (detect_support_resistance_sound _ _ Hrun) as Hall.
  rewrite Forall_forall in Hall.
  destruct (Hall p Hp)
    as (values & level & strength & touches & kind & Hin & _ & -> & _).
  destruct (cluster_levels_sound _ _ _ _ _ Hin)
    as (cluster_id & _ & _ & _ & _ & _ & ->).
  assert (0 <= flen (cluster_points values
                       (DBSCAN_fit_predict (0.001 * np_mean values) 2 values)
                       cluster_id)) by apply pos_INR.
  assert (0 <= np_std (cluster_points values
                         (DBSCAN_fit_predict (0.001 * np_mean values) 2 values)
                         cluster_id)) by apply sqrt_pos.
  unfold Rmin. destruct (Rle_dec _ _); nra.
Qed.

(** C7: every level the clustering step emits belongs to a label other
    than noise: its touches are the number of values with that label,
    which is at least 2, its level is their mean and its strength is
    their number times their standard deviation; and every pattern the
    level detector returns carries such a level of the values at the
    peaks or at the valleys, with confidence min(0.9, strength / 10). *)
Theorem C7_price_levels :
  (∀ levels eps,
     Forall (fun '(level, strength, touches) =>
       ∃ cluster_id,
         let labels := DBSCAN_fit_predict (eps * np_mean levels) 2 levels in
         let points := cluster levels labels cluster_id in
         cluster_id ≠ (-1)%Z ∧ cluster_id ∈ labels ∧
         (2 <= touches)%nat ∧ touches = length points ∧
         level = np_mean points ∧ strength = INR (length points) * np_std points)
       (_cluster_levels DBSCAN_fit_predict levels eps)) ∧
  (∀ data patterns,
     _detect_support_resistance DBSCAN_fit_predict find_peaks format_level data
       = ok patterns →
     Forall (fun p =>
       ∃ values level strength touches kind,
         (level, strength, touches)
           ∈ _cluster_levels DBSCAN_fit_predict values 0.001 ∧
         (2 <= touches)%nat ∧
         confidence p = Rmin 0.9 (strength / 10) ∧
         target_price p = Some level ∧
         parameters p = [("level", VFloat level); ("strength", VFloat strength);
                         ("touches", VInt (Z.of_nat touches));
                         ("type", VStr kind)] ∧
         (take_indices (map high (rows data))
            (_find_significant_peaks find_peaks (map high (rows data)) 0.001)
          = ok values ∨
          take_indices (map low (rows data))
            (_find_significant_valleys find_peaks (map low (rows data)) 0.001)
          = ok values) ∧
         ∃ cluster_id,
           let labels := DBSCAN_fit_predict (0.001 * np_mean values) 2 values in
           let points := cluster values labels cluster_id in
           cluster_id ≠ (-1)%Z ∧ cluster_id ∈ labels ∧
           touches = length points ∧ level = np_mean points ∧
           strength = INR (length points) * np_std points)
       patterns).
Proof.
  split.
  - intros levels eps. apply Forall_forall.
    intros [[level strength] touches] Hin.
    by apply cluster_levels_cluster.
  - apply detect_support_resistance_clusters.
Qed.

End Levels.

(** The detector does emit levels: one cluster of three touches each
    for the highs and the lows of [range_bound]. *)
Lemma cluster_levels_example :
  _cluster_levels one_cluster [2; 2; 2] 0.001
  = [(np_mean [2; 2; 2], flen [2; 2; 2] * np_std [2; 2; 2], 3%nat)].
Proof.
  unfold _cluster_levels.
  rewrite decide_False by (cbn; lia).
  replace (set_iteration _) with [0%Z] by (vm_compute; reflexivity).
  reflexivity.
Qed.

Lemma detect_support_resistance_example :
  _detect_support_resistance one_cluster first_three no_digits range_bound
  = ok [ resistance_pattern no_digits 0 0 2 (np_mean [2; 2; 2])
           (flen [2; 2; 2] * np_std [2; 2; 2]) 3;
         support_pattern no_digits 1 0 2 (np_mean [1; 1; 1])
           (flen [1; 1; 1] * np_std [1; 1; 1]) 3 ].
Proof.
  unfold _detect_support_resistance, append_levels,
    _find_significant_peaks, _find_significant_valleys, first_three.
  rewrite !decide_True by (cbn; lia).
  replace (take_indices (map high (rows range_bound)) [0; 1; 2]%nat)
    with (ok [2; 2; 2]) by reflexivity.
  replace (take_indices (map low (rows range_bound)) [0; 1; 2]%nat)
    with (ok [1; 1; 1]) by reflexivity.
  cbn [mbind result_bind ok].
  rewrite cluster_levels_example.
  reflexivity.
Qed.
Lemma C7_price_levels_witness :
  _detect_support_resistance one_cluster first_three no_digits range_bound
  = ok [ resistance_pattern no_digits 0 0 2 (np_mean [2; 2; 2])
           (flen [2; 2; 2] * np_std [2; 2; 2]) 3;
         support_pattern no_digits 1 0 2 (np_mean [1; 1; 1])
           (flen [1; 1; 1] * np_std [1; 1; 1]) 3 ] ∧
  Forall (fun p =>
    ∃ values level strength touches kind,
      (level, strength, touches) ∈ _cluster_levels one_cluster values 0.001 ∧
      (2 <= touches)%nat ∧
      confidence p = Rmin 0.9 (strength / 10) ∧
      target_price p = Some level ∧
      parameters p = [("level", VFloat level); ("strength", VFloat strength);
                      ("touches", VInt (Z.of_nat touches));
                      ("type", VStr kind)] ∧
      (take_indices (map high (rows range_bound))
         (_find_significant_peaks first_three (map high (rows range_bound))
            0.001)
       = ok values ∨
       take_indices (map low (rows range_bound))
         (_find_significant_valleys first_three (map low (rows range_bound))
            0.001)
       = ok values) ∧
      ∃ cluster_id,
        let labels := one_cluster (0.001 * np_mean values) 2 values in
        let points := cluster values labels cluster_id in
        cluster_id ≠ (-1)%Z ∧ cluster_id ∈ labels ∧
        touches = length points ∧ level = np_mean points ∧
        strength = INR (length points) * np_std points)
    [ resistance_pattern no_digits 0 0 2 (np_mean [2; 2; 2])
        (flen [2; 2; 2] * np_std [2; 2; 2]) 3;
      support_pattern no_digits 1 0 2 (np_mean [1; 1; 1])
        (flen [1; 1; 1] * np_std [1; 1; 1]) 3 ].
Proof.
  split; [apply detect_support_resistance_example|].
  apply (proj2 (C7_price_levels one_cluster first_three no_digits) range_bound).
  apply detect_support_resistance_example.
Defined.

End LevelFacts.

(** ** The lookup tables *)

Module TableFacts.
Import RiskCalculator Tables.

Lemma default_correlations_entries a b c :
  default_correlations !! (a, b) = Some c → (a, b, c) ∈ correlation_pairs.
Proof.
  unfold default_correlations, correlation_pairs.
  rewrite !lookup_insert_Some, lookup_empty.
  rewrite !elem_of_cons, elem_of_nil.
  intros H.
  repeat (destruct H as [[[= <- <-] <-]|[_ H]]; [tauto|]).
  discriminate.
Qed.

Lemma correlation_symmetric (a b : string) :
  _get_correlation a b = _get_correlation b a.
Proof.
  unfold _get_correlation.
  destruct (decide (a = b)) as [->|Hne].
  { by rewrite decide_True. }
  rewrite decide_False by congruence. cbv zeta.
  destruct (default_correlations !! (a, b)) as [c|] eqn:Hab.
  - apply default_correlations_entries in Hab.
    unfold correlation_pairs in Hab.
    rewrite !elem_of_cons, elem_of_nil in Hab.
    repeat (destruct Hab as [[= -> -> ->]|Hab]; [reflexivity|]).
    done.
  - destruct (default_correlations !! (b, a)); reflexivity.
Qed.

(** X1: the correlation of two symbols does not depend on their order:
    the table holds no pair in both orders. *)
Theorem X1_correlation_symmetric (a b : string) :
  _get_correlation a b = _get_correlation b a.
Proof. apply correlation_symmetric. Qed.

(** X2: every correlation the lookup returns lies in [-1, 1]; it is 1
    for a symbol with itself and 0 for a pair of different symbols that
    the table does not hold in either order. *)
Theorem X2_correlation_bounded (a b : string) :
  (-1) <= _get_correlation a b <= 1 ∧
  _get_correlation a a = 1 ∧
  (a ≠ b → default_correlations !! (a, b) = None →
   default_correlations !! (b, a) = None → _get_correlation a b = 0).
Proof.
  split; [|split].
  - unfold _get_correlation.
    destruct (decide (a = b)); [lra|]. cbv zeta.
    destruct (default_correlations !! (a, b)) as [c|] eqn:Hab.
    + apply default_correlations_entries in Hab.
      unfold correlation_pairs in Hab.
      rewrite !elem_of_cons, elem_of_nil in Hab.
      repeat (destruct Hab as [[= _ _ ->]|Hab]; [lra|]). done.
    + destruct (default_correlations !! (b, a)) as [c|] eqn:Hba; [|lra].
      apply default_correlations_entries in Hba.
      unfold correlation_pairs in Hba.
      rewrite !elem_of_cons, elem_of_nil in Hba.
      repeat (destruct Hba as [[= _ _ ->]|Hba]; [lra|]). done.
  - unfold _get_correlation. rewrite decide_True by done. lra.
  - intros Hne Hab Hba. unfold _get_correlation.
    rewrite decide_False by done. cbv zeta. rewrite Hab, Hba. lra.
Qed.

Lemma X2_correlation_bounded_witness :
  "EURUSD" ≠ "NZDUSD" ∧
  default_correlations !! ("EURUSD", "NZDUSD") = None ∧
  default_correlations !! ("NZDUSD", "EURUSD") = None ∧
  _get_correlation "EURUSD" "NZDUSD" = 0.
Proof.
  assert (Hne : "EURUSD" ≠ "NZDUSD") by discriminate.
  split; [exact Hne|]. split; [reflexivity|]. split; [reflexivity|].
  exact (proj2 (proj2 (X2_correlation_bounded "EURUSD" "NZDUSD"))
           Hne eq_refl eq_refl).
Defined.

(** The annual volatility the calculator uses for a symbol, known or
    not, lies between 8% and 14%. *)
Lemma volatility_range s :
  0.08 <= dict_get default_volatilities s 0.10 <= 0.14.
Proof.
  unfold dict_get.
  destruct (default_volatilities !! s) as [v|] eqn:Hs; cbn; [|lra].
  unfold default_volatilities in Hs.
  rewrite !lookup_insert_Some, lookup_empty in Hs.
  repeat (destruct Hs as [[_ <-]|[_ Hs]]; [lra|]). discriminate.
Qed.

(** X3: the number of days of a timeframe is one of the nine lengths of
    the map, and it is 1 for every name the map does not hold. *)
Theorem X3_timeframe_days (tf : string) :
  _convert_timeframe_to_days tf ∈ timeframe_lengths ∧
  (tf ∉ timeframe_names → _convert_timeframe_to_days tf = 1%Z).
Proof.
  unfold _convert_timeframe_to_days, dict_get, timeframe_lengths,
    timeframe_names.
  destruct (timeframe_map !! tf) as [d|] eqn:Htf; cbn.
  - unfold timeframe_map in Htf.
    rewrite !lookup_insert_Some, lookup_empty in Htf.
    rewrite !elem_of_cons.
    repeat (destruct Htf as [[<- <-]|[_ Htf]];
            [split; [tauto|intros H; exfalso; apply H; tauto]|]).
    discriminate.
  - split; [|done]. apply elem_of_cons. by left.
Qed.

Lemma X3_timeframe_days_witness :
  ("4h" ∉ timeframe_names) ∧ _convert_timeframe_to_days "4h" = 1%Z.
Proof.
  assert (H : "4h" ∉ timeframe_names).
  { unfold timeframe_names. rewrite !elem_of_cons, elem_of_nil.
    intros H. repeat (destruct H as [H|H]; [discriminate|]). exact H. }
  split; [exact H|].
  exact (proj2 (X3_timeframe_days "4h") H).
Defined.

End TableFacts.

(** ** Payloads with a missing key *)

Module ErrorFacts.
Import RiskCalculator Vocabulary Examples PyFacts Terms.

(** A loop raises as soon as one element makes its body raise. *)
Lemma for_enumerate_raises {A St} (body : nat → A → St → result St) (l : list A) :
  (∃ j x, l !! j = Some x ∧ ∀ i s, ∃ e, body i x s = raise e) →
  ∀ i s, ∃ e, for_enumerate body i l s = raise e.
Proof.
  intros (j & x & Hj & Hx). revert j Hj.
  induction l as [|y l IH]; intros j Hj i s; [done|].
  cbn. destruct j as [|j]; cbn in Hj.
  - injection Hj as ->. destruct (Hx i s) as [e ->]. by exists e.
  - destruct (body i y s) as [e|s1]; [by exists e|]. cbn. by apply (IH j).
Qed.

Lemma for_each_raises {A St} (body : A → St → result St) (l : list A) s :
  (∃ x, x ∈ l ∧ ∀ s, ∃ e, body x s = raise e) →
  ∃ e, for_each body l s = raise e.
Proof.
  intros (x & Hin & Hx). apply list_elem_of_lookup in Hin as [j Hj].
  apply for_enumerate_raises. exists j, x. split; [done|]. intros _. apply Hx.
Qed.

Lemma for_each_first_raises {A St} (body : A → St → result St) x l s e :
  body x s = raise e → for_each body (x :: l) s = raise e.
Proof. unfold for_each. cbn. by intros ->. Qed.

Lemma for_enumerate_raises_M {A St} (body : nat → A → St → M St) (l : list A) :
  (∃ j x, l !! j = Some x ∧ ∀ i s g, ∃ e g', body i x s g = (raise e, g')) →
  ∀ i s g, ∃ e g', for_enumerate body i l s g = (raise e, g').
Proof.
  intros (j & x & Hj & Hx). revert j Hj.
  induction l as [|y l IH]; intros j Hj i s g; [done|].
  cbn. unfold mbind, M_bind. destruct j as [|j]; cbn in Hj.
  - injection Hj as ->. destruct (Hx i s g) as (e & g' & ->). by exists e, g'.
  - destruct (body i y s g) as [[e|s1] g1]; [by exists e, g1|]. by apply (IH j).
Qed.

Lemma for_each_raises_M {A St} (body : A → St → M St) (l : list A) s g :
  (∃ x, x ∈ l ∧ ∀ s g, ∃ e g', body x s g = (raise e, g')) →
  ∃ e g', for_each body l s g = (raise e, g').
Proof.
  intros (x & Hin & Hx). apply list_elem_of_lookup in Hin as [j Hj].
  apply for_enumerate_raises_M. exists j, x. split; [done|]. intros _. apply Hx.
Qed.

Ltac lacking pos Hlack :=
  destruct pos as [[?|] [?|] [?|]]; cbn;
  try (eexists; reflexivity); try (eexists _, _; reflexivity);
  destruct Hlack as [?|[?|?]]; discriminate.

Lemma nameless_position_lacks_a_key :
  ∃ pos, pos ∈ [nameless_position] ∧ lacks_a_key pos.
Proof.
  exists nameless_position. split; [apply list_elem_of_singleton; reflexivity|].
  left. reflexivity.
Defined.

(** X4: the parametric VaR of a portfolio in which some position lacks a
    key is 0.0, for every timeframe and confidence level: the KeyError is
    caught. *)
Theorem X4_parametric_var_zero_on_missing_key
    (norm_ppf : R → R) (portfolio : list Position) (days : Z) (conf : R) :
  (∃ pos, pos ∈ portfolio ∧ lacks_a_key pos) →
  _calculate_parametric_var norm_ppf portfolio days conf = 0.
Proof.
  intros (pos & Hin & Hlack).
  unfold _calculate_parametric_var, parametric_variance_loop.
  match goal with |- try_except (for_each ?body _ _ ≫= _) _ = _ =>
    destruct (for_each_raises body portfolio 0) as [e ->]
  end.
  - exists pos. split; [done|]. intros s. lacking pos Hlack.
  - cbn. lra.
Qed.

Lemma X4_parametric_var_zero_on_missing_key_witness :
  (∃ pos, pos ∈ [nameless_position] ∧ lacks_a_key pos) ∧
  _calculate_parametric_var (fun _ => 1) [nameless_position] 1 0.95 = 0.
Proof.
  split; [exact nameless_position_lacks_a_key|].
  exact (X4_parametric_var_zero_on_missing_key (fun _ => 1)
           [nameless_position] 1 0.95 nameless_position_lacks_a_key).
Defined.

Lemma analyze_positions_raises norm_ppf portfolio g :
  (∃ pos, pos ∈ portfolio ∧ lacks_a_key pos) →
  ∃ e g', _analyze_positions norm_ppf portfolio g = (raise e, g').
Proof.
  intros (pos & Hin & Hlack). unfold _analyze_positions.
  apply for_each_raises_M. exists pos. split; [done|].
  intros s g0. lacking pos Hlack.
Qed.

Lemma portfolio_risk_falls_back
    (norm_ppf : R → R) (np_percentile : list R → R → R)
    (np_linalg_cholesky : matrix → result matrix)
    (portfolio : list Position) (timeframe : string) (conf : R) (g : rng) :
  (∃ pos, pos ∈ portfolio ∧ lacks_a_key pos) →
  ∃ g', calculate_portfolio_risk norm_ppf np_percentile np_linalg_cholesky
          portfolio timeframe conf g = (ok _get_empty_risk_result, g').
Proof.
  intros Hlack.
  destruct (analyze_positions_raises norm_ppf portfolio g Hlack)
    as (e & g' & Hraise).
  exists g'. unfold calculate_portfolio_risk.
  rewrite (try_exceptM_caught _ _ g g' e); [reflexivity|].
  unfold calculate_portfolio_risk_try.
  destruct portfolio as [|p portfolio].
  { destruct Hlack as (pos & Hin & _). by apply elem_of_nil in Hin. }
  unfold mbind, M_bind. by rewrite Hraise.
Qed.

(** X5: when some position of the portfolio lacks a key, the risk
    calculation returns the all-zero structure: the position analysis,
    its first step, reads all three keys of every position. *)
Theorem X5_portfolio_risk_zero_on_missing_key
    (norm_ppf : R → R) (np_percentile : list R → R → R)
    (np_linalg_cholesky : matrix → result matrix)
    (portfolio : list Position) (timeframe : string) (conf : R) (g : rng) :
  (∃ pos, pos ∈ portfolio ∧ lacks_a_key pos) →
  ∃ g', calculate_portfolio_risk norm_ppf np_percentile np_linalg_cholesky
          portfolio timeframe conf g = (ok _get_empty_risk_result, g').
Proof. apply portfolio_risk_falls_back. Qed.

Lemma X5_portfolio_risk_zero_on_missing_key_witness :
  (∃ pos, pos ∈ [nameless_position] ∧ lacks_a_key pos) ∧
  ∃ g', calculate_portfolio_risk (fun _ => 1) (fun _ _ => 0)
          never_positive_definite [nameless_position] "1d" 0.95 all_ones
        = (ok _get_empty_risk_result, g').
Proof.
  split; [exact nameless_position_lacks_a_key|].
  exact (X5_portfolio_risk_zero_on_missing_key (fun _ => 1) (fun _ _ => 0)
           never_positive_definite [nameless_position] "1d" 0.95 all_ones
           nameless_position_lacks_a_key).
Defined.

(** X6: when some position lacks a key, the market-crash, the
    high-volatility and the trend-reversal scenario each return the empty
    scenario result (probability 0.0, no loss, no affected position). *)
Theorem X6_scenarios_empty_on_missing_key (portfolio : list Position) :
  (∃ pos, pos ∈ portfolio ∧ lacks_a_key pos) →
  _scenario_market_crash portfolio = _get_empty_scenario_result ∧
  _scenario_high_volatility portfolio = _get_empty_scenario_result ∧
  _scenario_trend_reversal portfolio = _get_empty_scenario_result.
Proof.
  intros (pos & Hin & Hlack).
  unfold _scenario_market_crash, _scenario_high_volatility,
    _scenario_trend_reversal. cbv zeta.
  repeat split.
  all: match goal with |- try_except (for_each ?body _ ?init ≫= _) _ = _ =>
         destruct (for_each_raises body portfolio init) as [e ->];
           [|reflexivity]
       end.
  all: exists pos; (split; [done|]); intros [[t w] a]; lacking pos Hlack.
Qed.

Lemma X6_scenarios_empty_on_missing_key_witness :
  (∃ pos, pos ∈ [nameless_position] ∧ lacks_a_key pos) ∧
  _scenario_market_crash [nameless_position] = _get_empty_scenario_result ∧
  _scenario_high_volatility [nameless_position] = _get_empty_scenario_result ∧
  _scenario_trend_reversal [nameless_position] = _get_empty_scenario_result.
Proof.
  split; [exact nameless_position_lacks_a_key|].
  exact (X6_scenarios_empty_on_missing_key [nameless_position]
           nameless_position_lacks_a_key).
Defined.

End ErrorFacts.

(** ** The four scenarios *)

Module ScenarioMore.
Import RiskCalculator Vocabulary Examples PyFacts Terms PositionFacts.

(** X7: in every scenario result, for every portfolio, the worst-case
    loss is a fixed multiple of the expected loss: 1.5 for the market
    crash and for high volatility, 1.3 for the trend reversal, 2 for the
    correlation breakdown. *)
Theorem X7_worst_case_multiples (portfolio : list Position) :
  worst_case_loss (_scenario_market_crash portfolio)
    = 1.5 * expected_loss (_scenario_market_crash portfolio) ∧
  worst_case_loss (_scenario_high_volatility portfolio)
    = 1.5 * expected_loss (_scenario_high_volatility portfolio) ∧
  worst_case_loss (_scenario_trend_reversal portfolio)
    = 1.3 * expected_loss (_scenario_trend_reversal portfolio) ∧
  worst_case_loss (_scenario_correlation_breakdown portfolio)
    = 2 * expected_loss (_scenario_correlation_breakdown portfolio).
Proof.
  split; [|split; [|split]].
  - unfold _scenario_market_crash. cbv zeta.
    match goal with |- context [for_each ?body ?l ?init] =>
      destruct (for_each body l init) as [e|[[t w] a]] eqn:Hrun
    end; cbn; [lra|].
    apply (for_each_ok_inv (fun _ '(t, w, _) => w = 1.5 * t)) in Hrun;
      [done|lra|].
    intros j pos [[t0 w0] a0] [[t1 w1] a1] _ -> Hbody.
    destruct pos as [[s|] [p|] [en|]]; cbn in Hbody; try done.
    injection Hbody as <- <- _. lra.
  - unfold _scenario_high_volatility. cbv zeta.
    match goal with |- context [for_each ?body ?l ?init] =>
      destruct (for_each body l init) as [e|[[t w] a]] eqn:Hrun
    end; cbn; [lra|].
    apply (for_each_ok_inv (fun _ '(t, w, _) => w = 1.5 * t)) in Hrun;
      [done|lra|].
    intros j pos [[t0 w0] a0] [[t1 w1] a1] _ -> Hbody.
    destruct pos as [[s|] [p|] [en|]]; cbn in Hbody; try done.
    injection Hbody as <- <- _. lra.
  - unfold _scenario_trend_reversal. cbv zeta.
    match goal with |- context [for_each ?body ?l ?init] =>
      destruct (for_each body l init) as [e|[[t w] a]] eqn:Hrun
    end; cbn; [lra|].
    apply (for_each_ok_inv (fun _ '(t, w, _) => w = 1.3 * t)) in Hrun;
      [done|lra|].
    intros j pos [[t0 w0] a0] [[t1 w1] a1] _ -> Hbody.
    destruct pos as [[s|] [p|] [en|]]; cbn in Hbody; try done.
    injection Hbody as <- <- _. lra.
  - unfold _scenario_correlation_breakdown. cbv zeta.
    match goal with |- context [for_each ?body ?l ?init] =>
      destruct (for_each body l init) as [e|a]
    end; cbn; lra.
Qed.

(** The loss of one position in the crash: 40% of its signed notional,
    whichever branch computes it. *)
Lemma crash_term size entry :
  (if decide (size > 0) then Rabs size * entry * Rabs (-0.40)
   else Rabs size * entry * -0.40) = 0.4 * (size * entry).
Proof.
  replace (Rabs (-0.40)) with 0.40 by (rewrite Rabs_left; lra).
  destruct (decide (size > 0)).
  - rewrite Rabs_pos_eq by lra. lra.
  - rewrite Rabs_left1 by lra. lra.
Qed.

(** X8: on a portfolio whose keys are present the market crash has
    probability 0.05 and an expected loss of 40% of the net signed
    notional at entry (size times entry price, summed): short positions
    offset long ones. The affected positions are those of positive
    signed notional. *)
Theorem X8_market_crash_closed_form (triples : list (string * R * R)) :
  let r := _scenario_market_crash (map position_of triples) in
  probability r = 0.05 ∧
  expected_loss r = 0.4 * fsum (map signed_notional triples) ∧
  length (affected_positions r)
    = length (filter (fun t => 0 < signed_notional t) triples).
Proof.
  unfold _scenario_market_crash. cbv zeta.
  match goal with |- context [for_each ?body ?l ?init] =>
    destruct (for_each_inv
      (fun k '(t, w, a) =>
         t = 0.4 * fsum (map signed_notional (take k triples)) ∧
         length a = length (filter (fun t => 0 < signed_notional t)
                                   (take k triples)))
      body l init) as ([[t w] a] & -> & Ht & Ha)
  end.
  - rewrite take_0. cbn. split; [lra|done].
  - intros j pos [[t w] a] Hj [-> Ha].
    apply lookup_position_of in Hj as (s & size & entry & Hj & ->).
    cbn -[Rabs]. rewrite crash_term.
    eexists. split; [reflexivity|].
    rewrite (take_S_r _ _ _ Hj), map_app, filter_app, length_app.
    cbn [map]. rewrite fsum_snoc.
    change (signed_notional (s, size, entry)) with (size * entry).
    split; [lra|].
    destruct (decide (0.4 * (size * entry) > 0)).
    + rewrite filter_cons_True by (unfold signed_notional; cbn; lra).
      rewrite length_app, Ha. done.
    + rewrite filter_cons_False by (unfold signed_notional; cbn; lra).
      rewrite Ha. cbn. lia.
  - rewrite length_map, firstn_all in Ht, Ha. cbn.
    repeat split; first [done | lra].
Qed.

(** X9: on a portfolio whose keys are present the trend reversal expects
    a loss of 20% of the gross notional at entry (|size| times entry
    price, summed), whatever the direction of the positions, and the
    high-volatility scenario expects the sum of the positions' one-month
    VaR at 2.5 times their volatility; both list every position as
    affected. *)
Theorem X9_trend_and_volatility_closed_forms (triples : list (string * R * R)) :
  let trend := _scenario_trend_reversal (map position_of triples) in
  let stress := _scenario_high_volatility (map position_of triples) in
  expected_loss trend = 0.2 * fsum (map gross_notional triples) ∧
  length (affected_positions trend) = length triples ∧
  expected_loss stress = fsum (map stressed_monthly_var triples) ∧
  length (affected_positions stress) = length triples.
Proof.
  cbv zeta. split; [|split; [|split]].
  1,2: unfold _scenario_trend_reversal; cbv zeta;
    match goal with |- context [for_each ?body ?l ?init] =>
      destruct (for_each_inv
        (fun k '(t, w, a) =>
           t = 0.2 * fsum (map gross_notional (take k triples)) ∧
           length a = k)
        body l init) as ([[t w] a] & -> & Ht & Ha)
    end;
    [ rewrite take_0; cbn; split; [lra|done]
    | intros j pos [[t w] a] Hj [-> Ha];
      apply lookup_position_of in Hj as (s & size & entry & Hj & ->);
      cbn -[Rabs]; eexists; (split; [reflexivity|]);
      rewrite (take_S_r _ _ _ Hj), map_app; cbn [map]; rewrite fsum_snoc;
      change (gross_notional (s, size, entry)) with (Rabs size * entry);
      split; [lra | rewrite length_app, Ha; cbn; lia]
    | rewrite length_map, firstn_all in Ht; rewrite length_map in Ha; cbn;
      first [done | lra] ].
  1,2: unfold _scenario_high_volatility; cbv zeta;
    match goal with |- context [for_each ?body ?l ?init] =>
      destruct (for_each_inv
        (fun k '(t, w, a) =>
           t = fsum (map stressed_monthly_var (take k triples)) ∧
           length a = k)
        body l init) as ([[t w] a] & -> & Ht & Ha)
    end;
    [ rewrite take_0; cbn; split; [lra|done]
    | intros j pos [[t w] a] Hj [-> Ha];
      apply lookup_position_of in Hj as (s & size & entry & Hj & ->);
      cbn -[Rabs dict_get]; eexists; (split; [reflexivity|]);
      rewrite (take_S_r _ _ _ Hj), map_app; cbn [map]; rewrite fsum_snoc;
      split; [reflexivity | rewrite length_app, Ha; cbn; lia]
    | rewrite length_map, firstn_all in Ht; rewrite length_map in Ha; cbn;
      first [done | lra] ].
Qed.

End ScenarioMore.

(** ** The portfolio volatility and the correlation breakdown *)

Module VolatilityFacts.
Import RiskCalculator Vocabulary Examples PyFacts Terms PositionFacts.
Import TableFacts ErrorFacts.


Lemma total_notional_returns triples :
  total_notional (map position_of triples) = ok (fsum (map gross_notional triples)).
Proof.
  unfold total_notional.
  match goal with |- for_each ?body ?l ?init = _ =>
    destruct (for_each_inv
      (fun k acc => acc = fsum (map gross_notional (take k triples)))
      body l init) as (acc & -> & Hacc)
  end.
  - by rewrite take_0.
  - intros j pos acc Hj ->.
    apply lookup_position_of in Hj as (s & size & entry & Hj & ->).
    cbn -[Rabs]. eexists. split; [reflexivity|].
    rewrite (take_S_r _ _ _ Hj), map_app. cbn [map]. by rewrite fsum_snoc.
  - rewrite length_map, firstn_all in Hacc. by rewrite Hacc.
Qed.

Lemma portfolio_volatility_nonneg portfolio use_correlations :
  0 <= _calculate_portfolio_volatility portfolio use_correlations.
Proof.
  unfold _calculate_portfolio_volatility.
  destruct portfolio as [|pos portfolio]; [cbn; lra|].
  match goal with |- 0 <= try_except ?m _ => destruct m as [e|v] eqn:Hm end;
    cbn; [lra|].
  match type of Hm with (?a ≫= ?k) = _ => destruct a as [e|x]; [done|] end.
  cbn in Hm.
  match type of Hm with (?a ≫= ?k) = _ => destruct a as [e|y]; [done|] end.
  cbn in Hm. injection Hm as <-. apply sqrt_pos.
Qed.

Lemma portfolio_volatility_zero_notional triples use_correlations :
  triples ≠ [] → fsum (map gross_notional triples) = 0 →
  _calculate_portfolio_volatility (map position_of triples) use_correlations = 0.
Proof.
  intros Hne Hzero. unfold _calculate_portfolio_volatility.
  destruct triples as [|[[s size] entry] triples]; [done|].
  cbn [map]. cbv iota.
  match goal with
  | |- try_except (for_each ?body (?x :: ?l) ?s ≫= _) _ = _ =>
      rewrite (for_each_first_raises body x l s ZeroDivisionError)
  end; [cbn; lra|].
  change (position_of (s, size, entry) :: map position_of triples)
    with (map position_of ((s, size, entry) :: triples)).
  rewrite total_notional_returns, Hzero.
  cbn -[Rabs]. unfold truediv. by rewrite decide_True.
Qed.


Lemma portfolio_volatility_lacking portfolio use_correlations :
  (∃ pos, pos ∈ portfolio ∧ lacks_a_key pos) →
  _calculate_portfolio_volatility portfolio use_correlations = 0.
Proof.
  intros (pos & Hin & Hlack). unfold _calculate_portfolio_volatility.
  destruct portfolio as [|p0 portfolio]; [by apply elem_of_nil in Hin|].
  cbv iota.
  match goal with
  | |- try_except (for_each ?body ?l ?s ≫= _) _ = _ =>
      destruct (for_each_raises body l s) as [e ->]
  end; [|cbn; lra].
  exists pos. split; [done|]. intros s.
  destruct pos as [[?|] [?|] [?|]]; cbn;
    try (eexists; reflexivity);
    destruct Hlack as [?|[?|?]]; discriminate.
Qed.

Lemma portfolio_volatility_single s size entry use_correlations :
  Rabs size * entry ≠ 0 →
  _calculate_portfolio_volatility [position_of (s, size, entry)] use_correlations
  = dict_get default_volatilities s 0.10.
Proof.
  intros Hv. unfold _calculate_portfolio_volatility, total_notional, for_each.
  cbn -[Rabs dict_get truediv sqrt Rmax pow].
  unfold truediv. rewrite decide_False by lra.
  cbn -[Rabs dict_get sqrt Rmax pow].
  rewrite andb_false_r. cbn -[Rabs dict_get sqrt Rmax pow].
  pose proof (volatility_range s) as Hs.
  set (v := dict_get default_volatilities s 0.10) in *.
  replace (0 + (Rabs size * entry / (0 + Rabs size * entry) * v) ^ 2)
    with (1 * v ^ 2)
    by (field; split; intros H0; apply Hv; rewrite H0; ring).
  rewrite Rmax_right by nra. rewrite Rmult_1_l.
  replace (v ^ 2) with (v * v) by ring. apply sqrt_square. lra.
Qed.

Lemma portfolio_volatility_short portfolio :
  (length portfolio <= 1)%nat →
  _calculate_portfolio_volatility portfolio true
  = _calculate_portfolio_volatility portfolio false.
Proof.
  intros Hlen. unfold _calculate_portfolio_volatility.
  destruct portfolio as [|p [|q l]]; [done|done|cbn in Hlen; lia].
Qed.

Lemma breakdown_short portfolio :
  (length portfolio <= 1)%nat →
  expected_loss (_scenario_correlation_breakdown portfolio) = 0 ∧
  worst_case_loss (_scenario_correlation_breakdown portfolio) = 0.
Proof.
  intros Hlen. unfold _scenario_correlation_breakdown. cbv zeta.
  rewrite (portfolio_volatility_short portfolio Hlen).
  match goal with |- context [for_each ?body ?l ?init] =>
    destruct (for_each body l init) as [e|a]
  end; cbn; lra.
Qed.


(** X10: the portfolio volatility is never negative, and it is 0.0 on
    the empty portfolio, on a portfolio in which some position lacks a
    key, and on a portfolio whose gross notional is zero: the KeyError
    and the division by zero are caught. *)
Theorem X10_portfolio_volatility_edges (use_correlations : bool) :
  (∀ portfolio,
     0 <= _calculate_portfolio_volatility portfolio use_correlations) ∧
  _calculate_portfolio_volatility [] use_correlations = 0 ∧
  (∀ portfolio,
     (∃ pos, pos ∈ portfolio ∧ lacks_a_key pos) →
     _calculate_portfolio_volatility portfolio use_correlations = 0) ∧
  (∀ triples,
     fsum (map gross_notional triples) = 0 →
     _calculate_portfolio_volatility (map position_of triples)
       use_correlations = 0).
Proof.
  split; [|split; [|split]].
  - intros portfolio. apply portfolio_volatility_nonneg.
  - cbn. lra.
  - intros portfolio. apply portfolio_volatility_lacking.
  - intros [|t triples] Hzero; [cbn; lra|].
    by apply portfolio_volatility_zero_notional.
Qed.

Lemma X10_portfolio_volatility_edges_witness :
  (∃ pos, pos ∈ [nameless_position] ∧ lacks_a_key pos) ∧
  _calculate_portfolio_volatility [nameless_position] true = 0 ∧
  fsum (map gross_notional [("EURUSD", 0, 1)]) = 0 ∧
  _calculate_portfolio_volatility (map position_of [("EURUSD", 0, 1)]) true = 0.
Proof.
  assert (Hzero : fsum (map gross_notional [("EURUSD", 0, 1)]) = 0).
  { unfold gross_notional. cbn -[Rabs]. rewrite Rabs_R0. lra. }
  split; [exact nameless_position_lacks_a_key|].
  split; [exact (proj1 (proj2 (proj2 (X10_portfolio_volatility_edges true)))
                   [nameless_position] nameless_position_lacks_a_key)|].
  split; [exact Hzero|].
  exact (proj2 (proj2 (proj2 (X10_portfolio_volatility_edges true)))
           [("EURUSD", 0, 1)] Hzero).
Defined.

(** X11: the volatility of a portfolio of one position of non-zero
    notional is the annual volatility of its symbol, whatever its size
    and price; and for a portfolio of at most one position the
    correlation breakdown reports no loss: there is no diversification
    to lose. *)
Theorem X11_single_position_volatility :
  (∀ s size entry use_correlations,
     Rabs size * entry ≠ 0 →
     _calculate_portfolio_volatility [position_of (s, size, entry)]
       use_correlations = dict_get default_volatilities s 0.10) ∧
  (∀ portfolio,
     (length portfolio <= 1)%nat →
     expected_loss (_scenario_correlation_breakdown portfolio) = 0 ∧
     worst_case_loss (_scenario_correlation_breakdown portfolio) = 0).
Proof.
  split.
  - intros s size entry use_correlations.
    apply portfolio_volatility_single.
  - apply breakdown_short.
Qed.

Lemma X11_single_position_volatility_witness :
  Rabs 1 * 1 ≠ 0 ∧
  _calculate_portfolio_volatility [position_of ("EURUSD", 1, 1)] true
    = dict_get default_volatilities "EURUSD" 0.10 ∧
  (length eurusd_merged <= 1)%nat ∧
  expected_loss (_scenario_correlation_breakdown eurusd_merged) = 0 ∧
  worst_case_loss (_scenario_correlation_breakdown eurusd_merged) = 0.
Proof.
  assert (Hnz : Rabs 1 * 1 ≠ 0) by (rewrite Rabs_R1; lra).
  assert (Hlen : (length eurusd_merged <= 1)%nat) by (cbn; lia).
  split; [exact Hnz|].
  split; [exact (proj1 X11_single_position_volatility "EURUSD" 1 1 true Hnz)|].
  split; [exact Hlen|].
  exact (proj2 X11_single_position_volatility eurusd_merged Hlen).
Defined.

End VolatilityFacts.

(** ** The VaR estimates and the risk ratios *)

Module VarFacts.
Import RiskCalculator Vocabulary Examples PyFacts Terms Cases.

Lemma M_bind_ok_inv {A B} (m : M A) (k : A → M B) g y g' :
  (m ≫= k) g = (ok y, g') →
  ∃ x g1, m g = (ok x, g1) ∧ k x g1 = (ok y, g').
Proof.
  unfold mbind, M_bind. destruct (m g) as [[e|x] g1]; [done|].
  intros Hk. by exists x, g1.
Qed.

Lemma M_bind_ok {A B} (m : M A) (k : A → M B) g x g1 :
  m g = (ok x, g1) → (m ≫= k) g = k x g1.
Proof. unfold mbind, M_bind. by intros ->. Qed.

(** A [try] whose block and whose handler both establish [P] returns a
    value with [P]. *)
Lemma try_exceptM_post {A} (P : A → Prop) (m : M A) (h : exn → M A) g :
  (∀ x g', m g = (ok x, g') → P x) →
  (∀ e g1, ∃ x g2, h e g1 = (ok x, g2) ∧ P x) →
  ∃ x g', try_exceptM m h g = (ok x, g') ∧ P x.
Proof.
  intros Hm Hh. unfold try_exceptM.
  destruct (m g) as [[e|x] g'] eqn:Hrun; [apply Hh|].
  exists x, g'. split; [done|]. by apply (Hm x g').
Qed.

Section Engine.
Variable norm_ppf : R → R.
Variable np_percentile : list R → R → R.
Variable np_linalg_cholesky : matrix → result matrix.

Lemma historical_var_returns portfolio days conf g :
  ∃ v g', _calculate_historical_var np_percentile portfolio days conf g
            = (ok v, g') ∧ 0 <= v.
Proof.
  unfold _calculate_historical_var. apply try_exceptM_post.
  - intros x g' Hrun. apply M_bind_ok_inv in Hrun as (rs & g1 & _ & Hk).
    cbn in Hk. injection Hk as <- _. apply Rabs_pos.
  - intros e g1. eexists _, g1. split; [reflexivity|lra].
Qed.

Lemma monte_carlo_var_returns portfolio days conf g :
  ∃ v g', _calculate_monte_carlo_var np_percentile np_linalg_cholesky
            portfolio days conf g = (ok v, g') ∧ 0 <= v.
Proof.
  unfold _calculate_monte_carlo_var. apply try_exceptM_post.
  - intros x g' Hrun. apply M_bind_ok_inv in Hrun as (rs & g1 & _ & Hk).
    cbn in Hk. injection Hk as <- _. apply Rabs_pos.
  - intros e g1. eexists _, g1. split; [reflexivity|lra].
Qed.

Lemma calculate_var_returns portfolio days conf g :
  ∃ v g', _calculate_var norm_ppf np_percentile np_linalg_cholesky
            portfolio days conf g = (ok v, g') ∧
    0 <= vr_var v ∧ vr_var v = vr_monte_carlo_var v ∧
    vr_expected_shortfall v = 1.3 * vr_var v ∧
    0 <= vr_historical_var v ∧
    vr_parametric_var v = _calculate_parametric_var norm_ppf portfolio days conf.
Proof.
  unfold _calculate_var.
  destruct (historical_var_returns portfolio days conf g) as (h & g1 & Hh & Hh0).
  destruct (monte_carlo_var_returns portfolio days conf g1) as (m & g2 & Hm & Hm0).
  eexists _, g2. unfold mbind, M_bind. rewrite Hh. cbv zeta. rewrite Hm.
  split; [reflexivity|]. cbn. repeat split; first [done | lra].
Qed.


Lemma for_enumerate_ok_inv_M {A St} (P : nat → St → Prop)
    (body : nat → A → St → M St) (l : list A) :
  ∀ i s g s' g',
    for_enumerate body i l s g = (ok s', g') →
    P i s →
    (∀ j x s g s1 g1, l !! j = Some x → P (i + j)%nat s →
       body (i + j)%nat x s g = (ok s1, g1) → P (i + S j)%nat s1) →
    P (i + length l)%nat s'.
Proof.
  induction l as [|x l IH]; intros i s g s' g' Hrun HP Hstep.
  - cbn in Hrun. injection Hrun as <- _. cbn. by rewrite Nat.add_0_r.
  - cbn in Hrun. apply M_bind_ok_inv in Hrun as (s1 & g1 & Hb & Hrun).
    cbn [length]. replace (i + S (length l))%nat with (S i + length l)%nat by lia.
    apply (IH (S i) s1 g1 s' g' Hrun).
    + replace (S i) with (i + 1)%nat by lia.
      apply (Hstep 0%nat x s g s1 g1); [done| |]; by rewrite Nat.add_0_r.
    + intros j y t h t1 h1 Hj Ht Hy.
      replace (S i + S j)%nat with (i + S (S j))%nat by lia.
      apply (Hstep (S j) y t h t1 h1); [done| |];
        by replace (i + S j)%nat with (S i + j)%nat by lia.
Qed.

Lemma for_range_ok_inv_M {St} (P : nat → St → Prop)
    (body : nat → St → M St) (lo hi : nat) s g s' g' :
  (lo <= hi)%nat →
  for_range lo hi body s g = (ok s', g') →
  P lo s →
  (∀ j s g s1 g1, (lo <= j < hi)%nat → P j s →
     body j s g = (ok s1, g1) → P (S j) s1) →
  P hi s'.
Proof.
  intros Hle Hrun HP Hstep. unfold for_range, for_each in Hrun.
  apply (for_enumerate_ok_inv_M (fun k => P (lo + k)%nat)) in Hrun.
  - rewrite length_seq in Hrun. cbn in Hrun.
    by replace (lo + (hi - lo))%nat with hi in Hrun by lia.
  - cbn. by rewrite Nat.add_0_r.
  - cbn. intros j x t h t1 h1 Hj Ht Hb.
    apply lookup_seq in Hj as [-> Hlt].
    replace (lo + S j)%nat with (S (lo + j)) by lia.
    apply (Hstep (lo + j)%nat t h t1 h1); [lia|done|done].
Qed.

Lemma simulate_portfolio_returns_length portfolio days g :
  ∃ rs g', _simulate_portfolio_returns np_linalg_cholesky portfolio days g
             = (ok rs, g') ∧
    (length rs = days ∨ rs = []).
Proof.
  unfold _simulate_portfolio_returns. apply try_exceptM_post.
  - intros rs g' Hrun. left.
    apply (for_range_ok_inv_M (fun k rs => length rs = k)) in Hrun;
      [done|lia|done|].
    intros j s h s1 h1 _ Hs Hb.
    apply M_bind_ok_inv in Hb as (cr & h2 & _ & Hb).
    apply M_bind_ok_inv in Hb as (dr & h3 & _ & Hb).
    cbn in Hb. injection Hb as <- _. rewrite length_app, Hs. cbn. lia.
  - intros e g1. eexists _, g1. split; [reflexivity|]. by right.
Qed.

Lemma np_std_nonneg l : 0 <= np_std l.
Proof. unfold np_std. apply sqrt_pos. Qed.

Lemma risk_ratios_returns portfolio analysis g :
  ∃ rr g', _calculate_risk_ratios np_linalg_cholesky portfolio analysis g
             = (ok rr, g') ∧
    0 <= rr_max_drawdown rr ∧ 0 <= rr_volatility_annual rr.
Proof.
  unfold _calculate_risk_ratios.
  destruct (simulate_portfolio_returns_length portfolio 252 g)
    as (rs & g1 & Hrs & _).
  unfold mbind at 1, M_bind at 1. rewrite Hrs.
  change (ok rs) with (inr (A := exn) rs). cbv beta iota.
  destruct (decide (length rs = 0%nat)).
  - eexists _, g1. split; [reflexivity|]. cbn. lra.
  - eexists _, g1. split; [reflexivity|]. cbn -[np_std np_min sqrt Rabs].
    split.
    + apply Rmult_le_pos; [apply Rabs_pos|lra].
    + apply Rmult_le_pos; [apply np_std_nonneg|apply sqrt_pos].
Qed.

(** X12: the VaR calculation returns for every portfolio, timeframe and
    confidence level. The VaR it reports is the Monte Carlo estimate and
    is never negative, the expected shortfall is 1.3 times the VaR, and
    the historical estimate is never negative either: an error in an
    estimate makes that estimate 0.0. *)
Theorem X12_var_results (portfolio : list Position) (days : Z) (conf : R)
    (g : rng) :
  ∃ v g', _calculate_var norm_ppf np_percentile np_linalg_cholesky
            portfolio days conf g = (ok v, g') ∧
    0 <= vr_var v ∧ vr_var v = vr_monte_carlo_var v ∧
    vr_expected_shortfall v = 1.3 * vr_var v ∧
    0 <= vr_historical_var v.
Proof.
  destruct (calculate_var_returns portfolio days conf g)
    as (v & g' & Hv & H0 & Hmc & Hes & Hh & _).
  by exists v, g'.
Qed.

(** X13: the simulation of the portfolio returns gives one return per
    day or, after an error, none, and does not raise. The risk ratios
    are computed for every portfolio; the maximum drawdown and the
    annual volatility are never negative; and when the simulation gave
    no return every ratio is 0.0. *)
Theorem X13_risk_ratios (portfolio : list Position)
    (analysis : list PositionAnalysis) (g : rng) :
  (∀ days, ∃ rs g',
     _simulate_portfolio_returns np_linalg_cholesky portfolio days g
       = (ok rs, g') ∧
     (length rs = days ∨ rs = [])) ∧
  (∃ rr g',
     _calculate_risk_ratios np_linalg_cholesky portfolio analysis g
       = (ok rr, g') ∧
     0 <= rr_max_drawdown rr ∧ 0 <= rr_volatility_annual rr) ∧
  (∀ g1,
     _simulate_portfolio_returns np_linalg_cholesky portfolio 252 g
       = (ok [], g1) →
     _calculate_risk_ratios np_linalg_cholesky portfolio analysis g
       = (ok {| rr_sharpe_ratio := 0; rr_sortino_ratio := 0;
                rr_calmar_ratio := 0; rr_volatility_annual := 0;
                rr_max_drawdown := 0 |}, g1)).
Proof.
  split; [|split].
  - intros days. apply simulate_portfolio_returns_length.
  - apply risk_ratios_returns.
  - intros g1 Hrs. unfold _calculate_risk_ratios.
    unfold mbind at 1, M_bind at 1. rewrite Hrs. cbn.
    unfold mret, M_ret. do 2 f_equal. f_equal; lra.
Qed.

End Engine.

Lemma X13_risk_ratios_witness :
  _simulate_portfolio_returns never_positive_definite [sizeless_position]
    252 all_ones = (ok [], fun k => all_ones (S k)) ∧
  _calculate_risk_ratios never_positive_definite [sizeless_position] []
    all_ones
  = (ok {| rr_sharpe_ratio := 0; rr_sortino_ratio := 0;
           rr_calmar_ratio := 0; rr_volatility_annual := 0;
           rr_max_drawdown := 0 |}, fun k => all_ones (S k)).
Proof.
  assert (Hsim : _simulate_portfolio_returns never_positive_definite
                   [sizeless_position] 252 all_ones
                 = (ok [], fun k => all_ones (S k))) by reflexivity.
  split; [exact Hsim|].
  exact (proj2 (proj2 (X13_risk_ratios never_positive_definite
                         [sizeless_position] [] all_ones)) _ Hsim).
Defined.

End VarFacts.

(** ** The recommendations *)

Module RecommendationFacts.
Import RiskCalculator Vocabulary PyFacts Terms.

Lemma recommendations_length pm vr rr :
  (1 <= length (_generate_risk_recommendations pm vr rr) <= 4)%nat.
Proof.
  unfold _generate_risk_recommendations. cbv zeta.
  generalize "Consider reducing leverage - current level is very high",
    "Monitor leverage levels - approaching high risk territory",
    "Daily VaR exceeds 10% of account - consider reducing position sizes",
    "Daily VaR is elevated - monitor risk closely",
    "Risk-adjusted returns are low - review trading strategy",
    "Excellent risk-adjusted returns - maintain current strategy",
    "Maximum drawdown is concerning - implement stricter stop losses",
    "Portfolio risk levels are within acceptable ranges".
  intros m1 m2 m3 m4 m5 m6 m7 m8.
  repeat match goal with
         | |- context [decide (?x > ?y)] => destruct (decide (x > y))
         | |- context [decide (?x < ?y)] => destruct (decide (x < y))
         end.
  all: cbn [app length]; case_decide; cbn [app length]; lia.
Qed.

(** The message is there exactly when no rule triggers. *)
Lemma recommendations_all_clear pm vr rr :
  let recs := _generate_risk_recommendations pm vr rr in
  (all_clear ∈ recs ↔ no_rule_triggers pm vr rr) ∧
  (no_rule_triggers pm vr rr → recs = [all_clear]).
Proof.
  unfold _generate_risk_recommendations, no_rule_triggers. cbv zeta.
  fold all_clear.
  assert (Hother : Forall (fun m => all_clear ≠ m)
    ["Consider reducing leverage - current level is very high";
     "Monitor leverage levels - approaching high risk territory";
     "Daily VaR exceeds 10% of account - consider reducing position sizes";
     "Daily VaR is elevated - monitor risk closely";
     "Risk-adjusted returns are low - review trading strategy";
     "Excellent risk-adjusted returns - maintain current strategy";
     "Maximum drawdown is concerning - implement stricter stop losses"]).
  { repeat constructor; discriminate. }
  revert Hother.
  generalize "Consider reducing leverage - current level is very high",
    "Monitor leverage levels - approaching high risk territory",
    "Daily VaR exceeds 10% of account - consider reducing position sizes",
    "Daily VaR is elevated - monitor risk closely",
    "Risk-adjusted returns are low - review trading strategy",
    "Excellent risk-adjusted returns - maintain current strategy",
    "Maximum drawdown is concerning - implement stricter stop losses".
  generalize all_clear.
  intros ok_msg m1 m2 m3 m4 m5 m6 m7 Hother.
  rewrite !Forall_cons in Hother.
  destruct Hother as (H1 & H2 & H3 & H4 & H5 & H6 & H7 & _).
  repeat match goal with
         | |- context [decide (?x > ?y)] => destruct (decide (x > y))
         | |- context [decide (?x < ?y)] => destruct (decide (x < y))
         end.
  all: cbn [app length].
  all: case_decide as Hlen; cbn in Hlen; try discriminate Hlen;
       try (exfalso; apply Hlen; reflexivity).
  all: cbn [app length].
  all: rewrite ?elem_of_cons, elem_of_nil.
  all: split;
       [ split;
         [ intros H'; repeat (destruct H' as [H'|H']; [done|]);
           first [done | lra]
         | first [ by intros; left | intros; exfalso; lra ] ]
       | first [ by intros | intros; exfalso; lra ] ].
Qed.

(** X14: the recommendations are between one and four messages; the
    message that the risk levels are within acceptable ranges is there
    exactly when no rule triggers (leverage at most 3, VaR at most 5% of
    the assumed 10000 account, Sharpe ratio between 0.5 and 2, drawdown
    at most 20), and it is then the only one. *)
Theorem X14_recommendations pm vr rr :
  let recs := _generate_risk_recommendations pm vr rr in
  (1 <= length recs <= 4)%nat ∧
  (all_clear ∈ recs ↔ no_rule_triggers pm vr rr) ∧
  (no_rule_triggers pm vr rr → recs = [all_clear]).
Proof.
  cbv zeta. split; [apply recommendations_length|].
  apply recommendations_all_clear.
Qed.

Lemma X14_recommendations_witness :
  no_rule_triggers (_calculate_portfolio_metrics [])
    {| vr_var := 0; vr_expected_shortfall := 0; vr_historical_var := 0;
       vr_parametric_var := 0; vr_monte_carlo_var := 0 |}
    {| rr_sharpe_ratio := 1; rr_sortino_ratio := 0; rr_calmar_ratio := 0;
       rr_volatility_annual := 0; rr_max_drawdown := 0 |} ∧
  _generate_risk_recommendations (_calculate_portfolio_metrics [])
    {| vr_var := 0; vr_expected_shortfall := 0; vr_historical_var := 0;
       vr_parametric_var := 0; vr_monte_carlo_var := 0 |}
    {| rr_sharpe_ratio := 1; rr_sortino_ratio := 0; rr_calmar_ratio := 0;
       rr_volatility_annual := 0; rr_max_drawdown := 0 |}
  = [all_clear].
Proof.
  assert (Hquiet : no_rule_triggers (_calculate_portfolio_metrics [])
    {| vr_var := 0; vr_expected_shortfall := 0; vr_historical_var := 0;
       vr_parametric_var := 0; vr_monte_carlo_var := 0 |}
    {| rr_sharpe_ratio := 1; rr_sortino_ratio := 0; rr_calmar_ratio := 0;
       rr_volatility_annual := 0; rr_max_drawdown := 0 |}).
  { unfold no_rule_triggers, _calculate_portfolio_metrics. cbn.
    rewrite decide_True by lra. lra. }
  split; [exact Hquiet|].
  exact (proj2 (proj2 (X14_recommendations _ _ _)) Hquiet).
Defined.
End RecommendationFacts.

(** ** The risk calculation on a well-formed portfolio *)

Module RiskPathFacts.
Import RiskCalculator Vocabulary Examples PyFacts Terms PositionFacts.
Import VarFacts RecommendationFacts.

(** X15: on a portfolio that is not empty and whose keys are all
    present the risk calculation does not fall back: it reports one
    analysis per position, in order, the leverage as the gross exposure
    over the assumed 10000 account, a VaR that is not negative with an
    expected shortfall of 1.3 times it, a drawdown and an annual
    volatility that are not negative, and between one and four
    recommendations. *)
Theorem X15_portfolio_risk_on_well_formed
    (norm_ppf : R → R) (np_percentile : list R → R → R)
    (np_linalg_cholesky : matrix → result matrix)
    (triples : list (string * R * R)) (timeframe : string) (conf : R)
    (g : rng) :
  triples ≠ [] →
  ∃ r g',
    calculate_portfolio_risk norm_ppf np_percentile np_linalg_cholesky
      (map position_of triples) timeframe conf g = (ok r, g') ∧
    Forall2 (analyzed norm_ppf (length triples) (symbols_of triples))
      triples (positions r) ∧
    leverage r = gross_exposure r / 10000 ∧
    0 <= var r ∧ expected_shortfall r = 1.3 * var r ∧
    0 <= max_drawdown r ∧ 0 <= volatility_annual r ∧
    (1 <= length (recommendations r) <= 4)%nat.
Proof.
  intros Hne.
  destruct (analyze_positions_returns norm_ppf triples g)
    as (analysis & g1 & Han & Hall).
  destruct (calculate_var_returns norm_ppf np_percentile np_linalg_cholesky
              (map position_of triples)
              (_convert_timeframe_to_days timeframe) conf g1)
    as (v & g2 & Hv & Hv0 & _ & Hes & _).
  destruct (risk_ratios_returns np_linalg_cholesky
              (map position_of triples) analysis g2)
    as (rr & g3 & Hrr & Hdd & Hvol).
  eexists _, g3. split.
  - unfold calculate_portfolio_risk, try_exceptM, calculate_portfolio_risk_try.
    destruct triples as [|t triples]; [done|].
    cbn [map]. cbv zeta. cbn [map] in Han, Hv, Hrr.
    rewrite (M_bind_ok _ _ _ _ _ Han). cbv beta zeta.
    rewrite (M_bind_ok _ _ _ _ _ Hv). cbv beta zeta.
    rewrite (M_bind_ok _ _ _ _ _ Hrr). reflexivity.
  - cbn. repeat split; try done.
    + unfold _calculate_portfolio_metrics. cbn. by rewrite decide_True by lra.
    + apply recommendations_length.
    + apply recommendations_length.
Qed.

Lemma X15_portfolio_risk_on_well_formed_witness :
  eurusd_gbpusd ≠ [] ∧
  ∃ r g',
    calculate_portfolio_risk (fun _ => 0) (fun _ _ => 0)
      never_positive_definite (map position_of eurusd_gbpusd) "1d" 0.95
      all_ones = (ok r, g') ∧
    Forall2 (analyzed (fun _ => 0) (length eurusd_gbpusd)
               (symbols_of eurusd_gbpusd))
      eurusd_gbpusd (positions r) ∧
    leverage r = gross_exposure r / 10000 ∧
    0 <= var r ∧ expected_shortfall r = 1.3 * var r ∧
    0 <= max_drawdown r ∧ 0 <= volatility_annual r ∧
    (1 <= length (recommendations r) <= 4)%nat.
Proof.
  assert (Hne : eurusd_gbpusd ≠ []) by discriminate.
  split; [exact Hne|].
  exact (X15_portfolio_risk_on_well_formed (fun _ => 0) (fun _ _ => 0)
           never_positive_definite eurusd_gbpusd "1d" 0.95 all_ones Hne).
Defined.

End RiskPathFacts.

(** ** What the scenario analysis stores under each name *)

Module ScenarioValues.
Import RiskCalculator Vocabulary PyFacts Terms.

(** X16: the scenario analysis stores under a name the result of the
    scenario of that name when the name was requested and is one of the
    four, and nothing otherwise: the order of the request and its
    repetitions do not matter, and other names are skipped. *)
Theorem X16_scenario_values (portfolio : list Position)
    (scenarios : list string) (name : string) :
  run_scenario_analysis portfolio scenarios !! name
  = if decide (name ∈ scenarios) then scenario_of portfolio name else None.
Proof.
  unfold run_scenario_analysis, run_scenario_analysis_try.
  match goal with |- try_except (for_each ?body ?l ?init) _ !! _ = _ =>
    destruct (for_each_inv
      (fun k m => ∀ name, m !! name
         = if decide (name ∈ take k scenarios)
           then scenario_of portfolio name else None)
      body l init) as (m & -> & Hm)
  end.
  - intros n. rewrite take_0, lookup_empty.
    by rewrite decide_False by apply not_elem_of_nil.
  - intros j x m Hj Hm.
    assert (Hin : ∀ n, n ∈ take (S j) scenarios ↔ n ∈ take j scenarios ∨ n = x).
    { intros n. rewrite (take_S_r _ _ _ Hj), elem_of_app, list_elem_of_singleton.
      done. }
    assert (Hstep : ∀ v, scenario_of portfolio x = Some v →
      ∀ n, <[x := v]> m !! n
           = if decide (n ∈ take (S j) scenarios)
             then scenario_of portfolio n else None).
    { intros v Hv n. destruct (decide (n = x)) as [->|Hne].
      - rewrite lookup_insert_eq, decide_True by (apply Hin; by right). done.
      - rewrite lookup_insert_ne by done. rewrite Hm.
        destruct (decide (n ∈ take j scenarios)).
        + by rewrite decide_True by (apply Hin; by left).
        + rewrite decide_False; [done|]. rewrite Hin. tauto. }
    unfold scenario_of in Hstep.
    repeat case_decide; try (eexists; split; [reflexivity|]; by apply Hstep).
    eexists; split; [reflexivity|]. intros n. rewrite Hm.
    destruct (decide (n ∈ take j scenarios)).
    + by rewrite decide_True by (apply Hin; by left).
    + destruct (decide (n ∈ take (S j) scenarios)) as [Hn|]; [|done].
      apply Hin in Hn as [?| ->]; [done|].
      unfold scenario_of. by rewrite !decide_False by done.
  - rewrite firstn_all in Hm. cbn. apply Hm.
Qed.

End ScenarioValues.

(** ** Estimates that do not see the direction of a position *)

Module DirectionFacts.
Import RiskCalculator Vocabulary PyFacts Terms Cases.

(** Two loops whose bodies agree element by element agree. *)
Lemma for_enumerate_ext {A B St} (body : nat → A → St → result St)
    (body' : nat → B → St → result St) l l' :
  Forall2 (fun x x' => ∀ i s, body i x s = body' i x' s) l l' →
  ∀ i s, for_enumerate body i l s = for_enumerate body' i l' s.
Proof.
  induction 1 as [|x x' l l' Hx _ IH]; intros i s; [done|].
  cbn. rewrite Hx. destruct (body' i x' s); [done|]. cbn. apply IH.
Qed.

Lemma for_enumerate_ext_M {A B St} (body : nat → A → St → M St)
    (body' : nat → B → St → M St) l l' :
  Forall2 (fun x x' => ∀ i s g, body i x s g = body' i x' s g) l l' →
  ∀ i s g, for_enumerate body i l s g = for_enumerate body' i l' s g.
Proof.
  induction 1 as [|x x' l l' Hx _ IH]; intros i s g; [done|].
  cbn. unfold mbind, M_bind. rewrite Hx.
  destruct (body' i x' s g) as [[e|s1] g1]; [done|]. apply IH.
Qed.

(** Positions that differ in direction only, side by side. *)
Lemma same_unsigned (P : Position → Position → Prop) triples triples' :
  map unsigned triples = map unsigned triples' →
  (∀ s size size' entry, Rabs size = Rabs size' →
     P (position_of (s, size, entry)) (position_of (s, size', entry))) →
  Forall2 P (map position_of triples) (map position_of triples').
Proof.
  intros Heq HP. revert triples' Heq.
  induction triples as [|[[s size] entry] triples IH];
    intros [|[[s' size'] entry'] triples'] Heq; try done.
  cbn in Heq. injection Heq as -> Hsize -> Heq.
  cbn [map]. constructor; [by apply HP | by apply IH].
Qed.

Lemma total_notional_unsigned triples triples' :
  map unsigned triples = map unsigned triples' →
  total_notional (map position_of triples)
  = total_notional (map position_of triples').
Proof.
  intros Heq. unfold total_notional, for_each.
  apply for_enumerate_ext. apply same_unsigned; [done|].
  intros s size size' entry Hsize i acc. cbn -[Rabs]. by rewrite Hsize.
Qed.

Lemma parametric_var_unsigned norm_ppf triples triples' days conf :
  map unsigned triples = map unsigned triples' →
  _calculate_parametric_var norm_ppf (map position_of triples) days conf
  = _calculate_parametric_var norm_ppf (map position_of triples') days conf.
Proof.
  intros Heq. unfold _calculate_parametric_var.
  assert (Hvar : parametric_variance_loop (map position_of triples)
                 = parametric_variance_loop (map position_of triples')).
  { unfold parametric_variance_loop, for_each.
    apply for_enumerate_ext. apply same_unsigned; [done|].
    intros s size size' entry Hsize i acc. cbn -[Rabs]. by rewrite Hsize. }
  assert (Hcorr : parametric_correlation_loop (map position_of triples)
                  = parametric_correlation_loop (map position_of triples')).
  { unfold parametric_correlation_loop.
    apply for_enumerate_ext. apply same_unsigned; [done|].
    intros s1 size1 size1' entry1 Hsize1 i acc.
    apply for_enumerate_ext. apply same_unsigned; [done|].
    intros s2 size2 size2' entry2 Hsize2 j acc'.
    cbn -[Rabs]. by rewrite Hsize1, Hsize2. }
  by rewrite Hvar, Hcorr.
Qed.

Lemma portfolio_volatility_unsigned triples triples' use_correlations :
  map unsigned triples = map unsigned triples' →
  _calculate_portfolio_volatility (map position_of triples) use_correlations
  = _calculate_portfolio_volatility (map position_of triples') use_correlations.
Proof.
  intros Heq. unfold _calculate_portfolio_volatility.
  pose proof (total_notional_unsigned _ _ Heq) as Htotal.
  assert (Hlen : length triples = length triples').
  { apply (f_equal length) in Heq. by rewrite !length_map in Heq. }
  destruct triples as [|t triples], triples' as [|t' triples']; try done.
  cbn [map]. cbv iota.
  change (position_of t :: map position_of triples)
    with (map position_of (t :: triples)).
  change (position_of t' :: map position_of triples')
    with (map position_of (t' :: triples')).
  revert Heq Htotal Hlen.
  generalize (t :: triples), (t' :: triples'). clear t triples t' triples'.
  intros l l' Heq Htotal Hlen.
  match goal with
  | |- try_except (?loop ≫= _) _ = try_except (?loop' ≫= _) _ =>
      assert (Hloop : loop = loop')
  end.
  { unfold for_each. apply for_enumerate_ext. apply same_unsigned; [done|].
    intros s size size' entry Hsize i acc. cbn -[Rabs total_notional].
    by rewrite Hsize, Htotal. }
  rewrite Hloop.
  match goal with
  | |- try_except (?loop' ≫= _) _ = _ => destruct loop' as [e|pv]; [done|]
  end.
  cbn -[Rabs total_notional Nat.ltb].
  rewrite !length_map, Hlen.
  destruct (use_correlations && (1 <? length l')%nat); [|done].
  match goal with
  | |- try_except (?loop ≫= _) _ = try_except (?loop' ≫= _) _ =>
      assert (Hpairs : loop = loop')
  end.
  { apply for_enumerate_ext. apply same_unsigned; [done|].
    intros s1 size1 size1' entry1 Hsize1 i acc.
    apply for_enumerate_ext. apply same_unsigned; [done|].
    intros s2 size2 size2' entry2 Hsize2 j acc'.
    cbn -[Rabs total_notional]. by rewrite Hsize1, Hsize2, Htotal. }
  by rewrite Hpairs.
Qed.

Lemma M_bind_cong {A B} (m m' : M A) (k : A → M B) g :
  m g = m' g → (m ≫= k) g = (m' ≫= k) g.
Proof. unfold mbind, M_bind. by intros ->. Qed.

Lemma historical_var_unsigned np_percentile triples triples' days conf g :
  map unsigned triples = map unsigned triples' →
  _calculate_historical_var np_percentile (map position_of triples) days conf g
  = _calculate_historical_var np_percentile (map position_of triples') days
      conf g.
Proof.
  intros Heq. unfold _calculate_historical_var, try_exceptM.
  match goal with
  | |- match (?loop ≫= _) g with _ => _ end
       = match (?loop' ≫= _) g with _ => _ end =>
      assert (Hloop : loop g = loop' g)
  end.
  { unfold for_range, for_each. apply for_enumerate_ext_M.
    apply Forall_Forall2_diag, Forall_forall. intros day _ i rs h.
    apply M_bind_cong. unfold for_each.
    apply for_enumerate_ext_M. apply same_unsigned; [done|].
    intros s size size' entry Hsize k acc h'.
    unfold mbind, M_bind, lift, random_normal, mret, M_ret. cbn -[Rabs].
    by rewrite Hsize. }
  by rewrite (M_bind_cong _ _ _ _ Hloop).
Qed.

(** X17: two portfolios that differ only in the direction of their
    positions (same symbols, same absolute sizes, same entry prices)
    have the same parametric VaR, the same portfolio volatility, the
    same correlation-breakdown result and the same historical VaR on the
    same draws: a hedge does not lower any of them. *)
Theorem X17_direction_blind (norm_ppf : R → R)
    (triples triples' : list (string * R * R)) :
  map unsigned triples = map unsigned triples' →
  (∀ days conf,
     _calculate_parametric_var norm_ppf (map position_of triples) days conf
     = _calculate_parametric_var norm_ppf (map position_of triples') days conf) ∧
  (∀ use_correlations,
     _calculate_portfolio_volatility (map position_of triples) use_correlations
     = _calculate_portfolio_volatility (map position_of triples')
         use_correlations) ∧
  _scenario_correlation_breakdown (map position_of triples)
  = _scenario_correlation_breakdown (map position_of triples') ∧
  (∀ np_percentile days conf g,
     _calculate_historical_var np_percentile (map position_of triples) days
       conf g
     = _calculate_historical_var np_percentile (map position_of triples') days
         conf g).
Proof.
  intros Heq. split; [|split; [|split]];
    [| | |intros; by apply historical_var_unsigned].
  - intros days conf. by apply parametric_var_unsigned.
  - intros uc. by apply portfolio_volatility_unsigned.
  - unfold _scenario_correlation_breakdown. cbv zeta.
    rewrite !(portfolio_volatility_unsigned triples triples') by done.
    f_equal. f_equal.
    unfold for_each. apply for_enumerate_ext. apply same_unsigned; [done|].
    intros s size size' entry _ i acc. reflexivity.
Qed.

Lemma X17_direction_blind_witness :
  map unsigned hedged_pair = map unsigned doubled_pair ∧
  _calculate_parametric_var (fun _ => 1) (map position_of hedged_pair) 1 0.95
  = _calculate_parametric_var (fun _ => 1) (map position_of doubled_pair) 1 0.95.
Proof.
  assert (Heq : map unsigned hedged_pair = map unsigned doubled_pair).
  { assert (Hm : Rabs (-1) = Rabs 1)
      by (rewrite Rabs_R1, Rabs_left by lra; lra).
    unfold hedged_pair, doubled_pair, unsigned. cbn -[Rabs]. by rewrite Hm. }
  split; [exact Heq|].
  exact (proj1 (X17_direction_blind (fun _ => 1) hedged_pair doubled_pair Heq)
           1%Z 0.95).
Defined.

End DirectionFacts.

(** ** The candlestick matchers and their ids *)

Module CandlestickMore.
Import PatternDetector Vocabulary Examples Terms Cases.
Import CandlestickFacts ReliabilityFacts.

Lemma doji_fires data i :
  fires (_detect_doji data) ("doji_" +:+ pretty i) ↔
  ∃ candle, iloc data i = Some candle ∧ doji_condition candle = true.
Proof. unfold _detect_doji. cbv zeta. one_candle_matcher Hc Hcond. Qed.

Lemma doji_condition_spec candle :
  doji_condition candle = true ↔
  high candle > low candle ∧
  body_size candle < 0.1 * (high candle - low candle).
Proof.
  unfold doji_condition. cbv zeta.
  rewrite andb_true_iff, !bool_decide_eq_true. split.
  - intros [Hr Hb]. split; [lra|].
    apply (Rmult_lt_compat_r (high candle - low candle)) in Hb; [|lra].
    unfold Rdiv in Hb. rewrite Rmult_assoc, Rinv_l, Rmult_1_r in Hb by lra.
    exact Hb.
  - intros [Hr Hb]. split; [lra|].
    apply (Rmult_lt_reg_r (high candle - low candle)); [lra|].
    unfold Rdiv. rewrite Rmult_assoc, Rinv_l, Rmult_1_r by lra. exact Hb.
Qed.

(** X18: the single-candle matchers fire at an index exactly when the
    candle there meets their conditions: the doji when the candle has a
    range and a body below a tenth of it (a flat candle is never a doji,
    and its ratio is not computed); the hammer and the shooting star
    when the body is positive, one shadow is more than twice the body
    and more than 60% of the range and the other is shorter than the
    body. *)
Theorem X18_single_candle_matchers (data : DataFrame) (i : nat) :
  (fires (_detect_doji data) ("doji_" +:+ pretty i) ↔
   ∃ candle, iloc data i = Some candle ∧
     high candle > low candle ∧
     body_size candle < 0.1 * (high candle - low candle)) ∧
  (fires (_detect_hammer data) ("hammer_" +:+ pretty i) ↔
   ∃ candle, iloc data i = Some candle ∧
     body_size candle > 0 ∧ lower_shadow candle > 2 * body_size candle ∧
     upper_shadow candle < body_size candle ∧
     lower_shadow candle > 0.6 * (high candle - low candle)) ∧
  (fires (_detect_shooting_star data) ("shooting_star_" +:+ pretty i) ↔
   ∃ candle, iloc data i = Some candle ∧
     body_size candle > 0 ∧ upper_shadow candle > 2 * body_size candle ∧
     lower_shadow candle < body_size candle ∧
     upper_shadow candle > 0.6 * (high candle - low candle)).
Proof.
  split; [|split].
  - rewrite doji_fires. split; intros (candle & Hc & Hcond); exists candle;
      (split; [done|]); by apply doji_condition_spec.
  - rewrite hammer_fires. split; intros (candle & Hc & Hcond); exists candle;
      (split; [done|]); by apply hammer_condition_spec.
  - rewrite shooting_star_fires.
    split; intros (candle & Hc & Hcond); exists candle;
      (split; [done|]); by apply shooting_star_condition_spec.
Qed.

(** *** Ids *)

Lemma fmap_bind_list {A B C} (h : B → C) (f : A → list B) (l : list A) :
  h <$> (l ≫= f) = l ≫= (fun x => h <$> f x).
Proof.
  induction l as [|x l IH]; [done|]. csimpl. by rewrite fmap_app, IH.
Qed.

(** A matcher that reports at most one pattern per index, under the id
    of that index, reports no id twice. *)
Lemma NoDup_ids_indexed (prefix : string) (f : nat → list Pattern) l :
  NoDup l →
  (∀ i p, p ∈ f i → f i = [p] ∧ id p = prefix +:+ pretty i) →
  NoDup (id <$> (l ≫= f)) ∧ ids_start_with prefix (l ≫= f).
Proof.
  intros Hl Hf. split.
  - rewrite fmap_bind_list. apply NoDup_bind; [| |done].
    + intros i j s _ _ Hi Hj.
      apply list_elem_of_fmap in Hi as (p & -> & Hp).
      apply list_elem_of_fmap in Hj as (q & Hq & Hq').
      apply Hf in Hp as [_ Hp]. apply Hf in Hq' as [_ Hq'].
      rewrite Hp, Hq' in Hq. by apply id_suffix_inj in Hq.
    + intros i _. destruct (f i) as [|p rest] eqn:Hfi; [constructor|].
      destruct (Hf i p) as [Hone _]; [rewrite Hfi; by left|].
      rewrite Hfi in Hone. injection Hone as ->. cbn. apply NoDup_singleton.
  - intros p Hp. apply list_elem_of_bind in Hp as (i & Hp & _).
    exists i. by apply Hf.
Qed.

Ltac indexed_matcher :=
  apply NoDup_ids_indexed; [apply NoDup_seq|];
  intros i p Hp; cbv zeta in Hp |- *;
  repeat match type of Hp with
  | _ ∈ match ?o with _ => _ end => destruct o
  | _ ∈ (if ?c then _ else _) => destruct c
  | _ ∈ [] => by apply elem_of_nil in Hp
  end;
  apply list_elem_of_singleton in Hp; subst p; done.

Lemma detect_doji_ids data :
  NoDup (id <$> _detect_doji data) ∧
  ids_start_with "doji_" (_detect_doji data).
Proof. unfold _detect_doji. indexed_matcher. Qed.

Lemma detect_hammer_ids data :
  NoDup (id <$> _detect_hammer data) ∧
  ids_start_with "hammer_" (_detect_hammer data).
Proof. unfold _detect_hammer. indexed_matcher. Qed.

Lemma detect_shooting_star_ids data :
  NoDup (id <$> _detect_shooting_star data) ∧
  ids_start_with "shooting_star_" (_detect_shooting_star data).
Proof. unfold _detect_shooting_star. indexed_matcher. Qed.

Lemma detect_engulfing_bullish_ids data :
  NoDup (id <$> _detect_engulfing_bullish data) ∧
  ids_start_with "bullish_engulfing_" (_detect_engulfing_bullish data).
Proof. unfold _detect_engulfing_bullish. indexed_matcher. Qed.

Lemma detect_engulfing_bearish_ids data :
  NoDup (id <$> _detect_engulfing_bearish data) ∧
  ids_start_with "bearish_engulfing_" (_detect_engulfing_bearish data).
Proof. unfold _detect_engulfing_bearish. indexed_matcher. Qed.

(** Lists of patterns whose ids start with prefixes that are pairwise
    apart share no id. *)
Lemma NoDup_ids_concat (families : list (string * list Pattern)) :
  ForallOrdPairs (fun a b => apart a.1 b.1) families →
  Forall (fun a => NoDup (id <$> a.2) ∧ ids_start_with a.1 a.2) families →
  NoDup (id <$> mjoin (families.*2)).
Proof.
  induction 1 as [|[a la] families Ha _ IH]; intros Hall; [constructor|].
  apply Forall_cons in Hall as [[Hnd Hpre] Hall]. cbn [fst snd] in Hnd, Hpre.
  cbn [fmap list_fmap mjoin list_join snd]. rewrite fmap_app.
  apply NoDup_app. split; [done|]. split; [|by apply IH].
  intros s Hs Hs'.
  apply list_elem_of_fmap in Hs as (p & -> & Hp).
  apply list_elem_of_fmap in Hs' as (q & Hq & Hq').
  apply Hpre in Hp as [i Hi].
  apply list_elem_of_join in Hq' as (lb & Hq' & Hlb).
  apply list_elem_of_fmap in Hlb as ([b lb'] & -> & Hb).
  rewrite Forall_forall in Ha, Hall.
  destruct (Hall _ Hb) as [_ Hpre']. apply Hpre' in Hq' as [j Hj].
  apply (Ha _ Hb (pretty i) (pretty j)). cbn [fst snd] in *.
  by rewrite <- Hi, <- Hj.
Qed.

Lemma detect_candlestick_patterns_app data :
  _detect_candlestick_patterns data
  = mjoin [_detect_doji data; _detect_hammer data; _detect_shooting_star data;
           _detect_engulfing_bullish data; _detect_engulfing_bearish data].
Proof.
  unfold _detect_candlestick_patterns, candlestick_patterns,
    _detect_morning_star, _detect_evening_star,
    _detect_three_white_soldiers, _detect_three_black_crows.
  cbn [foldl mjoin list_join]. by rewrite !app_nil_l, !app_nil_r, <- !app_assoc.
Qed.

Ltac apart_prefixes :=
  repeat (constructor;
          [repeat (constructor;
                   [intros x y Hxy; cbn in Hxy; discriminate Hxy|])
          |]);
  try constructor.

Lemma candlestick_ids_unique data :
  NoDup (id <$> _detect_candlestick_patterns data).
Proof.
  rewrite detect_candlestick_patterns_app.
  apply (NoDup_ids_concat
    [("doji_", _detect_doji data); ("hammer_", _detect_hammer data);
     ("shooting_star_", _detect_shooting_star data);
     ("bullish_engulfing_", _detect_engulfing_bullish data);
     ("bearish_engulfing_", _detect_engulfing_bearish data)]).
  - apart_prefixes.
  - repeat constructor;
      first [ apply detect_doji_ids | apply detect_hammer_ids
            | apply detect_shooting_star_ids
            | apply detect_engulfing_bullish_ids
            | apply detect_engulfing_bearish_ids ].
Qed.

(** The confidences of the candlestick matchers are 0.6, 0.75 and 0.8. *)
Lemma candlestick_confidence_fixed data p :
  p ∈ _detect_candlestick_patterns data → 0.6 <= confidence p <= 0.8.
Proof.
  rewrite detect_candlestick_patterns_app.
  unfold _detect_doji, _detect_hammer, _detect_shooting_star,
    _detect_engulfing_bullish, _detect_engulfing_bearish.
  cbn [mjoin list_join]. rewrite !elem_of_app.
  intros Hin.
  repeat match goal with
  | H : _ ∨ _ |- _ => destruct H as [H|H]
  end; try (by apply elem_of_nil in Hin);
  apply list_elem_of_bind in Hin as (k & Hp & _);
  repeat match type of Hp with
  | _ ∈ match ?o with _ => _ end => destruct o
  | _ ∈ (if ?c then _ else _) => destruct c
  | _ ∈ [] => by apply elem_of_nil in Hp
  end;
  apply list_elem_of_singleton in Hp; subst p; cbn; lra.
Qed.

(** X19: no two candlestick patterns found on a frame share an id, so
    the reliability scoring stores for every one of them its own score;
    that score is the pattern's confidence, times 1.02 when the frame
    has a volume column, and lies between 0.6 and 0.816: the cap at 1
    is never reached. *)
Theorem X19_candlestick_scores (data : DataFrame) :
  NoDup (id <$> _detect_candlestick_patterns data) ∧
  ∀ p, p ∈ _detect_candlestick_patterns data →
    calculate_reliability data (_detect_candlestick_patterns data) !! id p
      = Some (reliability_score data p) ∧
    reliability_score data p
      = (if bool_decide ("volume" ∈ columns data)
         then confidence p * 1.02 else confidence p) ∧
    0.6 <= reliability_score data p <= 0.816.
Proof.
  split; [apply candlestick_ids_unique|].
  intros p Hp.
  pose proof (candlestick_confidence_fixed data p Hp) as Hc.
  split; [apply calculate_reliability_own_score;
          [apply candlestick_ids_unique | done]|].
  rewrite reliability_score_unfold.
  destruct (bool_decide ("volume" ∈ columns data));
    rewrite Rmin_right by lra; split; first [done | lra].
Qed.

Lemma doji_at_0_detected : doji_at_0 ∈ _detect_candlestick_patterns one_doji.
Proof.
  rewrite detect_candlestick_patterns_app. cbn [mjoin list_join].
  apply elem_of_app. left.
  assert (Hc : doji_condition
                 {| timestamp := 0; open := 1; high := 2; low := 0;
                    close := 1; volume := 1 |} = true).
  { apply doji_condition_spec. unfold body_size. cbn.
    replace (1 - 1) with 0 by lra. rewrite Rabs_R0. lra. }
  unfold _detect_doji, one_doji, iloc. cbn -[doji_condition].
  rewrite Hc. apply list_elem_of_singleton. reflexivity.
Defined.

Lemma X19_candlestick_scores_witness :
  doji_at_0 ∈ _detect_candlestick_patterns one_doji ∧
  calculate_reliability one_doji (_detect_candlestick_patterns one_doji)
    !! id doji_at_0 = Some (reliability_score one_doji doji_at_0) ∧
  reliability_score one_doji doji_at_0
    = (if bool_decide ("volume" ∈ columns one_doji)
       then confidence doji_at_0 * 1.02 else confidence doji_at_0) ∧
  0.6 <= reliability_score one_doji doji_at_0 <= 0.816.
Proof.
  split; [exact doji_at_0_detected|].
  exact (proj2 (X19_candlestick_scores one_doji) doji_at_0 doji_at_0_detected).
Defined.

End CandlestickMore.

(** ** Sorting by confidence *)

Module SortFacts.
Import PatternDetector Detection.

Lemma insert_reverse_perm {A} (key : A → R) x l :
  insert_reverse key x l ≡ₚ x :: l.
Proof.
  induction l as [|y l IH]; [done|]. cbn.
  destruct (decide (key y >= key x)); [|done].
  rewrite IH. apply perm_swap.
Qed.

Lemma sort_reverse_perm {A} (key : A → R) l : sort_reverse key l ≡ₚ l.
Proof.
  unfold sort_reverse.
  enough (H : ∀ acc, foldl (fun sorted x => insert_reverse key x sorted) acc l
                     ≡ₚ acc ++ l) by apply (H []).
  induction l as [|x l IH]; intros acc; cbn.
  - by rewrite app_nil_r.
  - rewrite IH, insert_reverse_perm. cbn. apply Permutation_middle.
Qed.

Lemma insert_reverse_sorted {A} (key : A → R) x l :
  StronglySorted (fun a b => key a >= key b) l →
  StronglySorted (fun a b => key a >= key b) (insert_reverse key x l).
Proof.
  induction 1 as [|y l Hl IH Hy]; cbn.
  - repeat constructor.
  - destruct (decide (key y >= key x)) as [Hge|Hlt].
    + constructor; [done|].
      rewrite insert_reverse_perm. by constructor.
    + constructor; [by constructor|].
      constructor; [lra|].
      eapply Forall_impl; [exact Hy|]. cbn. intros z Hz. lra.
Qed.

Lemma sort_reverse_sorted {A} (key : A → R) l :
  StronglySorted (fun a b => key a >= key b) (sort_reverse key l).
Proof.
  unfold sort_reverse.
  enough (H : ∀ acc, StronglySorted (fun a b => key a >= key b) acc →
    StronglySorted (fun a b => key a >= key b)
      (foldl (fun sorted x => insert_reverse key x sorted) acc l))
    by (apply H; constructor).
  induction l as [|x l IH]; intros acc Hacc; cbn; [done|].
  apply IH. by apply insert_reverse_sorted.
Qed.

Lemma sorted_lookup {A} (Rel : A → A → Prop) (l : list A) :
  StronglySorted Rel l →
  ∀ i j a b, (i < j)%nat → l !! i = Some a → l !! j = Some b → Rel a b.
Proof.
  induction 1 as [|x l _ IH Hx]; intros i j a b Hij Hi Hj; [done|].
  destruct j as [|j]; [lia|]. cbn in Hj. destruct i as [|i]; cbn in Hi.
  - injection Hi as <-. rewrite Forall_forall in Hx. apply Hx.
    by apply list_elem_of_lookup_2 in Hj.
  - apply (IH i j); [lia|done|done].
Qed.

(** In a list sorted from the largest key down, the first element is
    the one [max] returns. *)
Lemma max_by_head {A} (key : A → R) (x : A) (l : list A) :
  Forall (fun y => key x >= key y) l → App.max_by key x l = x.
Proof.
  unfold App.max_by. induction 1 as [|y l Hy _ IH]; [done|].
  cbn. by rewrite decide_False by lra.
Qed.

End SortFacts.

(** ** The level and the trend detector, and the entry point *)

Module DetectionFacts.
Import PatternDetector Detection Vocabulary Examples PyFacts Terms Cases.
Import CandlestickFacts ReliabilityFacts LevelFacts CandlestickMore SortFacts.

Lemma bind_ok_inv {A B} (m : result A) (k : A → result B) y :
  m ≫= k = ok y → ∃ x, m = ok x ∧ k x = ok y.
Proof. destruct m as [e|x]; [done|]. intros Hk. by exists x. Qed.

Section Detectors.
Variable linregress : list R → list R → result (R * R * R * R * R).
Variable RSIIndicator_rsi : list R → result (list (option R)).
Variable argrelextrema_less : list (option R) → nat → result (list nat).
Variable DBSCAN_fit_predict : R → nat → list R → list Z.
Variable find_peaks : list R → R → list nat.
Variable format_level : R → string.

Lemma calculate_trend_r_squared data trend :
  _calculate_trend linregress data = ok trend → 0 <= r_squared trend.
Proof.
  unfold _calculate_trend. cbv zeta.
  destruct (linregress _ data) as [e|[[[[s i] r] p] se]]; [done|].
  cbn. intros [= <-]. cbn. nra.
Qed.

(** What one trend block appends: nothing, or one pattern under the id
    of its position. *)
Lemma append_trend_sound data period id_prefix name_prefix describe term
    patterns patterns' :
  append_trend linregress data period id_prefix name_prefix describe term
    patterns = ok patterns' →
  patterns' = patterns ∨
  ∃ p, patterns' = patterns ++ [p] ∧
    (period <= length (rows data))%nat ∧
    id p = id_prefix +:+ pretty (length patterns) ∧
    type p = trends ∧ 0 <= confidence p <= 0.9 ∧
    signal p ≠ neutral.
Proof.
  unfold append_trend. cbv zeta. rewrite length_map.
  destruct (decide (period <= length (rows data))%nat) as [Hlen|];
    [|intros [= <-]; by left].
  destruct (_calculate_trend linregress _) as [e|trend] eqn:Htrend; [done|].
  cbn. destruct (decide (Rabs (slope trend) > 0.0001));
    [|intros [= <-]; by left].
  destruct (index_label data _) as [e|start_t]; [done|]. cbn.
  destruct (last_index_label data) as [e|end_t]; [done|]. cbn.
  intros [= <-]. right. eexists. split; [reflexivity|].
  apply calculate_trend_r_squared in Htrend.
  cbn. repeat split; try done.
  - apply Rmin_glb; lra.
  - apply Rmin_l.
  - by destruct (decide (slope trend > 0)).
Qed.

Lemma detect_trend_reversals_sound data patterns :
  _detect_trend_reversals RSIIndicator_rsi argrelextrema_less data
    = ok patterns →
  patterns = [] ∨
  ∃ p, patterns = [p] ∧ id p = "bullish_divergence_" +:+ pretty 0%nat ∧
    type p = trends ∧ confidence p = 0.7 ∧ signal p = bullish.
Proof.
  unfold _detect_trend_reversals. cbv zeta. intros Hrun.
  apply bind_ok_inv in Hrun as (rsi & _ & Hrun).
  apply bind_ok_inv in Hrun as (price_lows & _ & Hrun).
  apply bind_ok_inv in Hrun as (rsi_lows & _ & Hrun).
  case_decide; [|injection Hrun as <-; by left].
  apply bind_ok_inv in Hrun as (last_low & _ & Hrun).
  apply bind_ok_inv in Hrun as (prev_low & _ & Hrun).
  apply bind_ok_inv in Hrun as (close_last & _ & Hrun).
  apply bind_ok_inv in Hrun as (close_prev & _ & Hrun).
  case_decide; [|injection Hrun as <-; by left].
  apply bind_ok_inv in Hrun as (rsi_last & _ & Hrun).
  apply bind_ok_inv in Hrun as (rsi_prev & _ & Hrun).
  destruct (float_gt rsi_last rsi_prev); [|injection Hrun as <-; by left].
  injection Hrun as <-. right. eexists. split; [reflexivity|]. done.
Qed.

(** Patterns whose ids end in their position, counted from [off]. *)
Lemma positional_ids prefix off (l : list Pattern) :
  (∀ k p, l !! k = Some p → id p = prefix +:+ pretty (off + k)%nat) →
  NoDup (id <$> l) ∧ ids_start_with prefix l.
Proof.
  intros Hl. split.
  - apply NoDup_alt. intros i j s Hi Hj.
    rewrite list_lookup_fmap in Hi, Hj.
    destruct (l !! i) as [p|] eqn:Hp; [|done].
    destruct (l !! j) as [q|] eqn:Hq; [|done].
    cbn in Hi, Hj. injection Hi as <-. injection Hj as Hj.
    rewrite (Hl _ _ Hp), (Hl _ _ Hq) in Hj.
    apply id_suffix_inj in Hj. lia.
  - intros p Hp. apply list_elem_of_lookup in Hp as [k Hk].
    exists (off + k)%nat. by apply Hl.
Qed.

Lemma append_levels_ids make prefix data column extrema patterns patterns' :
  (∀ n start_t end_t level strength touches,
     id (make n start_t end_t level strength touches) = prefix +:+ pretty n) →
  append_levels DBSCAN_fit_predict make data column extrema patterns
    = ok patterns' →
  ∃ new, patterns' = patterns ++ new ∧
    ((length extrema <= 2)%nat → new = []) ∧
    ∀ k p, new !! k = Some p →
      id p = prefix +:+ pretty (length patterns + k)%nat.
Proof.
  intros Hmake. unfold append_levels.
  destruct (decide (2 < length extrema)%nat) as [Hlen|Hlen].
  2:{ intros [= <-]. exists []. rewrite app_nil_r. by repeat split. }
  intros Hrun. apply bind_ok_inv in Hrun as (values & _ & Hrun). cbv zeta in Hrun.
  apply (for_each_ok_inv (fun j acc =>
           ∃ new, acc = patterns ++ new ∧ length new = j ∧
             ∀ k p, new !! k = Some p →
               id p = prefix +:+ pretty (length patterns + k)%nat)) in Hrun.
  - destruct Hrun as (new & -> & _ & Hnew). exists new.
    split; [done|]. split; [lia|done].
  - exists []. rewrite app_nil_r. by repeat split.
  - intros j [[level strength] touches] acc acc' _ (new & -> & Hj & Hnew) Hbody.
    apply bind_ok_inv in Hbody as (first & _ & Hbody).
    apply bind_ok_inv in Hbody as (start_t & _ & Hbody).
    apply bind_ok_inv in Hbody as (end_t & _ & Hbody).
    injection Hbody as <-. exists (new ++ [make (length (patterns ++ new))
      start_t end_t level strength touches]).
    split; [by rewrite app_assoc|]. split; [rewrite length_app; cbn; lia|].
    intros k p Hk. apply lookup_app_Some in Hk as [Hk|[Hge Hk]].
    + by apply Hnew.
    + apply list_lookup_singleton_Some in Hk as [Hk <-].
      rewrite Hmake, length_app. do 2 f_equal. lia.
Qed.

Lemma append_levels_made make data column extrema patterns new :
  append_levels DBSCAN_fit_predict make data column extrema patterns
    = ok (patterns ++ new) →
  Forall (fun p => ∃ n start_t end_t level strength touches,
            p = make n start_t end_t level strength touches) new.
Proof.
  intros Hrun. apply append_levels_sound in Hrun as (new' & Heq & Hnew).
  apply app_inv_head in Heq as ->.
  eapply Forall_impl; [exact Hnew|]. cbn.
  intros p (values & n & start_t & end_t & level & strength & touches & _ & _ & ->).
  by exists n, start_t, end_t, level, strength, touches.
Qed.

Lemma detect_support_resistance_ids data patterns :
  _detect_support_resistance DBSCAN_fit_predict find_peaks format_level data
    = ok patterns →
  ∃ res sup, patterns = res ++ sup ∧
    (∀ k p, res !! k = Some p → id p = "resistance_" +:+ pretty k) ∧
    (∀ k p, sup !! k = Some p →
       id p = "support_" +:+ pretty (length res + k)%nat) ∧
    Forall (fun p => name p = "Resistance Level" ∧ signal p = bearish) res ∧
    Forall (fun p => name p = "Support Level" ∧ signal p = bullish) sup.
Proof.
  unfold _detect_support_resistance. cbv zeta. intros Hrun.
  apply bind_ok_inv in Hrun as (res' & Hres & Hrun).
  apply bind_ok_inv in Hrun as (all & Hsup & Hrun).
  injection Hrun as <-.
  pose proof Hres as Hres'. pose proof Hsup as Hsup'.
  apply (append_levels_ids _ "resistance_") in Hres as (res & -> & _ & Hres);
    [|done].
  apply (append_levels_ids _ "support_") in Hsup as (sup & -> & _ & Hsup);
    [|done].
  apply append_levels_made in Hsup'.
  change res with ([] ++ res) in Hres'. apply append_levels_made in Hres'.
  exists res, sup. cbn in *. repeat split; try done.
  - eapply Forall_impl; [exact Hres'|]. cbn.
    by intros p (n & start_t & end_t & level & strength & touches & ->).
  - eapply Forall_impl; [exact Hsup'|]. cbn.
    by intros p (n & start_t & end_t & level & strength & touches & ->).
Qed.

Lemma level_ids_unique data patterns :
  _detect_support_resistance DBSCAN_fit_predict find_peaks format_level data
    = ok patterns →
  NoDup (id <$> patterns) ∧
  ∃ res sup, patterns = res ++ sup ∧
    ids_start_with "resistance_" res ∧ ids_start_with "support_" sup ∧
    NoDup (id <$> res) ∧ NoDup (id <$> sup).
Proof.
  intros Hrun.
  apply detect_support_resistance_ids in Hrun
    as (res & sup & -> & Hres & Hsup & _).
  destruct (positional_ids "resistance_" 0 res Hres) as [Hnd1 Hpre1].
  destruct (positional_ids "support_" (length res) sup Hsup) as [Hnd2 Hpre2].
  split; [|by exists res, sup].
  replace (res ++ sup) with (mjoin [res; sup])
    by (cbn; by rewrite app_nil_r).
  apply (NoDup_ids_concat [("resistance_", res); ("support_", sup)]).
  - apart_prefixes.
  - by repeat constructor.
Qed.

(** The trend detector reports at most one short-term trend, one
    medium-term trend and one divergence, in this order. *)
Lemma detect_trends_sound data patterns :
  _detect_trends linregress RSIIndicator_rsi argrelextrema_less data
    = ok patterns →
  ∃ short medium reversal, patterns = short ++ medium ++ reversal ∧
    (length short <= 1 ∧ length medium <= 1 ∧ length reversal <= 1)%nat ∧
    (short ≠ [] → 20 <= length (rows data))%nat ∧
    (medium ≠ [] → 50 <= length (rows data))%nat ∧
    ids_start_with "trend_short_" short ∧
    ids_start_with "trend_medium_" medium ∧
    ids_start_with "bullish_divergence_" reversal ∧
    Forall (fun p => type p = trends ∧ 0 <= confidence p <= 0.9 ∧
                     signal p ≠ neutral) patterns.
Proof.
  unfold _detect_trends. cbv zeta. intros Hrun.
  apply bind_ok_inv in Hrun as (p1 & Hshort & Hrun).
  apply bind_ok_inv in Hrun as (p2 & Hmedium & Hrun).
  apply bind_ok_inv in Hrun as (p3 & Hrev & Hrun).
  injection Hrun as <-.
  apply append_trend_sound in Hshort, Hmedium.
  apply detect_trend_reversals_sound in Hrev.
  assert (Hone : ∀ prefix (p : Pattern),
            id p = prefix +:+ pretty 0%nat ∨ id p = prefix +:+ pretty 1%nat →
            ids_start_with prefix [p]).
  { intros prefix p Hid q ->%list_elem_of_singleton.
    destruct Hid; by eexists. }
  assert (Hnone : ∀ prefix, ids_start_with prefix []).
  { by intros prefix p ?%elem_of_nil. }
  destruct Hrev as [->|(r & -> & Hidr & Htyr & Hcr & Hsr)];
    destruct Hshort as [->|(s & -> & Hlens & Hids & Htys & Hcs & Hss)];
    destruct Hmedium as [->|(m & -> & Hlenm & Hidm & Htym & Hcm & Hsm)].
  1: exists [], [], []. 2: exists [], [m], []. 3: exists [s], [], [].
  4: exists [s], [m], []. 5: exists [], [], [r]. 6: exists [], [m], [r].
  7: exists [s], [], [r]. 8: exists [s], [m], [r].
  all: split_and!; try done; cbn [length app]; try lia.
  all: try (apply Hone; cbn [length app] in *; tauto).
  all: repeat (constructor; [split_and!; first [done | lra | by rewrite Hsr]|]).
  all: constructor.
Qed.

Lemma detect_chart_patterns_nil data : _detect_chart_patterns data = [].
Proof. reflexivity. Qed.

(** The patterns a request selects, family by family. *)
Lemma detect_patterns_found data pattern_types patterns :
  detect_patterns linregress RSIIndicator_rsi argrelextrema_less
    DBSCAN_fit_predict find_peaks format_level data pattern_types
    = ok patterns →
  ∃ sr tr,
    (if decide ("support_resistance" ∈ selected pattern_types)
     then _detect_support_resistance DBSCAN_fit_predict find_peaks
            format_level data = ok sr
     else sr = []) ∧
    (if decide ("trends" ∈ selected pattern_types)
     then _detect_trends linregress RSIIndicator_rsi argrelextrema_less data
          = ok tr
     else tr = []) ∧
    patterns = sort_reverse confidence
      (sr ++ tr ++ (if decide ("candlestick" ∈ selected pattern_types)
                    then _detect_candlestick_patterns data else [])).
Proof.
  unfold detect_patterns. cbv zeta.
  change (match pattern_types with Some t => t | None => _ end)
    with (selected pattern_types).
  intros Hrun.
  apply bind_ok_inv in Hrun as (all1 & Hsr & Hrun).
  apply bind_ok_inv in Hrun as (all2 & Htr & Hrun).
  injection Hrun as <-. rewrite detect_chart_patterns_nil.
  destruct (decide ("support_resistance" ∈ selected pattern_types)).
  - apply bind_ok_inv in Hsr as (sr & Hsr & [= <-]).
    destruct (decide ("trends" ∈ selected pattern_types)).
    + apply bind_ok_inv in Htr as (tr & Htr & [= <-]).
      exists sr, tr. split_and!; [done..|]. f_equal.
      destruct (decide ("candlestick" ∈ _)), (decide ("technical" ∈ _));
        by rewrite ?app_nil_r, <- ?app_assoc, ?app_nil_r.
    + injection Htr as <-. exists sr, []. split_and!; [done..|]. f_equal.
      destruct (decide ("candlestick" ∈ _)), (decide ("technical" ∈ _));
        by rewrite ?app_nil_r, <- ?app_assoc, ?app_nil_r.
  - injection Hsr as <-.
    destruct (decide ("trends" ∈ selected pattern_types)).
    + apply bind_ok_inv in Htr as (tr & Htr & [= <-]).
      exists [], tr. split_and!; [done..|]. f_equal.
      destruct (decide ("candlestick" ∈ _)), (decide ("technical" ∈ _));
        by rewrite ?app_nil_r, <- ?app_assoc, ?app_nil_r.
    + injection Htr as <-. exists [], []. split_and!; [done..|]. f_equal.
      destruct (decide ("candlestick" ∈ _)), (decide ("technical" ∈ _));
        by rewrite ?app_nil_r, <- ?app_assoc, ?app_nil_r.
Qed.

(** The ids and the confidences of what the detectors find. *)
Lemma found_patterns_sound data sr tr cs :
  (sr = [] ∨
   _detect_support_resistance DBSCAN_fit_predict find_peaks format_level data
     = ok sr) →
  (tr = [] ∨
   _detect_trends linregress RSIIndicator_rsi argrelextrema_less data = ok tr) →
  (cs = [] ∨ cs = _detect_candlestick_patterns data) →
  NoDup (id <$> (sr ++ tr ++ cs)) ∧
  Forall (fun p => 0 <= confidence p <= 0.9) (sr ++ tr ++ cs).
Proof.
  intros Hsr Htr Hcs.
  assert (Hsr' : ∃ res sup, sr = res ++ sup ∧
            ids_start_with "resistance_" res ∧ ids_start_with "support_" sup ∧
            NoDup (id <$> res) ∧ NoDup (id <$> sup) ∧
            Forall (fun p => 0 <= confidence p <= 0.9) sr).
  { destruct Hsr as [->|Hsr].
    - exists [], []. split_and!; try done; try constructor;
        by intros p ?%elem_of_nil.
    - destruct (level_ids_unique _ _ Hsr)
        as (_ & res & sup & -> & Hi1 & Hi2 & Hn1 & Hn2).
      exists res, sup. split_and!; try done.
      apply Forall_forall. intros p Hp.
      pose proof (level_confidence_in_range _ _ _ _ _ _ Hsr Hp) as [Hlo _].
      split; [done|].
      pose proof (detect_support_resistance_sound _ _ _ _ _ Hsr) as Hall.
      rewrite Forall_forall in Hall.
      destruct (Hall p Hp) as (? & ? & ? & ? & ? & _ & _ & -> & _).
      apply Rmin_l. }
  destruct Hsr' as (res & sup & -> & Hi1 & Hi2 & Hn1 & Hn2 & Hc1).
  assert (Htr' : ∃ short medium reversal, tr = short ++ medium ++ reversal ∧
            ids_start_with "trend_short_" short ∧
            ids_start_with "trend_medium_" medium ∧
            ids_start_with "bullish_divergence_" reversal ∧
            NoDup (id <$> short) ∧ NoDup (id <$> medium) ∧
            NoDup (id <$> reversal) ∧
            Forall (fun p => 0 <= confidence p <= 0.9) tr).
  { assert (Hshort_nd : ∀ l : list Pattern, (length l <= 1)%nat →
              NoDup (id <$> l)).
    { intros [|p [|q l]] Hl; cbn in Hl; [constructor|apply NoDup_singleton|lia]. }
    destruct Htr as [->|Htr].
    - exists [], [], []. split_and!; try done; try constructor;
        by intros p ?%elem_of_nil.
    - apply detect_trends_sound in Htr
        as (s & m & r & -> & (Hl1 & Hl2 & Hl3) & _ & _ & H1 & H2 & H3 & Hall).
      exists s, m, r. split_and!; try done; try by apply Hshort_nd.
      eapply Forall_impl; [exact Hall|]. cbn. by intros p (_ & ? & _). }
  destruct Htr' as (short & medium & reversal & -> & Hi3 & Hi4 & Hi5 &
                    Hn3 & Hn4 & Hn5 & Hc2).
  assert (Hcs' : NoDup (id <$> cs) ∧
            Forall (fun p => 0 <= confidence p <= 0.9) cs ∧
            ∃ l1 l2 l3 l4 l5, cs = mjoin [l1; l2; l3; l4; l5] ∧
              Forall (fun a => NoDup (id <$> a.2) ∧ ids_start_with a.1 a.2)
                [("doji_", l1); ("hammer_", l2); ("shooting_star_", l3);
                 ("bullish_engulfing_", l4); ("bearish_engulfing_", l5)]).
  { destruct Hcs as [->| ->].
    - split; [constructor|]. split; [constructor|].
      exists [], [], [], [], []. split; [done|].
      repeat constructor; by intros p ?%elem_of_nil.
    - split; [apply candlestick_ids_unique|]. split.
      + apply Forall_forall. intros p Hp.
        apply candlestick_confidence_fixed in Hp. lra.
      + eexists _, _, _, _, _. split; [apply detect_candlestick_patterns_app|].
        repeat constructor;
          first [ apply detect_doji_ids | apply detect_hammer_ids
                | apply detect_shooting_star_ids
                | apply detect_engulfing_bullish_ids
                | apply detect_engulfing_bearish_ids ]. }
  destruct Hcs' as (_ & Hc3 & l1 & l2 & l3 & l4 & l5 & -> & Hfam).
  split; [|apply Forall_app; split; [done|]; apply Forall_app; by split].
  replace ((res ++ sup) ++ (short ++ medium ++ reversal)
           ++ mjoin [l1; l2; l3; l4; l5])
    with (mjoin [res; sup; short; medium; reversal; l1; l2; l3; l4; l5])
    by (cbn [mjoin list_join]; by rewrite <- !app_assoc, !app_nil_r).
  apply (NoDup_ids_concat
    [("resistance_", res); ("support_", sup); ("trend_short_", short);
     ("trend_medium_", medium); ("bullish_divergence_", reversal);
     ("doji_", l1); ("hammer_", l2); ("shooting_star_", l3);
     ("bullish_engulfing_", l4); ("bearish_engulfing_", l5)]).
  - apart_prefixes.
  - rewrite !Forall_cons in Hfam. destruct Hfam as (? & ? & ? & ? & ? & _).
    repeat (constructor; [first [done | by split]|]). constructor.
Qed.

(** X20: the id of every level the detector returns ends in the
    position of the level in the returned list, the resistance levels
    (bearish) come before the support levels (bullish), and no two
    levels share an id; with at most two peaks and at most two valleys
    the detector returns no level. *)
Theorem X20_level_ids (data : DataFrame) :
  (∀ patterns,
     _detect_support_resistance DBSCAN_fit_predict find_peaks format_level data
       = ok patterns →
     NoDup (id <$> patterns) ∧
     ∃ n, (n <= length patterns)%nat ∧
       ∀ k p, patterns !! k = Some p →
         if decide (k < n)%nat
         then id p = "resistance_" +:+ pretty k ∧
              name p = "Resistance Level" ∧ signal p = bearish
         else id p = "support_" +:+ pretty k ∧
              name p = "Support Level" ∧ signal p = bullish) ∧
  ((length (_find_significant_peaks find_peaks (map high (rows data)) 0.001)
      <= 2)%nat →
   (length (_find_significant_valleys find_peaks (map low (rows data)) 0.001)
      <= 2)%nat →
   _detect_support_resistance DBSCAN_fit_predict find_peaks format_level data
     = ok []).
Proof.
  split.
  - intros patterns Hrun. split; [by apply (level_ids_unique data)|].
    apply detect_support_resistance_ids in Hrun
      as (res & sup & -> & Hres & Hsup & Hn1 & Hn2).
    rewrite Forall_forall in Hn1, Hn2.
    exists (length res). split; [rewrite length_app; lia|].
    intros k p Hk. apply lookup_app_Some in Hk as [Hk|[Hge Hk]].
    + rewrite decide_True by (by apply lookup_lt_Some in Hk).
      split; [by apply Hres|]. apply Hn1. by apply list_elem_of_lookup_2 in Hk.
    + rewrite decide_False by lia.
      split; [|apply Hn2; by apply list_elem_of_lookup_2 in Hk].
      rewrite (Hsup _ _ Hk). do 2 f_equal. lia.
  - intros Hpeaks Hvalleys. unfold _detect_support_resistance, append_levels.
    cbv zeta. rewrite decide_False by lia. cbn [mbind result_bind ok].
    rewrite decide_False by lia. reflexivity.
Qed.

(** X21: the trend detector returns at most three patterns with
    different ids, each of type trends, of a confidence between 0 and
    0.9 and with a bullish or bearish signal; on fewer than 20 rows it
    returns at most the divergence, on fewer than 50 at most two
    patterns. *)
Theorem X21_trend_patterns (data : DataFrame) (patterns : list Pattern) :
  _detect_trends linregress RSIIndicator_rsi argrelextrema_less data
    = ok patterns →
  (length patterns <= 3)%nat ∧
  NoDup (id <$> patterns) ∧
  Forall (fun p => type p = trends ∧ 0 <= confidence p <= 0.9 ∧
                   signal p ≠ neutral) patterns ∧
  ((length (rows data) < 20)%nat →
   (length patterns <= 1)%nat ∧
   ids_start_with "bullish_divergence_" patterns) ∧
  ((length (rows data) < 50)%nat → (length patterns <= 2)%nat).
Proof.
  intros Hrun. pose proof Hrun as Hrun'.
  apply detect_trends_sound in Hrun
    as (s & m & r & -> & (Hl1 & Hl2 & Hl3) & Hs & Hm & H1 & H2 & H3 & Hall).
  split_and!.
  - rewrite !length_app. lia.
  - assert (Hshort_nd : ∀ l : list Pattern, (length l <= 1)%nat →
              NoDup (id <$> l)).
    { intros [|p [|q l]] Hl; cbn in Hl;
        [constructor|apply NoDup_singleton|lia]. }
    replace (s ++ m ++ r) with (mjoin [s; m; r])
      by (cbn [mjoin list_join]; by rewrite app_nil_r).
    apply (NoDup_ids_concat
      [("trend_short_", s); ("trend_medium_", m); ("bullish_divergence_", r)]).
    + apart_prefixes.
    + repeat (constructor; [split; [by apply Hshort_nd|done]|]). constructor.
  - done.
  - intros Hlen.
    destruct s as [|? ?]; [|specialize (Hs ltac:(done)); lia].
    destruct m as [|? ?]; [|specialize (Hm ltac:(done)); lia].
    done.
  - intros Hlen.
    destruct m as [|? ?]; [|specialize (Hm ltac:(done)); lia].
    rewrite !length_app. cbn. lia.
Qed.

Lemma detect_patterns_sound data pattern_types patterns :
  detect_patterns linregress RSIIndicator_rsi argrelextrema_less
    DBSCAN_fit_predict find_peaks format_level data pattern_types
    = ok patterns →
  (∃ sr tr,
     (if decide ("support_resistance" ∈ selected pattern_types)
      then _detect_support_resistance DBSCAN_fit_predict find_peaks
             format_level data = ok sr
      else sr = []) ∧
     (if decide ("trends" ∈ selected pattern_types)
      then _detect_trends linregress RSIIndicator_rsi argrelextrema_less
             data = ok tr
      else tr = []) ∧
     patterns ≡ₚ sr ++ tr ++
       (if decide ("candlestick" ∈ selected pattern_types)
        then _detect_candlestick_patterns data else [])) ∧
  StronglySorted (fun p q => confidence p >= confidence q) patterns ∧
  Forall (fun p => 0 <= confidence p <= 0.9) patterns ∧
  NoDup (id <$> patterns).
Proof.
  intros Hrun.
  apply detect_patterns_found in Hrun as (sr & tr & Hsr & Htr & ->).
  set (cs := if decide ("candlestick" ∈ selected pattern_types)
             then _detect_candlestick_patterns data else []).
  destruct (found_patterns_sound data sr tr cs) as [Hnd Hconf].
  { destruct (decide ("support_resistance" ∈ _)); [by right|by left]. }
  { destruct (decide ("trends" ∈ _)); [by right|by left]. }
  { unfold cs. destruct (decide ("candlestick" ∈ _)); [by right|by left]. }
  pose proof (sort_reverse_perm confidence (sr ++ tr ++ cs)) as Hperm.
  split_and!.
  - by exists sr, tr.
  - apply sort_reverse_sorted.
  - by rewrite Hperm.
  - by rewrite Hperm.
Qed.

(** Without the level and the trend detector nothing can raise. *)
Lemma detect_patterns_returns data pattern_types :
  "support_resistance" ∉ selected pattern_types →
  "trends" ∉ selected pattern_types →
  detect_patterns linregress RSIIndicator_rsi argrelextrema_less
    DBSCAN_fit_predict find_peaks format_level data pattern_types
  = ok (sort_reverse confidence
          (if decide ("candlestick" ∈ selected pattern_types)
           then _detect_candlestick_patterns data else [])).
Proof.
  intros Hsr Htr. unfold detect_patterns. cbv zeta.
  change (match pattern_types with Some t => t | None => _ end)
    with (selected pattern_types).
  rewrite !decide_False by done. cbn [mbind result_bind ok].
  rewrite !decide_False by done. cbn [mbind result_bind ok].
  rewrite detect_chart_patterns_nil. do 2 f_equal.
  destruct (decide ("candlestick" ∈ _)), (decide ("technical" ∈ _));
    by rewrite ?app_nil_r.
Qed.

(** X22: what [detect_patterns] returns is the output of the selected
    detectors, reordered: no pattern is ahead of one of higher
    confidence, every confidence lies between 0 and 0.9, no two
    patterns share an id, and so the reliability scoring stores for
    every returned pattern its own score. When neither the levels nor
    the trends are selected the call does not raise. *)
Theorem X22_detect_patterns_ranked (data : DataFrame)
    (pattern_types : option (list string)) :
  (∀ patterns,
     detect_patterns linregress RSIIndicator_rsi argrelextrema_less
       DBSCAN_fit_predict find_peaks format_level data pattern_types
       = ok patterns →
     (∃ sr tr,
        (if decide ("support_resistance" ∈ selected pattern_types)
         then _detect_support_resistance DBSCAN_fit_predict find_peaks
                format_level data = ok sr
         else sr = []) ∧
        (if decide ("trends" ∈ selected pattern_types)
         then _detect_trends linregress RSIIndicator_rsi argrelextrema_less
                data = ok tr
         else tr = []) ∧
        patterns ≡ₚ sr ++ tr ++
          (if decide ("candlestick" ∈ selected pattern_types)
           then _detect_candlestick_patterns data else [])) ∧
     (∀ i j p q, (i < j)%nat → patterns !! i = Some p →
        patterns !! j = Some q → confidence p >= confidence q) ∧
     Forall (fun p => 0 <= confidence p <= 0.9) patterns ∧
     NoDup (id <$> patterns) ∧
     (∀ p, p ∈ patterns →
        calculate_reliability data patterns !! id p
        = Some (reliability_score data p))) ∧
  ("support_resistance" ∉ selected pattern_types →
   "trends" ∉ selected pattern_types →
   detect_patterns linregress RSIIndicator_rsi argrelextrema_less
     DBSCAN_fit_predict find_peaks format_level data pattern_types
   = ok (sort_reverse confidence
           (if decide ("candlestick" ∈ selected pattern_types)
            then _detect_candlestick_patterns data else []))).
Proof.
  split.
  - intros patterns Hrun.
    apply detect_patterns_sound in Hrun as (Hfound & Hsorted & Hconf & Hnd).
    split_and!; [done| |done|done|].
    + by apply (sorted_lookup (fun p q => confidence p >= confidence q)).
    + intros p Hp. by apply calculate_reliability_own_score.
  - apply detect_patterns_returns.
Qed.

End Detectors.

Lemma X20_level_ids_witness :
  _detect_support_resistance one_cluster first_three no_digits range_bound
    = ok range_bound_levels ∧
  (NoDup (id <$> range_bound_levels) ∧
   ∃ n, (n <= length range_bound_levels)%nat ∧
     ∀ k p, range_bound_levels !! k = Some p →
       if decide (k < n)%nat
       then id p = "resistance_" +:+ pretty k ∧
            name p = "Resistance Level" ∧ signal p = bearish
       else id p = "support_" +:+ pretty k ∧
            name p = "Support Level" ∧ signal p = bullish) ∧
  (length (_find_significant_peaks no_peaks (map high (rows range_bound)) 0.001)
     <= 2)%nat ∧
  (length (_find_significant_valleys no_peaks (map low (rows range_bound)) 0.001)
     <= 2)%nat ∧
  _detect_support_resistance one_cluster no_peaks no_digits range_bound = ok [].
Proof.
  assert (Hp : (length (_find_significant_peaks no_peaks
                          (map high (rows range_bound)) 0.001) <= 2)%nat)
    by (cbn; lia).
  assert (Hv : (length (_find_significant_valleys no_peaks
                          (map low (rows range_bound)) 0.001) <= 2)%nat)
    by (cbn; lia).
  split; [exact detect_support_resistance_example|].
  split; [exact (proj1 (X20_level_ids one_cluster first_three no_digits
                          range_bound) range_bound_levels
                   detect_support_resistance_example)|].
  split; [exact Hp|]. split; [exact Hv|].
  exact (proj2 (X20_level_ids one_cluster no_peaks no_digits range_bound)
           Hp Hv).
Defined.

Lemma detect_trends_example :
  _detect_trends unit_slope no_rsi no_minima twenty_flat = ok [short_uptrend].
Proof.
  assert (Hslope : Rabs 1 > 0.0001) by (rewrite Rabs_R1; lra).
  assert (Hup : 1 > 0) by lra.
  unfold _detect_trends, append_trend, _calculate_trend, unit_slope.
  cbv zeta.
  rewrite (decide_True (P := (20 <= _)%nat)) by (cbn; lia).
  cbn [mbind result_bind ok slope r_squared].
  rewrite (decide_True (P := Rabs 1 > 0.0001)) by done.
  rewrite !(decide_True (P := 1 > 0)) by done.
  reflexivity.
Qed.

Lemma X21_trend_patterns_witness :
  _detect_trends unit_slope no_rsi no_minima twenty_flat = ok [short_uptrend] ∧
  (length [short_uptrend] <= 3)%nat ∧
  NoDup (id <$> [short_uptrend]) ∧
  Forall (fun p => type p = trends ∧ 0 <= confidence p <= 0.9 ∧
                   signal p ≠ neutral) [short_uptrend] ∧
  ((length (rows twenty_flat) < 20)%nat →
   (length [short_uptrend] <= 1)%nat ∧
   ids_start_with "bullish_divergence_" [short_uptrend]) ∧
  ((length (rows twenty_flat) < 50)%nat → (length [short_uptrend] <= 2)%nat).
Proof.
  split; [exact detect_trends_example|].
  exact (X21_trend_patterns unit_slope no_rsi no_minima twenty_flat
           [short_uptrend] detect_trends_example).
Defined.

Lemma only_candlestick :
  ("support_resistance" ∉ selected (Some ["candlestick"])) ∧
  ("trends" ∉ selected (Some ["candlestick"])).
Proof.
  split; cbn; intros H%list_elem_of_singleton; discriminate H.
Qed.

Lemma X22_detect_patterns_ranked_witness :
  let patterns :=
    sort_reverse confidence
      (if decide ("candlestick" ∈ selected (Some ["candlestick"]))
       then _detect_candlestick_patterns one_doji else []) in
  ("support_resistance" ∉ selected (Some ["candlestick"])) ∧
  ("trends" ∉ selected (Some ["candlestick"])) ∧
  detect_patterns unit_slope no_rsi no_minima one_cluster no_peaks no_digits
    one_doji (Some ["candlestick"]) = ok patterns ∧
  Forall (fun p => 0 <= confidence p <= 0.9) patterns ∧
  NoDup (id <$> patterns).
Proof.
  cbv zeta.
  pose proof (X22_detect_patterns_ranked unit_slope no_rsi no_minima
                one_cluster no_peaks no_digits one_doji
                (Some ["candlestick"])) as [Hall Hreturns].
  destruct only_candlestick as [Hsr Htr].
  specialize (Hreturns Hsr Htr).
  destruct (Hall _ Hreturns) as (_ & _ & Hconf & Hnd & _).
  split; [exact Hsr|]. split; [exact Htr|]. split; [exact Hreturns|].
  split; [exact Hconf|exact Hnd].
Defined.
End DetectionFacts.

(** ** The pattern analysis of app.py *)

Module AppFacts.
Import PatternDetector Detection Vocabulary Examples PyFacts Terms Cases.
Import ReliabilityFacts CandlestickMore App SortFacts DetectionFacts.

Lemma signal_counts (l : list Pattern) :
  length l
  = (length (filter (fun p => signal p = bullish) l)
     + length (filter (fun p => signal p = bearish) l)
     + length (filter (fun p => signal p = neutral) l))%nat.
Proof.
  induction l as [|p l IH]; [done|].
  destruct (signal p) eqn:Hs.
  - rewrite filter_cons_True, !filter_cons_False by (rewrite Hs; done).
    cbn. lia.
  - rewrite filter_cons_False, filter_cons_True, filter_cons_False
      by (rewrite Hs; done).
    cbn. lia.
  - rewrite !filter_cons_False, filter_cons_True by (rewrite Hs; done).
    cbn. lia.
Qed.

Lemma fsum_bounds (lo hi : R) (l : list R) :
  Forall (fun x => lo <= x <= hi) l →
  lo * flen l <= fsum l <= hi * flen l.
Proof.
  unfold flen. induction 1 as [|x l Hx _ IH].
  - cbn. lra.
  - cbn [length fsum foldr]. rewrite S_INR. unfold fsum in IH. lra.
Qed.

Lemma np_mean_bounds (lo hi : R) (l : list R) :
  l ≠ [] → Forall (fun x => lo <= x <= hi) l → lo <= np_mean l <= hi.
Proof.
  intros Hne Hall. apply fsum_bounds in Hall. unfold np_mean.
  assert (0 < flen l).
  { unfold flen. destruct l; [done|]. cbn [length]. apply lt_0_INR. lia. }
  unfold Rdiv. split.
  - apply (Rmult_le_reg_r (flen l)); [lra|].
    rewrite Rmult_assoc, Rinv_l by lra. lra.
  - apply (Rmult_le_reg_r (flen l)); [lra|].
    rewrite Rmult_assoc, Rinv_l by lra. lra.
Qed.

Section Handler.
Variable linregress : list R → list R → result (R * R * R * R * R).
Variable RSIIndicator_rsi : list R → result (list (option R)).
Variable argrelextrema_less : list (option R) → nat → result (list nat).
Variable DBSCAN_fit_predict : R → nat → list R → list Z.
Variable find_peaks : list R → R → list nat.
Variable format_level : R → string.

(** X23: when the pattern analysis answers with a response, the
    reported patterns are those of [detect_patterns] in their order; the
    bullish, bearish and neutral counts add up to the number of
    patterns; the reliability score of each pattern is its own score
    (never the default 0): its confidence, times 1.02 when the data has
    a volume column, at most 0.918; the strongest signal is the signal
    of the first reported pattern; the average confidence lies between
    0 and 0.9. On data without rows the answer is 404. *)
Theorem X23_pattern_analysis (historical_data : DataFrame)
    (pattern_types : option (list string)) :
  (∀ r,
     analyze_patterns linregress RSIIndicator_rsi argrelextrema_less
       DBSCAN_fit_predict find_peaks format_level historical_data
       pattern_types = reply r →
     detect_patterns linregress RSIIndicator_rsi argrelextrema_less
       DBSCAN_fit_predict find_peaks format_level historical_data
       pattern_types = ok (patterns r).*1 ∧
     patterns_detected r = length (patterns r) ∧
     patterns_detected r
     = (bullish_patterns (summary r) + bearish_patterns (summary r)
        + neutral_patterns (summary r))%nat ∧
     Forall (fun '(p, score) =>
               score = reliability_score historical_data p ∧
               score = (if bool_decide ("volume" ∈ columns historical_data)
                        then confidence p * 1.02 else confidence p) ∧
               0 <= score <= 0.918) (patterns r) ∧
     strongest_signal (summary r)
     = match patterns r with
       | [] => neutral
       | (p, _) :: _ => signal p
       end ∧
     0 <= avg_confidence (summary r) <= 0.9) ∧
  (rows historical_data = [] →
   analyze_patterns linregress RSIIndicator_rsi argrelextrema_less
     DBSCAN_fit_predict find_peaks format_level historical_data
     pattern_types = not_found).
Proof.
  split.
  2:{ intros Hrows. unfold analyze_patterns.
      rewrite decide_True by (by left). reflexivity. }
  intros r. unfold analyze_patterns.
  destruct (decide (_ ∨ _)); [done|].
  destruct (detect_patterns _ _ _ _ _ _ _ _) as [e|found] eqn:Hrun; [done|].
  cbn [mbind result_bind try_except ok]. intros [= <-].
  cbn [patterns patterns_detected summary bullish_patterns bearish_patterns
       neutral_patterns avg_confidence strongest_signal].
  destruct (detect_patterns_sound linregress RSIIndicator_rsi
              argrelextrema_less DBSCAN_fit_predict find_peaks format_level
              historical_data pattern_types found Hrun)
    as (_ & Hsorted & Hconf & Hnd).
  split_and!.
  - rewrite <- list_fmap_compose. f_equal. symmetry. apply list_fmap_id.
  - by rewrite length_map.
  - apply signal_counts.
  - apply Forall_fmap, Forall_forall. intros p Hp. cbn.
    rewrite Forall_forall in Hconf. specialize (Hconf p Hp).
    unfold dict_get.
    rewrite (calculate_reliability_own_score _ _ _ Hnd Hp). cbn.
    split; [done|]. rewrite reliability_score_unfold.
    destruct (bool_decide ("volume" ∈ columns historical_data));
      rewrite Rmin_right by lra; split; first [done | lra].
  - destruct found as [|p rest]; [done|]. cbn [map fmap list_fmap].
    f_equal. apply max_by_head.
    by apply StronglySorted_inv in Hsorted as [_ Hhead].
  - destruct found as [|p rest]; [cbn; lra|].
    apply (np_mean_bounds 0 0.9); [done|]. by apply Forall_fmap.
  - destruct found as [|p rest]; [cbn; lra|].
    apply (np_mean_bounds 0 0.9); [done|]. by apply Forall_fmap.
Qed.

End Handler.

Lemma X23_pattern_analysis_witness :
  (∃ r,
     analyze_patterns unit_slope no_rsi no_minima one_cluster no_peaks
       no_digits one_doji (Some ["candlestick"]) = reply r ∧
     patterns_detected r = length (patterns r) ∧
     patterns_detected r
     = (bullish_patterns (summary r) + bearish_patterns (summary r)
        + neutral_patterns (summary r))%nat ∧
     0 <= avg_confidence (summary r) <= 0.9) ∧
  rows empty_series = [] ∧
  analyze_patterns unit_slope no_rsi no_minima one_cluster no_peaks no_digits
    empty_series None = not_found.
Proof.
  pose proof (X23_pattern_analysis unit_slope no_rsi no_minima one_cluster
                no_peaks no_digits one_doji (Some ["candlestick"]))
    as [Hall _].
  pose proof (X23_pattern_analysis unit_slope no_rsi no_minima one_cluster
                no_peaks no_digits empty_series None) as [_ Hempty].
  destruct only_candlestick as [Hsr Htr].
  split.
  - eexists. split.
    + unfold analyze_patterns.
      rewrite decide_False by (intros [H|H]; discriminate H).
      rewrite (detect_patterns_returns _ _ _ _ _ _ _ _ Hsr Htr).
      reflexivity.
    + match goal with |- context [patterns_detected ?r] =>
        destruct (Hall r) as (_ & H1 & H2 & _ & _ & H3)
      end.
      { unfold analyze_patterns.
        rewrite decide_False by (intros [H|H]; discriminate H).
        rewrite (detect_patterns_returns _ _ _ _ _ _ _ _ Hsr Htr).
        reflexivity. }
      split; [exact H1|]. split; [exact H2|exact H3].
  - split; [reflexivity|]. apply Hempty. reflexivity.
Defined.
End AppFacts.

(** ** The clustering of price levels *)

Module ClusterFacts.
Import PatternDetector Vocabulary Examples LevelFacts.

Lemma count_in_NoDup (x : Z) (cs : list Z) :
  NoDup cs →
  (sum_list_with (fun c => if decide (x = c) then 1 else 0) cs <= 1)%nat.
Proof.
  induction 1 as [|c cs Hc _ IH]; cbn; [lia|].
  destruct (decide (x = c)) as [->|]; [|lia].
  assert (sum_list_with (fun c' => if decide (c = c') then 1 else 0) cs = 0)%nat
    as ->; [|lia].
  clear IH. induction cs as [|d cs IH]; [done|]. cbn.
  apply not_elem_of_cons in Hc as [Hne Hc].
  rewrite decide_False by done. by rewrite IH.
Qed.

(** Clusters of different labels share no point: their sizes add up to
    at most the number of points. *)
Lemma cluster_sizes (zipped : list (R * Z)) (cs : list Z) :
  NoDup cs →
  (sum_list_with (fun c => length (filter (fun lp => lp.2 = c) zipped)) cs
   <= length zipped)%nat.
Proof.
  intros Hcs. induction zipped as [|lp zipped IH]; cbn [length].
  - induction cs as [|c cs IHc]; [done|]. cbn [sum_list_with].
    rewrite filter_nil. cbn [length] in *.
    apply NoDup_cons in Hcs as [_ Hcs]. specialize (IHc Hcs). lia.
  - assert (Hstep : ∀ l : list Z,
      sum_list_with (fun c => length (filter (fun lp0 => lp0.2 = c)
                                        (lp :: zipped))) l
      = (sum_list_with (fun c => if decide (lp.2 = c) then 1 else 0) l
         + sum_list_with (fun c => length (filter (fun lp0 => lp0.2 = c)
                                             zipped)) l)%nat).
    { induction l as [|c l IHl]; [done|]. cbn [sum_list_with].
      rewrite IHl. destruct (decide (lp.2 = c)).
      - rewrite filter_cons_True by done. cbn. lia.
      - rewrite filter_cons_False by done. lia. }
    rewrite Hstep. pose proof (count_in_NoDup lp.2 cs Hcs). lia.
Qed.

Section Levels.
Variable DBSCAN_fit_predict : R → nat → list R → list Z.

(** X24: whatever labels the clustering assigns, no level is counted in
    two clusters: every reported cluster has at least two touches and a
    strength that is not negative, the touches add up to at most the
    number of levels, and there are at most half as many clusters as
    levels; fewer than two levels give no cluster. *)
Theorem X24_cluster_levels (levels : list R) (eps : R) :
  let clusters := _cluster_levels DBSCAN_fit_predict levels eps in
  ((length levels < 2)%nat → clusters = []) ∧
  Forall (fun '(level, strength, touches) =>
            (2 <= touches)%nat ∧ 0 <= strength) clusters ∧
  (sum_list_with (fun c => c.2) clusters <= length levels)%nat ∧
  (2 * length clusters <= length levels)%nat.
Proof.
  cbv zeta. unfold _cluster_levels.
  destruct (decide (length levels < 2)%nat) as [Hlen|Hlen].
  { split_and!; [done|constructor|cbn; lia|cbn; lia]. }
  cbv zeta.
  set (labels := DBSCAN_fit_predict (eps * np_mean levels) 2 levels).
  set (cs := set_iteration labels).
  assert (Hcs : NoDup cs) by apply NoDup_set_iteration.
  assert (Hsize : (sum_list_with
            (fun c => length (filter (fun lp => lp.2 = c) (zip levels labels)))
            cs <= length levels)%nat).
  { etrans; [by apply cluster_sizes|]. rewrite length_zip. lia. }
  clearbody cs. clear Hcs.
  split; [lia|].
  match goal with |- context [cs ≫= ?f] => set (step := f) end.
  assert (Hall : ∀ l : list Z,
    Forall (fun '(level, strength, touches) =>
              (2 <= touches)%nat ∧ 0 <= strength) (l ≫= step) ∧
    (sum_list_with (fun c => c.2) (l ≫= step)
     <= sum_list_with
          (fun c => length (filter (fun lp => lp.2 = c) (zip levels labels)))
          l)%nat ∧
    (2 * length (l ≫= step)
     <= sum_list_with
          (fun c => length (filter (fun lp => lp.2 = c) (zip levels labels)))
          l)%nat).
  { induction l as [|c l (IH1 & IH2 & IH3)]; [by split_and!; [constructor|..]|].
    cbn [mbind list_bind sum_list_with].
    assert (Hpts : length (cluster_points levels labels c)
                   = length (filter (fun lp => lp.2 = c) (zip levels labels))).
    { unfold cluster_points. by rewrite length_fmap. }
    unfold step at 1 3 5.
    destruct (decide (c = (-1)%Z)); [cbn [app]; split_and!; [done|lia|lia]|].
    destruct (decide (2 <= length (cluster_points levels labels c))%nat);
      [|cbn [app]; split_and!; [done|lia|lia]].
    cbn [app sum_list_with length snd]. split_and!; [|lia|lia].
    constructor; [|done]. split; [done|].
    apply Rmult_le_pos; [apply pos_INR|apply sqrt_pos]. }
  destruct (Hall cs) as (H1 & H2 & H3). split_and!; [done|lia|lia].
Qed.

End Levels.

Lemma X24_cluster_levels_witness :
  (length [2 : R] < 2)%nat ∧ _cluster_levels one_cluster [2] 0.001 = [].
Proof.
  assert (Hlen : (length [2 : R] < 2)%nat) by (cbn; lia).
  split; [exact Hlen|].
  exact (proj1 (X24_cluster_levels one_cluster [2] 0.001) Hlen).
Defined.

End ClusterFacts.

(** ** The risk calculation of app.py *)

Module RiskEndpoint.
Import RiskCalculator Vocabulary Examples PyFacts Terms Cases.
Import App ScenarioFacts ErrorFacts VarFacts.

Lemma below_float_overflow (x : R) : Rabs x <= 100 → Rabs x < float_overflow.
Proof.
  intros Hx. unfold float_overflow.
  assert (H7 : 2 ^ 7 <= 2 ^ 1024) by (apply Rle_pow; [lra|lia]).
  assert (H128 : 2 ^ 7 = 128) by (cbn [pow]; lra).
  lra.
Qed.

Section RiskHandler.
Variable norm_ppf : R → R.
Variable np_percentile : list R → R → R.
Variable np_linalg_cholesky : matrix → result matrix.
Variable calculate_portfolio_risk_elsewhere :
  list Position → string → Level → M RiskResult.

Lemma four_scenarios portfolio :
  dom (run_scenario_analysis portfolio
         ["market_crash"; "high_volatility"; "trend_reversal";
          "correlation_breakdown"])
  = list_to_set known_scenarios.
Proof.
  unfold run_scenario_analysis.
  destruct (run_scenario_analysis_try_returns portfolio
              ["market_crash"; "high_volatility"; "trend_reversal";
               "correlation_breakdown"]) as (m & -> & Hdom).
  cbn [try_except ok]. rewrite Hdom. reflexivity.
Qed.

Lemma calculate_risk_responds portfolio timeframe conf scenarios_requested
    g r g' :
  portfolio ≠ [] →
  Rabs (conf * 100) < float_overflow →
  calculate_portfolio_risk norm_ppf np_percentile np_linalg_cholesky
    portfolio timeframe conf g = (ok r, g') →
  calculate_risk norm_ppf np_percentile np_linalg_cholesky
    calculate_portfolio_risk_elsewhere
    portfolio timeframe (level conf) scenarios_requested g
  = (ok (risk_reply
       {| total_positions := length portfolio;
          value_at_risk_key := "var_" +:+ pretty (python_int (conf * 100));
          risk_result := r;
          scenario_analysis :=
            if scenarios_requested then
              run_scenario_analysis portfolio
                ["market_crash"; "high_volatility"; "trend_reversal";
                 "correlation_breakdown"]
            else ∅ |}), g').
Proof.
  intros Hne Hfin Hr. unfold calculate_risk, try_exceptM.
  destruct portfolio as [|p portfolio]; [done|].
  rewrite (M_bind_ok _ _ _ _ _ Hr).
  unfold int_of_percent. by rewrite (decide_True (P := _ < _)).
Qed.


End RiskHandler.


End RiskEndpoint.

(** ** The sign of the correlation breakdown *)

Module BreakdownFacts.
Import RiskCalculator Vocabulary Examples PyFacts Terms.
Import TableFacts VolatilityFacts.

Lemma portfolio_volatility_pair s1 size1 entry1 s2 size2 entry2 use_correlations :
  0 < Rabs size1 * entry1 → 0 < Rabs size2 * entry2 →
  let n1 := Rabs size1 * entry1 in
  let n2 := Rabs size2 * entry2 in
  let v1 := dict_get default_volatilities s1 0.10 in
  let v2 := dict_get default_volatilities s2 0.10 in
  let w1 := n1 / (n1 + n2) in
  let w2 := n2 / (n1 + n2) in
  _calculate_portfolio_volatility
    [position_of (s1, size1, entry1); position_of (s2, size2, entry2)]
    use_correlations
  = sqrt (Rmax 0 ((w1 * v1) ^ 2 + (w2 * v2) ^ 2 +
                  (if use_correlations
                   then w1 * w2 * v1 * v2 * _get_correlation s1 s2
                        + w2 * w1 * v2 * v1 * _get_correlation s2 s1
                   else 0))).
Proof.
  intros H1 H2. cbv zeta.
  unfold _calculate_portfolio_volatility, total_notional, for_each.
  cbn -[Rabs dict_get truediv sqrt Rmax pow _get_correlation].
  unfold truediv. rewrite !decide_False by lra.
  cbn -[Rabs dict_get sqrt Rmax pow _get_correlation].
  destruct use_correlations; cbn -[Rabs dict_get sqrt Rmax pow _get_correlation].
  - f_equal. f_equal. field. lra.
  - f_equal. f_equal. field. lra.
Qed.

Lemma sqrt_Rmax_lt (a b : R) : 0 < b → a < b → sqrt (Rmax 0 a) < sqrt b.
Proof.
  intros Hb Hab. apply sqrt_lt_1_alt. split; [apply Rmax_l|].
  apply Rmax_lub_lt; lra.
Qed.

(** X26: for two positions of positive notional the correlation
    breakdown has probability 0.10 and lists both positions, and the
    loss it expects has the sign opposite to the correlation of the two
    symbols: negative (a gain) when they are positively correlated, zero
    when uncorrelated, positive when negatively correlated. *)
Theorem X26_breakdown_sign (s1 s2 : string) (size1 entry1 size2 entry2 : R) :
  0 < Rabs size1 * entry1 → 0 < Rabs size2 * entry2 →
  let r := _scenario_correlation_breakdown
             [position_of (s1, size1, entry1); position_of (s2, size2, entry2)] in
  probability r = 0.10 ∧
  length (affected_positions r) = 2%nat ∧
  (_get_correlation s1 s2 > 0 → expected_loss r < 0) ∧
  (_get_correlation s1 s2 = 0 → expected_loss r = 0) ∧
  (_get_correlation s1 s2 < 0 → expected_loss r > 0).
Proof.
  intros H1 H2. cbv zeta. unfold _scenario_correlation_breakdown. cbv zeta.
  rewrite !portfolio_volatility_pair by done. cbv zeta.
  rewrite (correlation_symmetric s2 s1).
  set (n1 := Rabs size1 * entry1) in *. set (n2 := Rabs size2 * entry2) in *.
  pose proof (volatility_range s1) as Hv1.
  pose proof (volatility_range s2) as Hv2.
  set (v1 := dict_get default_volatilities s1 0.10) in *.
  set (v2 := dict_get default_volatilities s2 0.10) in *.
  set (rho := _get_correlation s1 s2).
  assert (Hw1 : 0 < n1 / (n1 + n2)) by (apply Rdiv_lt_0_compat; lra).
  assert (Hw2 : 0 < n2 / (n1 + n2)) by (apply Rdiv_lt_0_compat; lra).
  set (w1 := n1 / (n1 + n2)) in *. set (w2 := n2 / (n1 + n2)) in *.
  clearbody w1 w2 v1 v2.
  assert (Ha : 0 < (w1 * v1) ^ 2 + (w2 * v2) ^ 2).
  { assert (0 < (w1 * v1) ^ 2)
      by (apply pow_lt, Rmult_lt_0_compat; lra).
    pose proof (pow2_ge_0 (w2 * v2)). lra. }
  assert (Hk : 0 < w1 * w2 * v1 * v2).
  { repeat apply Rmult_lt_0_compat; lra. }
  cbn [for_each for_enumerate mbind result_bind getitem symbol position_of
       ok try_except probability expected_loss affected_positions app length].
  rewrite Rplus_0_r.
  rewrite (Rmax_right 0 ((w1 * v1) ^ 2 + (w2 * v2) ^ 2)) by lra.
  set (a := (w1 * v1) ^ 2 + (w2 * v2) ^ 2) in *.
  replace (w1 * w2 * v1 * v2 * rho + w2 * w1 * v2 * v1 * rho)
    with (2 * (w1 * w2 * v1 * v2) * rho) by ring.
  set (k := w1 * w2 * v1 * v2) in *. clearbody a k rho.
  cbn -[sqrt Rmax].
  split_and!; [done|done| | |].
  - intros Hrho.
    assert (sqrt a < sqrt (Rmax 0 (a + 2 * k * rho))).
    { rewrite Rmax_right by nra. apply sqrt_lt_1_alt. nra. }
    lra.
  - intros Hrho. rewrite Hrho, Rmult_0_r, Rplus_0_r, Rmax_right by lra. lra.
  - intros Hrho.
    assert (sqrt (Rmax 0 (a + 2 * k * rho)) < sqrt a)
      by (apply sqrt_Rmax_lt; nra).
    lra.
Qed.

Lemma X26_breakdown_sign_witness :
  0 < Rabs 1 * 1 ∧ _get_correlation "EURUSD" "GBPUSD" > 0 ∧
  expected_loss (_scenario_correlation_breakdown (map position_of eurusd_gbpusd))
    < 0.
Proof.
  assert (Hn : 0 < Rabs 1 * 1) by (rewrite Rabs_R1; lra).
  assert (Hrho : _get_correlation "EURUSD" "GBPUSD" > 0)
    by (rewrite PositionFacts.correlation_eurusd_gbpusd; lra).
  split; [exact Hn|]. split; [exact Hrho|].
  exact (proj1 (proj2 (proj2 (X26_breakdown_sign "EURUSD" "GBPUSD" 1 1 1 1
                                Hn Hn))) Hrho).
Defined.

End BreakdownFacts.

(** ** The parameters reported with a candlestick pattern *)

Module ParameterFacts.
Import PatternDetector Vocabulary Examples Terms Cases.
Import CandlestickFacts CandlestickMore.

Lemma div_gt (a b k : R) : 0 < b → a > k * b → a / b > k.
Proof.
  intros Hb Hab. unfold Rdiv.
  apply (Rmult_lt_reg_r b); [done|].
  rewrite Rmult_assoc, Rinv_l, Rmult_1_r by lra. lra.
Qed.

Lemma div_lt (a b k : R) : 0 < b → a < k * b → a / b < k.
Proof.
  intros Hb Hab. unfold Rdiv.
  apply (Rmult_lt_reg_r b); [done|].
  rewrite Rmult_assoc, Rinv_l, Rmult_1_r by lra. lra.
Qed.

(** X27: every candlestick pattern carries, next to its type, one ratio
    that agrees with the threshold of its matcher: a body ratio in
    [0, 0.1) for a doji, a shadow ratio above 2 for a hammer and a
    shooting star, an engulfing ratio above 1 for the two engulfing
    patterns; the guarded divisions never report their fallback 0 for
    the last four. *)
Theorem X27_candlestick_parameters (data : DataFrame) (p : Pattern) :
  p ∈ _detect_candlestick_patterns data →
  ∃ key r kind,
    parameters p = [(key, VFloat r); ("type", VStr kind)] ∧
    ((name p = "Doji" ∧ key = "body_ratio" ∧ 0 <= r < 0.1) ∨
     (name p = "Hammer" ∧ key = "lower_shadow_ratio" ∧ r > 2) ∨
     (name p = "Shooting Star" ∧ key = "upper_shadow_ratio" ∧ r > 2) ∨
     (name p = "Bullish Engulfing" ∧ key = "engulfing_ratio" ∧ r > 1) ∨
     (name p = "Bearish Engulfing" ∧ key = "engulfing_ratio" ∧ r > 1)).
Proof.
  rewrite detect_candlestick_patterns_app. cbn [mjoin list_join].
  rewrite !elem_of_app. intros Hin.
  destruct Hin as [Hin|[Hin|[Hin|[Hin|[Hin|Hin]]]]];
    [| | | | |by apply elem_of_nil in Hin].
  - apply list_elem_of_bind in Hin as (i & Hp & _).
    destruct (iloc data i) as [candle|]; [|by apply elem_of_nil in Hp].
    cbv zeta in Hp.
    destruct (doji_condition candle) eqn:Hcond; [|by apply elem_of_nil in Hp].
    apply list_elem_of_singleton in Hp as ->.
    apply doji_condition_spec in Hcond as [Hrange Hbody].
    eexists _, _, _. split; [reflexivity|]. left.
    split; [done|]. split; [done|].
    rewrite decide_True by lra.
    pose proof (body_size_nonneg candle). split.
    + apply Rmult_le_pos; [done|]. apply Rlt_le, Rinv_0_lt_compat. lra.
    + apply div_lt; lra.
  - apply list_elem_of_bind in Hin as (i & Hp & _).
    destruct (iloc data i) as [candle|]; [|by apply elem_of_nil in Hp].
    destruct (hammer_condition candle) eqn:Hcond; [|by apply elem_of_nil in Hp].
    apply list_elem_of_singleton in Hp as ->.
    apply hammer_condition_spec in Hcond as (Hbody & Hlow & _).
    eexists _, _, _. split; [reflexivity|]. right. left.
    split; [done|]. split; [done|].
    rewrite decide_True by lra. apply div_gt; lra.
  - apply list_elem_of_bind in Hin as (i & Hp & _).
    destruct (iloc data i) as [candle|]; [|by apply elem_of_nil in Hp].
    destruct (shooting_star_condition candle) eqn:Hcond;
      [|by apply elem_of_nil in Hp].
    apply list_elem_of_singleton in Hp as ->.
    apply shooting_star_condition_spec in Hcond as (Hbody & Hup & _).
    eexists _, _, _. split; [reflexivity|]. right. right. left.
    split; [done|]. split; [done|].
    rewrite decide_True by lra. apply div_gt; lra.
  - apply list_elem_of_bind in Hin as (i & Hp & _).
    destruct (iloc data (i - 1)) as [prev|]; [|by apply elem_of_nil in Hp].
    destruct (iloc data i) as [curr|]; [|by apply elem_of_nil in Hp].
    destruct (engulfing_bullish_condition prev curr) eqn:Hcond;
      [|by apply elem_of_nil in Hp].
    apply list_elem_of_singleton in Hp as ->.
    apply engulfing_bullish_condition_spec in Hcond as (H1 & H2 & H3 & H4).
    eexists _, _, _. split; [reflexivity|]. do 3 right. left.
    split; [done|]. split; [done|]. apply div_gt; lra.
  - apply list_elem_of_bind in Hin as (i & Hp & _).
    destruct (iloc data (i - 1)) as [prev|]; [|by apply elem_of_nil in Hp].
    destruct (iloc data i) as [curr|]; [|by apply elem_of_nil in Hp].
    destruct (engulfing_bearish_condition prev curr) eqn:Hcond;
      [|by apply elem_of_nil in Hp].
    apply list_elem_of_singleton in Hp as ->.
    apply engulfing_bearish_condition_spec in Hcond as (H1 & H2 & H3 & H4).
    eexists _, _, _. split; [reflexivity|]. do 4 right.
    split; [done|]. split; [done|]. apply div_gt; lra.
Qed.

Lemma X27_candlestick_parameters_witness :
  doji_at_0 ∈ _detect_candlestick_patterns one_doji ∧
  ∃ key r kind,
    parameters doji_at_0 = [(key, VFloat r); ("type", VStr kind)] ∧
    ((name doji_at_0 = "Doji" ∧ key = "body_ratio" ∧ 0 <= r < 0.1) ∨
     (name doji_at_0 = "Hammer" ∧ key = "lower_shadow_ratio" ∧ r > 2) ∨
     (name doji_at_0 = "Shooting Star" ∧ key = "upper_shadow_ratio" ∧ r > 2) ∨
     (name doji_at_0 = "Bullish Engulfing" ∧ key = "engulfing_ratio" ∧ r > 1) ∨
     (name doji_at_0 = "Bearish Engulfing" ∧ key = "engulfing_ratio" ∧ r > 1)).
Proof.
  split; [exact doji_at_0_detected|].
  exact (X27_candlestick_parameters one_doji doji_at_0 doji_at_0_detected).
Defined.

End ParameterFacts.
